(** * 4D project tools: root location, class scanning, dependency manifest

    A shallow embedding of the parts of the 4D skills scripts that decide
    how a project root is located ([find_project_root] in
    [project_info.py], [add_dependency.py] and [clean.py]), how a class
    file is scanned for declarations ([analyze_class]), how the source
    tree is enumerated ([count_files], [analyze_forms], [main]) and how a
    dependency entry is built and merged into the manifest
    ([parse_github_url], [add_dependency]).

    Modelling conventions.
    - A Python [str] is a [string].  In the class scanner, whose
      patterns use the character classes of [re] and [str], one [ascii]
      stands for one code point below 256; the classes are written out
      on that range, so the statements about class texts speak of the
      texts whose code points are below 256.
    - [add_dependency.py] only ever looks for ASCII characters in its
      strings, so there a [string] stands for any [str] by the bytes of
      its UTF-8 encoding, a surrogate code point being encoded like any
      other (three bytes, Python's [surrogatepass]).  The functions of
      that script act on these bytes as they act on the code points, and
      a [str] can be written to a UTF-8 file exactly when its bytes are
      well-formed UTF-8 ([Manifest.utf8_ok]).
    - Limits of the interpreter and of the system (recursion depth,
      memory, permissions, disk space) are not modelled beyond the
      states of a file listed in [Manifest.file_state].
    - A resolved absolute [pathlib.Path] (POSIX flavour, symbolic links
      already followed) is the list of its components, innermost first,
      so that [Path.parent] is the tail and the filesystem root is the
      empty list.
    - The filesystem is a tree whose directories keep their entries in the
      order the operating system lists them.
    - A function that raises returns [None] or a [Raise] value; a file
      that a function reads or writes is passed in and returned as an
      explicit state. *)

From Stdlib Require Import String Ascii List Bool Arith Lia ZArith OrderedTypeEx
  Permutation.
Import ListNotations.
Open Scope string_scope.
Open Scope list_scope.

Set Implicit Arguments.
Set Warnings "-register-all".

(** ** Strings *)

Module Str.

(** [s.endswith(suf)] *)
Definition endswith (s suf : string) : bool :=
  let n := String.length s in
  let m := String.length suf in
  Nat.leb m n && String.eqb (substring (n - m) m s) suf.

(** [s.startswith(pre)] *)
Definition startswith (s pre : string) : bool := String.prefix pre s.

(** [s.rfind(c)] for a single character; [None] stands for [-1]. *)
Fixpoint rfind (c : ascii) (s : string) : option nat :=
  match s with
  | EmptyString => None
  | String a t =>
      match rfind c t with
      | Some i => Some (S i)
      | None => if Ascii.eqb a c then Some 0 else None
      end
  end.

(** [PurePath.suffix] and [PurePath.stem], computed from the final
    component as pathlib does (CPython up to 3.13): the last dot counts
    only when it is neither the first nor the last character of the
    name. *)
Definition split_ext (name : string) : string * string :=
  match rfind "." name with
  | Some i =>
      if Nat.ltb 0 i && Nat.ltb i (String.length name - 1)
      then (substring 0 i name, substring i (String.length name - i) name)
      else (name, "")
  | None => (name, "")
  end.

Definition suffix (name : string) : string := snd (split_ext name).
Definition stem (name : string) : string := fst (split_ext name).

End Str.

(** ** The filesystem *)

Inductive node : Type :=
| File (content : string)
| Dir (entries : list (string * node)).

Definition Path := list string.

Definition parent (p : Path) : Path := tl p.
Definition name (p : Path) : string := hd "" p.
Definition joinpath (p : Path) (c : string) : Path := c :: p.

Notation "p // c" := (joinpath p c) (at level 40, left associativity).

(** [Path.parents]: the proper ancestors, closest first, ending with the
    filesystem root. *)
Fixpoint parents (p : Path) : list Path :=
  match p with
  | [] => []
  | _ :: q => q :: parents q
  end.

(** A directory and all its ancestors, closest first. *)
Definition ancestors (p : Path) : list Path := p :: parents p.

Fixpoint find_entry (c : string) (es : list (string * node)) : option node :=
  match es with
  | [] => None
  | (n, x) :: es' => if String.eqb n c then Some x else find_entry c es'
  end.

(** Resolution of a path given outermost component first. *)
Fixpoint walk_down (n : node) (cs : list string) : option node :=
  match cs with
  | [] => Some n
  | c :: cs' =>
      match n with
      | Dir es =>
          match find_entry c es with
          | Some x => walk_down x cs'
          | None => None
          end
      | File _ => None
      end
  end.

Definition stat (fs : node) (p : Path) : option node := walk_down fs (rev p).

Definition is_dir (fs : node) (p : Path) : bool :=
  match stat fs p with Some (Dir _) => true | _ => false end.

Definition is_file (fs : node) (p : Path) : bool :=
  match stat fs p with Some (File _) => true | _ => false end.

Definition exists_ (fs : node) (p : Path) : bool :=
  match stat fs p with Some _ => true | None => false end.

(** [Path.iterdir], in listing order; guarded by [is_dir] at every use. *)
Definition iterdir (fs : node) (p : Path) : list Path :=
  match stat fs p with
  | Some (Dir es) => map (fun e => p // fst e) es
  | _ => []
  end.

(** [Path.glob("*" + ext)]: the entries whose name ends with [ext], in
    listing order; nothing when the directory does not exist. *)
Definition glob_ext (fs : node) (p : Path) (ext : string) : list Path :=
  filter (fun f => Str.endswith (name f) ext) (iterdir fs p).

(** ** Root location *)

(** [project_info.py] *)
Module ProjectInfo.

(** Body of the loop of [find_project_root]: the test made on one
    ancestor [d]. *)
Definition has_project_file (fs : node) (d : Path) : bool :=
  let project_dir := d // "Project" in
  is_dir fs project_dir
  && existsb (fun f => String.eqb (Str.suffix (name f)) ".4DProject")
             (iterdir fs project_dir).

(** The directory the walk starts from. *)
Definition start_dir (fs : node) (start_path : Path) : Path :=
  if is_file fs start_path then parent start_path else start_path.

Definition find_project_root (fs : node) (start_path : Path) : option Path :=
  let p := start_dir fs start_path in
  find (has_project_file fs) (p :: parents p).

(** How many entries of [d/Project] carry the project extension. *)
Definition project_file_count (fs : node) (d : Path) : nat :=
  List.length
    (filter (fun f => String.eqb (Str.suffix (name f)) ".4DProject")
            (iterdir fs (d // "Project"))).

End ProjectInfo.

(** [add_dependency.py] *)
Module AddDependency.

(** The [while current != current.parent] loop: it is left when
    [current] is the filesystem root. *)
Fixpoint find_project_root (fs : node) (current : Path) : option Path :=
  match current with
  | [] => None
  | _ :: up =>
      if is_dir fs (current // "Project" // "Sources") then Some current
      else if String.eqb (name current) "Sources"
              && String.eqb (name (parent current)) "Project"
      then Some (parent (parent current))
      else if String.eqb (name current) "Project"
              && is_dir fs (current // "Sources")
      then Some (parent current)
      else find_project_root fs up
  end.

(** The first of the tests above: [d] holds [Project/Sources]. *)
Definition contains_sources (fs : node) (d : Path) : bool :=
  is_dir fs (d // "Project" // "Sources").

End AddDependency.

(** [clean.py]; [None] stands for the raised [FileNotFoundError]. *)
Module Clean.

Definition has_project_file (fs : node) (d : Path) : bool :=
  let project_folder := d // "Project" in
  is_dir fs project_folder
  && existsb (is_file fs) (glob_ext fs project_folder ".4DProject").

Definition inside_project (fs : node) (d : Path) : bool :=
  String.eqb (name d) "Project"
  && existsb (is_file fs) (glob_ext fs d ".4DProject").

Fixpoint search (fs : node) (search_dirs : list Path) : option Path :=
  match search_dirs with
  | [] => None
  | directory :: rest =>
      if has_project_file fs directory then Some directory
      else if inside_project fs directory then Some (parent directory)
      else search fs rest
  end.

Definition find_project_root (fs : node) (start_path : Path) : option Path :=
  search fs ([start_path] ++ parents start_path).

(** How many regular files of [d/Project] match the project glob. *)
Definition project_file_count (fs : node) (d : Path) : nat :=
  List.length (filter (is_file fs) (glob_ext fs (d // "Project") ".4DProject")).

End Clean.

(** Sample trees. *)

(** A project under [/home/app]. *)
Definition project_tree : node :=
  Dir [("home",
        Dir [("app",
              Dir [("Project",
                    Dir [("Sources", Dir [("Methods", Dir [("m.4dm", File "x")])]);
                         ("app.4DProject", File "{}")])])])].

(** A machine whose filesystem root is itself the project, with one more
    top-level directory next to [Project]. *)
Definition top_level_project : node :=
  Dir [("work", Dir []);
       ("Project",
        Dir [("Sources", Dir [("Methods", Dir [("m.4dm", File "x")])]);
             ("app.4DProject", File "{}")])].

(** A [Project] folder holding two project files. *)
Definition two_project_files : node :=
  Dir [("app", Dir [("Project",
        Dir [("a.4DProject", File "{}"); ("b.4DProject", File "{}")])])].


(** ** Character classes and line handling *)

Module Chars.

Definition code (a : ascii) : nat := nat_of_ascii a.

Definition between (lo hi : nat) (a : ascii) : bool :=
  Nat.leb lo (code a) && Nat.leb (code a) hi.

(** [str.isspace], which is also what [\s] and [str.strip] use. *)
Definition is_space (a : ascii) : bool :=
  between 9 13 a || between 28 32 a
  || Nat.eqb (code a) 133 || Nat.eqb (code a) 160.

(** [str.isalnum] on the code points below 256. *)
Definition is_alnum (a : ascii) : bool :=
  between 48 57 a || between 65 90 a || between 97 122 a
  || Nat.eqb (code a) 170 || between 178 179 a || Nat.eqb (code a) 181
  || between 185 186 a || between 188 190 a
  || between 192 214 a || between 216 246 a || between 248 255 a.

(** [\w] *)
Definition is_word (a : ascii) : bool := is_alnum a || Ascii.eqb a "_".

(** [[\w.]] *)
Definition is_word_or_dot (a : ascii) : bool := is_word a || Ascii.eqb a ".".

(** [.] without [re.DOTALL] *)
Definition is_dot (a : ascii) : bool := negb (Ascii.eqb a "010").

(** [[^/]] *)
Definition not_slash (a : ascii) : bool := negb (Ascii.eqb a "/").

(** The line boundaries of [str.splitlines]. *)
Definition is_linebreak (a : ascii) : bool :=
  between 10 13 a || between 28 30 a || Nat.eqb (code a) 133.

Definition lower (a : ascii) : ascii :=
  if between 65 90 a then ascii_of_nat (code a + 32) else a.

(** How a literal [x] of a pattern compares with a character of the
    subject; the literals of the patterns below are ASCII. *)
Definition lit_eq (ignorecase : bool) (x a : ascii) : bool :=
  if ignorecase then Ascii.eqb (lower x) (lower a) else Ascii.eqb x a.

End Chars.

Module Text.
Import Chars.

Fixpoint lstrip (s : string) : string :=
  match s with
  | EmptyString => EmptyString
  | String a t => if is_space a then lstrip t else s
  end.

Fixpoint rstrip (s : string) : string :=
  match s with
  | EmptyString => EmptyString
  | String a t =>
      match rstrip t with
      | EmptyString => if is_space a then EmptyString else String a EmptyString
      | t' => String a t'
      end
  end.

(** [s.strip()] *)
Definition strip (s : string) : string := rstrip (lstrip s).

(** [s.splitlines()]; [after_cr] records that the previous character
    was a carriage return, whose following line feed belongs to the
    same boundary. *)
Fixpoint splitlines_from (after_cr : bool) (s : string) : list string :=
  match s with
  | EmptyString => []
  | String a t =>
      if after_cr && Ascii.eqb a "010" then splitlines_from false t
      else if is_linebreak a
      then EmptyString :: splitlines_from (Ascii.eqb a "013") t
      else match splitlines_from false t with
           | [] => [String a EmptyString]
           | l :: ls => String a l :: ls
           end
  end.

Definition splitlines (s : string) : list string := splitlines_from false s.

End Text.

(** ** Backtracking matcher for the regular expressions of the scripts *)

Module Re.
Import Chars.

Inductive regex : Type :=
| Eps
| Lit (x : ascii)
| One (p : ascii -> bool)
| Cat (r1 r2 : regex)
| Opt (r : regex)
| Star (p : ascii -> bool)
| Plus (p : ascii -> bool)
| PlusLazy (p : ascii -> bool)
| Group (n : nat) (r : regex)
| Eos.

(** A literal word. *)
Fixpoint word (s : string) : regex :=
  match s with
  | EmptyString => Eps
  | String a t => Cat (Lit a) (word t)
  end.

Fixpoint seq (rs : list regex) : regex :=
  match rs with
  | [] => Eps
  | r :: rs' => Cat r (seq rs')
  end.

(** Captured groups, most recent first. *)
Definition captures := list (nat * string).

Section Engine.
Variable A : Type.

(** [p*], greedy: take one more character first, give it back when
    the rest of the pattern fails. *)
Fixpoint star (p : ascii -> bool) (s : string)
         (k : string -> option A) : option A :=
  match s with
  | String a t =>
      if p a
      then match star p t k with
           | Some r => Some r
           | None => k s
           end
      else k s
  | EmptyString => k s
  end.

(** The tail of [p+?] once one character is taken: try the rest of
    the pattern first, take one more character when it fails. *)
Fixpoint lazy_more (p : ascii -> bool) (s : string)
         (k : string -> option A) : option A :=
  match k s with
  | Some r => Some r
  | None =>
      match s with
      | String a t => if p a then lazy_more p t k else None
      | EmptyString => None
      end
  end.
End Engine.

(** The text consumed between subject position [s] and the later
    position [s']. *)
Definition consumed (s s' : string) : string :=
  substring 0 (String.length s - String.length s') s.

(** [$]: at the end, or before a final line feed. *)
Definition at_end (s : string) : bool :=
  match s with
  | EmptyString => true
  | String a EmptyString => Ascii.eqb a "010"
  | _ => false
  end.

Fixpoint run (ic : bool) (r : regex) (s : string) (c : captures)
         (k : string -> captures -> option captures) : option captures :=
  match r with
  | Eps => k s c
  | Lit x =>
      match s with
      | String a t => if lit_eq ic x a then k t c else None
      | EmptyString => None
      end
  | One p =>
      match s with
      | String a t => if p a then k t c else None
      | EmptyString => None
      end
  | Cat r1 r2 => run ic r1 s c (fun s' c' => run ic r2 s' c' k)
  | Opt r1 =>
      match run ic r1 s c k with
      | Some m => Some m
      | None => k s c
      end
  | Star p => star p s (fun s' => k s' c)
  | Plus p =>
      match s with
      | String a t => if p a then star p t (fun s' => k s' c) else None
      | EmptyString => None
      end
  | PlusLazy p =>
      match s with
      | String a t => if p a then lazy_more p t (fun s' => k s' c) else None
      | EmptyString => None
      end
  | Group n r1 => run ic r1 s c (fun s' c' => k s' ((n, consumed s s') :: c'))
  | Eos => if at_end s then k s c else None
  end.

(** [re.match(pattern, s, flags)]: anchored at the start only. *)
Definition re_match (ic : bool) (r : regex) (s : string) : option captures :=
  run ic r s [] (fun _ c => Some c).

(** [m.group(n)]; [None] when the group took no part in the match. *)
Fixpoint group (n : nat) (m : captures) : option string :=
  match m with
  | [] => None
  | (i, s) :: m' => if Nat.eqb i n then Some s else group n m'
  end.

(** Python truth value of [m.group(n)]. *)
Definition group_truthy (n : nat) (m : captures) : bool :=
  match group n m with
  | Some (String _ _) => true
  | _ => false
  end.

Definition group_str (n : nat) (m : captures) : string :=
  match group n m with Some s => s | None => EmptyString end.

End Re.

(** ** Class scanning ([project_info.py]) *)

Module ClassScan.
Import Chars Text Re.

(** The pattern "Class\s+extends\s+(.+)". *)
Definition re_extends : regex :=
  seq [word "Class"; Plus is_space; word "extends"; Plus is_space;
       Group 1 (Plus is_dot)].

(** The pattern "property\s+(.+)". *)
Definition re_property : regex :=
  seq [word "property"; Plus is_space; Group 1 (Plus is_dot)].

(** The pattern "(exposed\s+)?(shared\s+)?Function\s+(NAME)", where NAME
    stands for "\w[\w.]*". *)
Definition re_function : regex :=
  seq [Opt (Group 1 (Cat (word "exposed") (Plus is_space)));
       Opt (Group 2 (Cat (word "shared") (Plus is_space)));
       word "Function"; Plus is_space;
       Group 3 (Cat (One is_word) (Star is_word_or_dot))].

Record scan_state : Type := mkScan {
  props : list string;
  funcs : list string;
  extends : option string
}.

Definition scan_init : scan_state := mkScan [] [] None.

(** Body of the [for line in lines] loop. *)
Definition scan_line (st : scan_state) (line : string) : scan_state :=
  let stripped := strip line in
  let st1 :=
    match re_match true re_extends stripped with
    | Some m => mkScan (props st) (funcs st) (Some (strip (group_str 1 m)))
    | None => st
    end in
  let st2 :=
    match re_match true re_property stripped with
    | Some m => mkScan (props st1 ++ [strip (group_str 1 m)]) (funcs st1) (extends st1)
    | None => st1
    end in
  match re_match true re_function stripped with
  | Some m =>
      let prefix := EmptyString in
      let prefix := if group_truthy 1 m then (prefix ++ "exposed ")%string else prefix in
      let prefix := if group_truthy 2 m then (prefix ++ "shared ")%string else prefix in
      mkScan (props st2) (funcs st2 ++ [(prefix ++ group_str 3 m)%string]) (extends st2)
  | None => st2
  end.

Record class_info : Type := mkClass {
  cname : string;
  clines : nat;
  properties : list string;
  functions : list string;
  cextends : option string
}.

(** [analyze_class]; [stem] is [filepath.stem] and [content] the result
    of [read_text], [None] when it raised. *)
Definition analyze_class (stem : string) (content : option string) : class_info :=
  match content with
  | None => mkClass stem 0 [] [] None
  | Some text =>
      let lines := splitlines text in
      let st := fold_left scan_line lines scan_init in
      mkClass stem (List.length lines) (props st) (funcs st) (extends st)
  end.

(** A line is recognized when one of the three patterns matches it. *)
Definition is_some {A : Type} (o : option A) : bool :=
  match o with Some _ => true | None => false end.

Definition recognized (line : string) : bool :=
  let stripped := strip line in
  is_some (re_match true re_extends stripped)
  || is_some (re_match true re_property stripped)
  || is_some (re_match true re_function stripped).

(** [analyze_method] *)
Definition analyze_method (stem : string) (content : option string) : string * nat :=
  match content with
  | None => (stem, 0)
  | Some text => (stem, List.length (splitlines text))
  end.

End ClassScan.

Definition nl : string := String "010" EmptyString.

Definition sample_class : string :=
  ("Class extends Foo" ++ nl ++ "property x" ++ nl ++ "Function bar" ++ nl
   ++ "exposed shared Function baz" ++ nl)%string.


(** Shapes of declaration lines, used to state what is recognized. *)
Module LineShape.
Import Chars.

(** [s] spells the keyword [lit], letter case aside. *)
Fixpoint same_word (lit s : string) : bool :=
  match lit, s with
  | EmptyString, EmptyString => true
  | String x lit', String a s' => lit_eq true x a && same_word lit' s'
  | _, _ => false
  end.

Fixpoint all_chars (p : ascii -> bool) (s : string) : bool :=
  match s with
  | EmptyString => true
  | String a t => p a && all_chars p t
  end.

(** One or more whitespace characters. *)
Definition blank (s : string) : bool :=
  match s with
  | EmptyString => false
  | String _ _ => all_chars is_space s
  end.

(** A word character followed by word characters and dots. *)
Definition is_name (s : string) : bool :=
  match s with
  | EmptyString => false
  | String a t => is_word a && all_chars is_word_or_dot t
  end.

(** What follows a name does not continue it. *)
Definition ends_name (rest : string) : bool :=
  match rest with
  | EmptyString => true
  | String a _ => negb (is_word_or_dot a)
  end.

(** The subject does not go on with a character of class [p]. *)
Definition stops (p : ascii -> bool) (s : string) : Prop :=
  match s with
  | EmptyString => True
  | String a _ => p a = false
  end.

(** The subject starts with the letter [x], in either case. *)
Definition head_is (x : ascii) (s : string) : bool :=
  match s with
  | EmptyString => false
  | String a _ => lit_eq true x a
  end.

(** A modifier that is present is its keyword followed by whitespace. *)
Definition modifier_ok (lit : string) (present : bool) (kw ws : string) : bool :=
  implb present (same_word lit kw && blank ws).

(** An optional modifier keyword with the whitespace after it. *)
Definition modifier (present : bool) (kw ws : string) : string :=
  if present then (kw ++ ws)%string else EmptyString.

(** The text [analyze_class] records for a function. *)
Definition recorded (exposed shared : bool) (fname : string) : string :=
  ((if exposed then "exposed " else "") ++ (if shared then "shared " else "")
   ++ fname)%string.

End LineShape.

(** ** JSON values and Python dictionaries *)

(** What [json.load] builds.  A [dict] keeps its keys in insertion order,
    which is the order [json.dump] writes them in. *)
Inductive json : Type :=
| JNull
| JBool (b : bool)
| JInt (z : Z)
| JFloat (repr : string)
| JStr (s : string)
| JList (xs : list json)
| JDict (kvs : list (string * json)).

Module Dict.

Definition t := list (string * json).

(** [k in d] *)
Fixpoint has (k : string) (d : t) : bool :=
  match d with
  | [] => false
  | (k', _) :: d' => String.eqb k' k || has k d'
  end.

(** [d.get(k)] *)
Fixpoint get (k : string) (d : t) : option json :=
  match d with
  | [] => None
  | (k', v) :: d' => if String.eqb k' k then Some v else get k d'
  end.

(** [d[k] = v]: an existing key keeps its place, a new one goes last. *)
Fixpoint set (k : string) (v : json) (d : t) : t :=
  match d with
  | [] => [(k, v)]
  | (k', v') :: d' =>
      if String.eqb k' k then (k', v) :: d' else (k', v') :: set k v d'
  end.

(** The items under the keys other than [k], in order. *)
Definition others (k : string) (d : t) : t :=
  filter (fun kv => negb (String.eqb (fst kv) k)) d.

End Dict.

(** ** Dependency manifest ([add_dependency.py]) *)

Module Manifest.
Import Re Chars.

(** The pattern of [parse_github_url]:
    "https?://github\.com/([^/]+/[^/]+?)(?:\.git)?(?:/releases/tag/([^/]+))?/?$" *)
Definition re_github : regex :=
  seq [word "http"; Opt (Lit "s"); word "://github.com/";
       Group 1 (seq [Plus not_slash; Lit "/"; PlusLazy not_slash]);
       Opt (word ".git");
       Opt (Cat (word "/releases/tag/") (Group 2 (Plus not_slash)));
       Opt (Lit "/"); Eos].

Definition parse_github_url (url : string) : option string * option string :=
  match re_match false re_github url with
  | Some m => (group 1 m, group 2 m)
  | None => (None, None)
  end.

Definition is_github_url (repo : string) : bool :=
  Str.startswith repo "https://github.com/"
  || Str.startswith repo "http://github.com/".

Fixpoint count_char (c : ascii) (s : string) : nat :=
  match s with
  | EmptyString => 0
  | String a t => (if Ascii.eqb a c then 1 else 0) + count_char c t
  end.

(** [is_github_repo]; [path_exists] is [os.path.exists(repo)], and
    [repo.split("/")] has two parts when [repo] has one slash. *)
Definition is_github_repo (path_exists : bool) (repo : string) : bool :=
  if is_github_url repo then true
  else if path_exists then false
  else Nat.eqb (count_char "/" repo) 1
       && negb (Str.startswith repo "/") && negb (Str.startswith repo ".").

(** Python truth value of an optional string. *)
Definition truthy (o : option string) : bool :=
  match o with
  | Some (String _ _) => true
  | _ => false
  end.

(** [a or b] *)
Definition py_or (a b : option string) : option string :=
  if truthy a then a else b.

Definition text_of (o : option string) : string :=
  match o with Some s => s | None => EmptyString end.

(** Lines 147-169 of [add_dependency]: the entry built for [repo]. *)
Definition dep_entry (path_exists : bool) (repo : string)
           (tag version : option string) : Dict.t :=
  let github_path := repo in
  let url_tag := None in
  let '(github_path, url_tag) :=
    if is_github_url repo
    then let '(parsed_repo, t) := parse_github_url repo in
         (if truthy parsed_repo then text_of parsed_repo else github_path, t)
    else (github_path, url_tag) in
  if is_github_repo path_exists repo
  then
    let dep_entry := [("github", JStr github_path)] in
    let effective_tag := py_or tag url_tag in
    if truthy effective_tag
    then Dict.set "tag" (JStr (text_of effective_tag)) dep_entry
    else if truthy version
    then Dict.set "version" (JStr (text_of version)) dep_entry
    else dep_entry
  else [].

(** [s.encode("utf-8")] succeeds: the bytes that stand for [s] are
    well-formed UTF-8, which the three bytes of a surrogate are not.
    [need] is the number of continuation bytes still expected and
    [lo..hi] the range of the next one. *)
Fixpoint utf8_from (need lo hi : nat) (s : string) : bool :=
  match s with
  | EmptyString => Nat.eqb need 0
  | String a t =>
      let b := nat_of_ascii a in
      match need with
      | 0 =>
          if Nat.ltb b 128 then utf8_from 0 128 191 t
          else if Nat.ltb b 194 then false
          else if Nat.ltb b 224 then utf8_from 1 128 191 t
          else if Nat.eqb b 224 then utf8_from 2 160 191 t
          else if Nat.eqb b 237 then utf8_from 2 128 159 t
          else if Nat.ltb b 240 then utf8_from 2 128 191 t
          else if Nat.eqb b 240 then utf8_from 3 144 191 t
          else if Nat.ltb b 244 then utf8_from 3 128 191 t
          else if Nat.eqb b 244 then utf8_from 3 128 143 t
          else false
      | S n => Nat.leb lo b && Nat.leb b hi && utf8_from n 128 191 t
      end
  end.

Definition utf8_ok (s : string) : bool := utf8_from 0 128 191 s.

(** [json.dump(data, f, ensure_ascii=False)] into a file opened with
    [encoding="utf-8"] gets to its end: every key and every string of
    [data] can be encoded. *)
Fixpoint encodable (v : json) : bool :=
  match v with
  | JNull | JBool _ | JInt _ | JFloat _ => true
  | JStr s => utf8_ok s
  | JList xs =>
      (fix all (l : list json) : bool :=
         match l with
         | [] => true
         | x :: l' => encodable x && all l'
         end) xs
  | JDict kvs =>
      (fix all (l : list (string * json)) : bool :=
         match l with
         | [] => true
         | (k, x) :: l' => utf8_ok k && encodable x && all l'
         end) kvs
  end.

Inductive exn : Type :=
| JSONDecodeError
| TypeError
| ValueError
| RecursionError
| UnicodeDecodeError
| UnicodeEncodeError
| IsADirectoryError
| NotADirectoryError
| FileExistsError.

(** Why no file can be written at a path where there is no regular
    file: a directory is at the path ([open] raises), or a regular file
    stands in place of a folder above the folder of the file, or in
    place of that folder itself ([mkdir] raises). *)
Inductive obstacle : Type := ADirectory | BelowAFile | InAFile.

Definition obstacle_exn (o : obstacle) : exn :=
  match o with
  | ADirectory => IsADirectoryError
  | BelowAFile => NotADirectoryError
  | InAFile => FileExistsError
  end.

(** Why a regular file cannot be loaded although no JSON syntax error
    is found: its bytes are not UTF-8, it holds an integer with more
    digits than [int] converts, or it is nested beyond the recursion
    limit. *)
Inductive load_error : Type := BadBytes | LongInteger | DeepNesting.

Definition load_exn (l : load_error) : exn :=
  match l with
  | BadBytes => UnicodeDecodeError
  | LongInteger => ValueError
  | DeepNesting => RecursionError
  end.

(** What is at the path of a JSON file:
    - [Absent]: nothing, in a folder that exists or can be created;
    - [Obstructed o]: no regular file, and none can be written;
    - [Unloadable l]: a regular file that [json.load] cannot load for
      another reason than its syntax;
    - [Unparsable text]: a regular file whose text [json.load] rejects
      with its decoding error;
    - [Holds data]: a regular file whose text [json.load] turns into
      [data], as [save_json_file] leaves it when it gets to its end;
    - [Partial data]: the beginning of the text of [data], up to the
      first string that cannot be encoded, as [save_json_file] leaves
      it when [json.dump] raises.  The text stops inside the outermost
      dictionary, so [json.load] rejects it. *)
Inductive file_state : Type :=
| Absent
| Obstructed (o : obstacle)
| Unloadable (l : load_error)
| Unparsable (text : string)
| Holds (data : json)
| Partial (data : json).

Inductive result (A : Type) : Type :=
| Ok (a : A)
| Raise (e : exn).
Arguments Ok {A} a.
Arguments Raise {A} e.

Definition bind {A B : Type} (r : result A) (f : A -> result B) : result B :=
  match r with
  | Ok a => f a
  | Raise e => Raise e
  end.

Notation "x <- r ;; k" := (bind r (fun x => k))
  (at level 61, r at next level, right associativity).

(** [load_json_file]: the empty dictionary when the path is not a
    regular file, else what [json.load] gives or raises. *)
Definition load_json_file (f : file_state) : result json :=
  match f with
  | Absent | Obstructed _ => Ok (JDict [])
  | Unloadable l => Raise (load_exn l)
  | Unparsable _ | Partial _ => Raise JSONDecodeError
  | Holds data => Ok data
  end.

(** [save_json_file]: the file afterwards and the exception raised, if
    any.  [mkdir] or [open(path, "w")] raises where no file can be
    written; on anything else [open] empties the file before
    [json.dump] writes the text piece by piece, so that a string that
    cannot be encoded leaves the text written so far. *)
Definition save_json_file (f : file_state) (data : json)
  : file_state * option exn :=
  match f with
  | Obstructed o => (f, Some (obstacle_exn o))
  | _ => if encodable data then (Holds data, None)
         else (Partial data, Some UnicodeEncodeError)
  end.

(** A value used as a dictionary: membership tests and item assignment
    with a string key end in [TypeError] on anything else that
    [json.load] can return. *)
Definition as_dict (v : json) : result Dict.t :=
  match v with
  | JDict d => Ok d
  | _ => Raise TypeError
  end.

(** A manifest whose [dependencies], when present, is a dictionary. *)
Definition well_formed (d : Dict.t) : bool :=
  match Dict.get "dependencies" d with
  | Some (JDict _) | None => true
  | Some _ => false
  end.

(** The entries of its [dependencies]. *)
Definition deps_of (d : Dict.t) : Dict.t :=
  match Dict.get "dependencies" d with
  | Some (JDict deps) => deps
  | _ => []
  end.

(** Lines 173-180 of [add_dependency]: the data handed to
    [save_json_file]. *)
Definition merged (f : file_state) (dep_name : string) (dep_entry : json)
  : result json :=
  deps_data <- load_json_file f ;;
  d <- as_dict deps_data ;;
  let d := if negb (Dict.has "dependencies" d)
           then Dict.set "dependencies" (JDict []) d else d in
  let d := if negb (Dict.has "version" d)
           then Dict.set "version" (JInt 2130) d else d in
  deps <- as_dict (match Dict.get "dependencies" d with
                   | Some v => v
                   | None => JNull
                   end) ;;
  Ok (JDict (Dict.set "dependencies" (JDict (Dict.set dep_name dep_entry deps)) d)).

(** Lines 171-181: the manifest file afterwards, and the exception
    that ended the call if there was one.  What raises before
    [save_json_file] is called leaves the file as it was. *)
Definition upsert (f : file_state) (dep_name : string) (dep_entry : json)
  : file_state * option exn :=
  match merged f dep_name dep_entry with
  | Ok data => save_json_file f data
  | Raise e => (f, Some e)
  end.


End Manifest.


(** ** Source tree enumeration ([project_info.py]) *)

Module Walker.

Definition entry := (string * node)%type.

(** The entries of a directory, in listing order. *)
Definition listdir (fs : node) (p : Path) : list entry :=
  match stat fs p with
  | Some (Dir es) => es
  | _ => []
  end.

Definition entry_is_file (e : entry) : bool :=
  match snd e with File _ => true | Dir _ => false end.

Definition entry_is_dir (e : entry) : bool :=
  match snd e with Dir _ => true | File _ => false end.

(** [read_text]: [None] when it raises, as it does on a directory. *)
Definition read_text (e : entry) : option string :=
  match snd e with File c => Some c | Dir _ => None end.

Definition matches (ext : string) (e : entry) : bool :=
  Str.endswith (fst e) ext.

(** [directory.glob("*" + ext)] *)
Definition glob (fs : node) (p : Path) (ext : string) : list entry :=
  filter (matches ext) (listdir fs p).

(** [directory.rglob("*" + ext)] below a directory node, in the order
    of pathlib's recursive walk: the matches of the directory itself,
    then those of each subdirectory in turn. *)
Fixpoint rglob_node (ext : string) (n : node) : list entry :=
  match n with
  | File _ => []
  | Dir es =>
      let fix below (l : list entry) : list entry :=
        match l with
        | [] => []
        | (_, x) :: l' => rglob_node ext x ++ below l'
        end in
      filter (matches ext) es ++ below es
  end.

Definition rglob (fs : node) (p : Path) (ext : string) : list entry :=
  match stat fs p with
  | Some n => rglob_node ext n
  | None => []
  end.

(** [sorted] on the paths of one directory: by name, code point by
    code point, equal names keeping their order. *)
Fixpoint insert (e : entry) (l : list entry) : list entry :=
  match l with
  | [] => [e]
  | x :: l' => if String.leb (fst e) (fst x) then e :: l else x :: insert e l'
  end.

Definition sorted (l : list entry) : list entry := fold_right insert [] l.

(** Names in lexicographic order. *)
Fixpoint is_sorted (l : list string) : bool :=
  match l with
  | x :: (y :: _) as t => String.leb x y && is_sorted t
  | _ => true
  end.

(** [count_files] *)
Definition count_files (fs : node) (directory : Path) (extension : string)
  : list string :=
  if negb (exists_ fs directory) then []
  else map (fun f => Str.stem (fst f))
           (filter entry_is_file (rglob fs directory extension)).

Record form_info : Type := mkForm {
  form_name : string;
  has_form_file : bool;
  pages : option nat;
  form_methods : option (list string)
}.

Section Forms.
(** Lines 110-112 of [analyze_forms]: the page count read from the
    text of [form.4DForm], [None] when reading or parsing raised. *)
Variable count_pages : string -> option nat.

Definition form_of (form_dir : entry) : form_info :=
  let inside := match snd form_dir with Dir es => es | File _ => [] end in
  let form_file := find_entry "form.4DForm" inside in
  let methods := filter (matches ".4dm") inside in
  mkForm (fst form_dir)
         (match form_file with Some _ => true | None => false end)
         (match form_file with
          | Some (File text) => count_pages text
          | _ => None
          end)
         (match methods with
          | [] => None
          | _ => Some (map (fun m => Str.stem (fst m)) methods)
          end).

(** [analyze_forms]; a [Forms] entry that exists without being a
    directory, on which [iterdir] raises, is outside this definition. *)
Definition analyze_forms (fs : node) (sources_dir : Path) : list form_info :=
  let forms_dir := sources_dir // "Forms" in
  if negb (exists_ fs forms_dir) then []
  else map form_of (filter entry_is_dir (sorted (listdir fs forms_dir))).

Record walk_result : Type := mkWalk {
  methods : list (string * nat);
  classes : list ClassScan.class_info;
  db_methods : list string;
  forms : list form_info
}.

(** Lines 156-177 of [main]. *)
Definition walk (fs : node) (root : Path) : walk_result :=
  let sources_dir := root // "Project" // "Sources" in
  let methods_dir := sources_dir // "Methods" in
  let classes_dir := sources_dir // "Classes" in
  let database_methods_dir := sources_dir // "DatabaseMethods" in
  mkWalk
    (if exists_ fs methods_dir
     then map (fun f => ClassScan.analyze_method (Str.stem (fst f)) (read_text f))
              (sorted (glob fs methods_dir ".4dm"))
     else [])
    (if exists_ fs classes_dir
     then map (fun f => ClassScan.analyze_class (Str.stem (fst f)) (read_text f))
              (sorted (glob fs classes_dir ".4dm"))
     else [])
    (if exists_ fs database_methods_dir
     then count_files fs database_methods_dir ".4dm"
     else [])
    (analyze_forms fs sources_dir).
End Forms.

End Walker.

(** A project whose directories list their entries in creation order. *)
Definition unsorted_project : node :=
  Dir [("Project",
        Dir [("Sources",
              Dir [("Methods", Dir [("zeta.4dm", File "a"); ("alpha.4dm", File "b")]);
                   ("Classes", Dir [("Zed.4dm", File "Function f"); ("Abc.4dm", File "")]);
                   ("DatabaseMethods",
                    Dir [("onStartup.4dm", File ""); ("onExit.4dm", File "")]);
                   ("Forms",
                    Dir [("Main",
                          Dir [("form.4DForm", File "{}");
                               ("method.4dm", File "");
                               ("button.4dm", File "")])])]);
             ("app.4DProject", File "{}")])].


Definition plain_text : string :=
  ("// Class Foo" ++ nl ++ "properties := 1" ++ nl ++ nl
   ++ "  Functional(x)" ++ nl ++ "shared exposed Function f")%string.

Definition release_url : string :=
  "https://github.com/mesopelagique/SemVer/releases/tag/0.2.0".

Definition bar_manifest : Dict.t :=
  [("version", JInt 2100);
   ("dependencies", JDict [("Bar", JDict [("github", JStr "o/Bar")])])].



(** More shapes of lines and texts. *)
Module DeclShape.
Import Chars LineShape.

(** The text of a declaration: it starts with something other than
    whitespace and holds no line feed. *)
Definition is_text (s : string) : bool :=
  match s with
  | EmptyString => false
  | String a _ => negb (is_space a) && all_chars is_dot s
  end.

(** The text ends with a line feed. *)
Fixpoint ends_lf (s : string) : bool :=
  match s with
  | EmptyString => false
  | String a EmptyString => Ascii.eqb a "010"
  | String _ t => ends_lf t
  end.

(** [a or b] on optional values. *)
Definition or_else {A : Type} (a b : option A) : option A :=
  match a with Some _ => a | None => b end.

(** What a scan started from [st] gives, from what the same scan gives
    when started from nothing. *)
Definition combine (st s : ClassScan.scan_state) : ClassScan.scan_state :=
  ClassScan.mkScan (ClassScan.props st ++ ClassScan.props s)
                   (ClassScan.funcs st ++ ClassScan.funcs s)
                   (or_else (ClassScan.extends s) (ClassScan.extends st)).

End DeclShape.

(** ** The rest of [add_dependency.py] *)

Module Locate.

(** [find_environment4d]: the same walk as [find_project_root], left
    when [current] is the filesystem root. *)
Fixpoint find_environment4d (fs : node) (current : Path) : option Path :=
  match current with
  | [] => None
  | _ :: up =>
      let env_file := current // "environment4d.json" in
      if is_file fs env_file then Some env_file
      else find_environment4d fs up
  end.

(** [is_sibling_folder], on resolved paths. *)
Definition is_sibling_folder (project_root repo_path : Path) : bool :=
  if list_eq_dec string_dec (parent repo_path) (parent project_root)
  then true else false.

End Locate.

Module DepName.
Import Manifest.

(** [s.split(sep)] for a one-character separator. *)
Fixpoint split (sep : ascii) (s : string) : list string :=
  match s with
  | EmptyString => [EmptyString]
  | String a t =>
      if Ascii.eqb a sep then EmptyString :: split sep t
      else match split sep t with
           | [] => [String a EmptyString]
           | x :: xs => String a x :: xs
           end
  end.

(** [parts[-1]] *)
Definition last_part (parts : list string) : string := List.last parts EmptyString.

(** [Path(repo).name]: the last component that is neither empty nor a
    single dot, the empty string when there is none. *)
Definition path_name (repo : string) : string :=
  last_part
    (filter (fun x => negb (String.eqb x "") && negb (String.eqb x "."))
            (split "/" repo)).

(** [name[:-7]] *)
Definition drop_4dbase (n : string) : string :=
  substring 0 (String.length n - 7) n.

(** [get_dependency_name]; [path_exists] is [os.path.exists(repo)]. *)
Definition get_dependency_name (path_exists : bool) (repo : string)
           (name_override : option string) : string :=
  if truthy name_override then text_of name_override
  else
    let parsed_repo :=
      if is_github_url repo then fst (parse_github_url repo) else None in
    if is_github_url repo && truthy parsed_repo
    then last_part (split "/" (text_of parsed_repo))
    else if is_github_repo path_exists repo
    then last_part (split "/" repo)
    else
      let n := path_name repo in
      if Str.endswith n ".4dbase" then drop_4dbase n else n.

(** The characters a repository name is made of in the URLs below:
    anything but a slash and a line feed. *)
Definition plain (a : ascii) : bool :=
  Chars.not_slash a && negb (Ascii.eqb a "010").

Definition base_url (https : bool) : string :=
  if https then "https://github.com/" else "http://github.com/".

(** An owner: one or more characters other than a slash. *)
Definition segment (s : string) : bool :=
  negb (String.eqb s "") && LineShape.all_chars Chars.not_slash s.

(** A repository name: one or more plain characters, not ending in
    [.git]. *)
Definition repo_name (s : string) : bool :=
  negb (String.eqb s "") && LineShape.all_chars plain s
  && negb (Str.endswith s ".git").

(** The end of a release URL, or nothing. *)
Definition release_part (tag : option string) : string :=
  match tag with
  | Some t => ("/releases/tag/" ++ t)%string
  | None => EmptyString
  end.

(** A string without slash. *)
Definition no_slash (s : string) : bool := Nat.eqb (count_char "/" s) 0.

End DepName.

Module Environment.
Import Manifest.

(** [str(path)] of a resolved path. *)
Fixpoint path_str (p : Path) : string :=
  match p with
  | [] => "/"
  | [c] => ("/" ++ c)%string
  | c :: up => (path_str up ++ "/" ++ c)%string
  end.

(** Lines 205-212 of [add_dependency]: the reference written for a
    local dependency.  [None] stands for the [ValueError] that
    [with_suffix] raises on a path without a name. *)
Definition local_file_url (fs : node) (repo_path : Path) : option string :=
  let file_url := ("file://" ++ path_str repo_path)%string in
  if Str.endswith file_url ".4dbase" then Some file_url
  else
    match repo_path with
    | [] => None
    | n :: up =>
        if is_dir fs ((Str.stem n ++ ".4dbase")%string :: up)
        then Some (file_url ++ ".4dbase")%string
        else if is_dir fs (repo_path // (n ++ ".4dbase")%string)
        then Some ("file://" ++ path_str (repo_path // (n ++ ".4dbase")%string))%string
        else Some file_url
    end.

(** Lines 198-214: the data handed to [save_json_file] for the
    environment file. *)
Definition env_merged (f : file_state) (dep_name file_url : string)
  : result json :=
  bind (load_json_file f) (fun env_data =>
  bind (as_dict env_data) (fun d =>
  let d := if negb (Dict.has "dependencies" d)
           then Dict.set "dependencies" (JDict []) d else d in
  let d := if negb (Dict.has "devDependencies" d)
           then Dict.set "devDependencies" (JDict []) d else d in
  bind (as_dict (match Dict.get "dependencies" d with
                 | Some v => v
                 | None => JNull
                 end)) (fun deps =>
  Ok (JDict (Dict.set "dependencies"
               (JDict (Dict.set dep_name (JStr file_url) deps)) d))))).

Definition env_upsert (f : file_state) (dep_name file_url : string)
  : file_state * option exn :=
  match env_merged f dep_name file_url with
  | Ok data => save_json_file f data
  | Raise e => (f, Some e)
  end.

(** How a call of [add_dependency] that found its project root ends. *)
Inductive outcome : Type :=
| Done
| Failed (e : exn).

(** Lines 171-222 of [add_dependency] on the two files it writes: the
    manifest and the environment file it has chosen.  [github_repo] is
    [is_github_repo(repo)], [sibling] is [is_sibling_folder(...)] and
    [file_url] the result of lines 205-212. *)
Definition write_files (github_repo sibling : bool) (dep_name : string)
           (dep_entry : json) (file_url : option string)
           (manifest env : file_state) : file_state * file_state * outcome :=
  match upsert manifest dep_name dep_entry with
  | (manifest', Some e) => (manifest', env, Failed e)
  | (manifest', None) =>
      if github_repo then (manifest', env, Done)
      else if sibling then (manifest', env, Done)
      else
        match bind (load_json_file env) as_dict with
        | Raise e => (manifest', env, Failed e)
        | Ok _ =>
            match file_url with
            | None => (manifest', env, Failed ValueError)
            | Some url =>
                match env_upsert env dep_name url with
                | (env', None) => (manifest', env', Done)
                | (env', Some e) => (manifest', env', Failed e)
                end
            end
        end
  end.

End Environment.

(** Shapes of manifests, used to state what [add_dependency] does. *)
Module ManifestShape.
Import Manifest.

(** [if k not in d: d[k] = v] *)
Definition defaulted (k : string) (v : json) (d : Dict.t) : Dict.t :=
  if negb (Dict.has k d) then Dict.set k v d else d.

(** The two defaults of a file: an empty [dependencies], then [k2]. *)
Definition with_defaults (k2 : string) (v2 : json) (d : Dict.t) : Dict.t :=
  defaulted k2 v2 (defaulted "dependencies" (JDict []) d).

(** A dictionary whose [dependencies], when present, is a dictionary. *)
Definition acceptable (v : json) : bool :=
  match v with
  | JDict d => well_formed d
  | _ => false
  end.

(** The keys of a dictionary, in order. *)
Definition keys (d : Dict.t) : list string := map fst d.

(** The key [k] when [d] does not have it. *)
Definition missing (k : string) (d : Dict.t) : list string :=
  if Dict.has k d then [] else [k].

(** The item [(k, v)] when [d] has no key [k]. *)
Definition missing_item (k : string) (v : json) (d : Dict.t) : Dict.t :=
  if Dict.has k d then [] else [(k, v)].

End ManifestShape.

(** A project under [/home/app] with an environment file in [/home]. *)
Definition env_tree : node :=
  Dir [("environment4d.json", File "{}");
       ("home",
        Dir [("environment4d.json", File "{}");
             ("app", Dir [("Project", Dir [("Sources", Dir [])])])])].

(** A project with a database method in a subfolder and a folder named
    like a method file. *)
Definition nested_project : node :=
  Dir [("Project",
        Dir [("Sources",
              Dir [("DatabaseMethods",
                    Dir [("onStartup.4dm", File "");
                         ("web", Dir [("onWebConnection.4dm", File "")])]);
                   ("Methods",
                    Dir [("b.4dm", File "x"); ("a.4dm", Dir [])])])])].

(** ** [clean_project] ([clean.py]) *)

(** The project folder is a tree of regular files and folders (no
    symbolic links), and every removal succeeds.  A recursive search
    visits a folder before its subfolders and lists a folder when it
    reaches it, so what lies in a folder already removed is not
    visited. *)

Module CleanProject.
Import Walker.

(** What one step of [clean_project] removes: a test on the folder an
    entry lies in (relative to the project, innermost first), on the
    name of the entry and on whether it is a directory. *)
Definition target : Type := Path -> string -> bool -> bool.

Definition hits (k : target) (pos : Path) (e : entry) : bool :=
  k pos (fst e) (entry_is_dir e).

(** The tree once every entry the step finds is removed ([rmtree] or
    [unlink]); what lies inside a removed folder goes with it. *)
Fixpoint prune_at (k : target) (pos : Path) (n : node) : node :=
  match n with
  | File c => File c
  | Dir es =>
      Dir ((fix go (l : list entry) : list entry :=
              match l with
              | [] => []
              | (nm, x) :: l' =>
                  if k pos nm (entry_is_dir (nm, x)) then go l'
                  else (nm, prune_at k (nm :: pos) x) :: go l'
              end) es)
  end.

(** The entries the step finds, in the order of its walk: those of a
    folder in listing order, then those of each remaining subfolder in
    turn. *)
Fixpoint found_at (k : target) (pos : Path) (n : node) : list Path :=
  match n with
  | File _ => []
  | Dir es =>
      map (fun e => fst e :: pos) (filter (hits k pos) es)
      ++ (fix go (l : list entry) : list Path :=
            match l with
            | [] => []
            | (nm, x) :: l' =>
                if k pos nm (entry_is_dir (nm, x)) then go l'
                else found_at k (nm :: pos) x ++ go l'
            end) es
  end.

Fixpoint path_eqb (p q : Path) : bool :=
  match p, q with
  | [], [] => true
  | a :: p', b :: q' => String.eqb a b && path_eqb p' q'
  | _, _ => false
  end.

(** [project_dir.rglob("DerivedData")], directories only. *)
Definition derived_data : target :=
  fun _ nm d => String.eqb nm "DerivedData" && d.

(** [project_dir / "Libraries"], when a directory. *)
Definition libraries : target :=
  fun pos nm d => path_eqb pos [] && String.eqb nm "Libraries" && d.

(** [project_dir.glob("userPreferences.*")], directories only. *)
Definition user_preferences : target :=
  fun pos nm d => path_eqb pos [] && String.prefix "userPreferences." nm && d.

(** [project_dir / "Project" / "Trash"], when a directory. *)
Definition trash : target :=
  fun pos nm d => path_eqb pos ["Project"] && String.eqb nm "Trash" && d.

(** Everything listed in [project_dir / "Logs"]. *)
Definition log_items : target :=
  fun pos _ _ => path_eqb pos ["Logs"].

(** [project_dir.rglob(pattern)], regular files only. *)
Definition system_file (pattern : string) : target :=
  fun _ nm d => String.eqb nm pattern && negb d.

(** [str(path.relative_to(project_dir))] *)
Fixpoint rel_str (p : Path) : string :=
  match p with
  | [] => EmptyString
  | [c] => c
  | c :: up => (rel_str up ++ "/" ++ c)%string
  end.

(** The steps of [clean_project] in order, each with the text it adds
    to [removed] for an entry it has removed. *)
Definition steps : list (target * (Path -> string)) :=
  [ (derived_data, rel_str);
    (libraries, fun _ => "Libraries/");
    (user_preferences, fun p => (name p ++ "/")%string);
    (trash, fun _ => "Project/Trash/");
    (log_items, fun p => ("Logs/" ++ name p)%string);
    (system_file ".DS_Store", rel_str);
    (system_file "ehthumbs.db", rel_str);
    (system_file "Thumbs.db", rel_str) ].

Definition run_step (acc : node * list string) (st : target * (Path -> string))
  : node * list string :=
  (prune_at (fst st) [] (fst acc),
   snd acc ++ map (snd st) (found_at (fst st) [] (fst acc))).

(** [clean_project] on the tree of the project folder: the tree
    afterwards and the list [removed]. *)
Definition clean_project (project : node) : node * list string :=
  fold_left run_step steps (project, []).

(** A file path, outermost component first, that a step leaves alone:
    the step removes neither the file nor a folder above it. *)
Fixpoint spared (k : target) (pos : Path) (cs : list string) : bool :=
  match cs with
  | [] => true
  | [c] => negb (k pos c false)
  | c :: rest => negb (k pos c true) && spared k (c :: pos) rest
  end.

(** The names of the files removed everywhere. *)
Definition system_name (n : string) : bool :=
  String.eqb n ".DS_Store" || String.eqb n "ehthumbs.db" || String.eqb n "Thumbs.db".

(** The two walks over the listing of a folder. *)
Definition prune_entries (k : target) (pos : Path) (es : list entry) : list entry :=
  flat_map (fun e => if hits k pos e then []
                     else [(fst e, prune_at k (fst e :: pos) (snd e))]) es.

Definition found_below (k : target) (pos : Path) (es : list entry) : list Path :=
  flat_map (fun e => if hits k pos e then []
                     else found_at k (fst e :: pos) (snd e)) es.

(** Number of files and folders of a tree, itself included. *)
Fixpoint size (n : node) : nat :=
  match n with
  | File _ => 1
  | Dir es =>
      S ((fix go (l : list entry) : nat :=
            match l with
            | [] => 0
            | (_, x) :: l' => size x + go l'
            end) es)
  end.

Definition size_entries (es : list entry) : nat :=
  fold_right (fun e a => size (snd e) + a) 0 es.

End CleanProject.

(** The tree of a project with caches, logs and system files. *)
Definition cluttered_project : node :=
  Dir [("b", Dir [("DerivedData", File "");
                  ("c", Dir [("DerivedData", Dir [])])]);
       (".DS_Store", File "");
       ("Logs", Dir [("run.log", File "x"); ("old", Dir [("Thumbs.db", File "")])]);
       ("userPreferences.me", Dir [("a", File "")]);
       ("Libraries", Dir []);
       ("DerivedData", Dir [("x", Dir [("DerivedData", Dir [])])]);
       ("Project",
        Dir [("Trash", Dir [("t", File "")]);
             ("Sources",
              Dir [("Methods", Dir [("m.4dm", File "code"); ("Thumbs.db", File "")]);
                   ("DerivedData", Dir [("cache", File "")])])]);
       ("a", Dir [(".DS_Store", File "");
                  ("DerivedData", Dir [(".DS_Store", File "")])])].

(** * Properties *)

(** ** The scripts on sample inputs *)

Example project_info_from_a_method_file :
  ProjectInfo.find_project_root project_tree
    ["m.4dm"; "Methods"; "Sources"; "Project"; "app"; "home"]
  = Some ["app"; "home"].
Proof. reflexivity. Qed.

Example add_dependency_from_the_methods_folder :
  AddDependency.find_project_root project_tree
    ["Methods"; "Sources"; "Project"; "app"; "home"]
  = Some ["app"; "home"].
Proof. reflexivity. Qed.

Example clean_from_the_project_folder :
  Clean.find_project_root project_tree ["Project"; "app"; "home"]
  = Some ["app"; "home"].
Proof. reflexivity. Qed.

Example sample_class_scanned :
  ClassScan.analyze_class "C" (Some sample_class)
  = ClassScan.mkClass "C" 4 ["x"] ["bar"; "exposed shared baz"] (Some "Foo").
Proof. reflexivity. Qed.

Example release_url_parsed :
  Manifest.parse_github_url release_url
  = (Some "mesopelagique/SemVer", Some "0.2.0").
Proof. reflexivity. Qed.

Example git_suffix_dropped :
  Manifest.parse_github_url "https://github.com/owner/repo.git/"
  = (Some "owner/repo", None).
Proof. reflexivity. Qed.

(** ** Filesystem facts *)

Lemma walk_down_app (l1 l2 : list string) : forall n,
  walk_down n (l1 ++ l2) =
  match walk_down n l1 with
  | Some x => walk_down x l2
  | None => None
  end.
Proof.
  induction l1 as [|c l1 IH]; intros n; simpl.
  - reflexivity.
  - destruct n as [t|es]; [reflexivity|].
    destruct (find_entry c es); [apply IH | reflexivity].
Qed.

(** Resolving [p/c] is resolving [p] and looking [c] up in it. *)
Lemma stat_cons (fs : node) (c : string) (p : Path) :
  stat fs (c :: p) =
  match stat fs p with
  | Some (Dir es) => find_entry c es
  | _ => None
  end.
Proof.
  unfold stat; simpl. rewrite walk_down_app.
  destruct (walk_down fs (rev p)) as [[t|es]|]; simpl; try reflexivity.
  destruct (find_entry c es); reflexivity.
Qed.

Lemma is_dir_parent (fs : node) (c : string) (p : Path) :
  is_dir fs (c :: p) = true -> is_dir fs p = true.
Proof.
  unfold is_dir. rewrite stat_cons.
  destruct (stat fs p) as [[t|es]|]; simpl; congruence.
Qed.

(** The filesystem root closes every ancestor chain. *)
Lemma root_in_ancestors (p : Path) : In [] (ancestors p).
Proof.
  unfold ancestors. induction p as [|c p IH]; simpl.
  - now left.
  - right. exact IH.
Qed.

Lemma ancestors_cons (c : string) (p : Path) :
  ancestors (c :: p) = (c :: p) :: ancestors p.
Proof. reflexivity. Qed.

(** ** Root location: [project_info.py] *)

Section FirstMatch.
Variable A : Type.
Variable test : A -> bool.

Lemma find_unique (l : list A) (r : A) :
  In r l -> test r = true ->
  (forall d, In d l -> test d = true -> d = r) ->
  find test l = Some r.
Proof.
  induction l as [|x l IH]; simpl; intros Hin Hr Huniq.
  - contradiction.
  - destruct (test x) eqn:Hx.
    + f_equal. apply Huniq; auto.
    + apply IH; auto.
      destruct Hin as [->|Hin]; [congruence | exact Hin].
Qed.

(** The match returned is the closest one: nothing before it passes. *)
Lemma find_closest (l : list A) (r : A) :
  find test l = Some r ->
  exists l1 l2, l = l1 ++ r :: l2 /\ test r = true
                /\ forall d, In d l1 -> test d = false.
Proof.
  induction l as [|x l IH]; simpl; [discriminate|].
  destruct (test x) eqn:Hx; intros H.
  - injection H as <-. exists [], l. repeat split; auto. intros d [].
  - destruct (IH H) as (l1 & l2 & -> & Hr & Hbefore).
    exists (x :: l1), l2. repeat split; auto.
    intros d [<-|Hd]; auto.
Qed.

Lemma find_none_iff (l : list A) :
  find test l = None <-> forall d, In d l -> test d = false.
Proof.
  split.
  - intros H d Hd. exact (find_none _ _ H d Hd).
  - induction l as [|x l IH]; simpl; intros H; [reflexivity|].
    rewrite (H x (or_introl eq_refl)). apply IH. intros d Hd. apply H. now right.
Qed.
End FirstMatch.

Module ProjectInfoFacts.
Import ProjectInfo.

(** With exactly one qualifying ancestor [R] above the start directory,
    [find_project_root] returns [R], at any depth. *)
Theorem find_project_root_unique (fs : node) (P R : Path) :
  In R (ancestors (start_dir fs P)) ->
  has_project_file fs R = true ->
  (forall d, In d (ancestors (start_dir fs P)) ->
             has_project_file fs d = true -> d = R) ->
  find_project_root fs P = Some R.
Proof. intros. unfold find_project_root. now apply find_unique. Qed.

(** X13: The root returned qualifies and no closer ancestor does. *)
Theorem find_project_root_closest (fs : node) (P R : Path) :
  find_project_root fs P = Some R ->
  exists closer further,
    ancestors (start_dir fs P) = closer ++ R :: further
    /\ has_project_file fs R = true
    /\ forall d, In d closer -> has_project_file fs d = false.
Proof. intros H. exact (find_closest _ _ H). Qed.

(** X14: Not found exactly when no ancestor qualifies; the filesystem root
    is one of the ancestors tested. *)
Theorem find_project_root_none_iff (fs : node) (P : Path) :
  (find_project_root fs P = None <->
   forall d, In d (ancestors (start_dir fs P)) -> has_project_file fs d = false)
  /\ In [] (ancestors (start_dir fs P)).
Proof.
  split; [apply find_none_iff | apply root_in_ancestors].
Qed.

End ProjectInfoFacts.

(** ** Root location: [add_dependency.py] *)

Module AddDependencyFacts.
Import AddDependency.

(** The loop is never entered at the filesystem root. *)
Lemma find_project_root_at_root (fs : node) : find_project_root fs [] = None.
Proof. reflexivity. Qed.

(** X4: Below the filesystem root the walk does return the one ancestor
    that holds [Project/Sources], whatever the depth of the start. *)
Theorem find_project_root_unique_below_root (fs : node) (R : Path) :
  forall P : Path,
  is_dir fs P = true ->
  In R (ancestors P) ->
  R <> [] ->
  contains_sources fs R = true ->
  (forall d, In d (ancestors P) -> contains_sources fs d = true -> d = R) ->
  find_project_root fs P = Some R.
Proof.
  induction P as [|c up IH]; intros Hdir Hin Hne HR Huniq.
  - destruct Hin as [<-|[]]. congruence.
  - assert (Hself : In (c :: up) (ancestors (c :: up))) by now left.
    cbn [find_project_root].
    destruct (is_dir fs ((c :: up) // "Project" // "Sources")) eqn:H1.
    { f_equal. now apply Huniq. }
    destruct (String.eqb (name (c :: up)) "Sources"
              && String.eqb (name (parent (c :: up))) "Project") eqn:H2.
    { apply andb_prop in H2 as [Hc Hp]. cbn in Hc, Hp.
      apply String.eqb_eq in Hc. subst c.
      destruct up as [|c' X]; cbn in Hp; [discriminate|].
      apply String.eqb_eq in Hp. subst c'. cbn.
      f_equal. apply Huniq.
      - rewrite !ancestors_cons. right. right. now left.
      - exact Hdir. }
    destruct (String.eqb (name (c :: up)) "Project"
              && is_dir fs ((c :: up) // "Sources")) eqn:H3.
    { apply andb_prop in H3 as [Hc Hs]. cbn in Hc.
      apply String.eqb_eq in Hc. subst c. cbn.
      f_equal. apply Huniq.
      - rewrite ancestors_cons. right. now left.
      - exact Hs. }
    apply IH.
    + exact (is_dir_parent _ _ _ Hdir).
    + rewrite ancestors_cons in Hin. destruct Hin as [<-|Hin]; [|exact Hin].
      unfold contains_sources in HR. congruence.
    + exact Hne.
    + exact HR.
    + intros d Hd. apply Huniq. rewrite ancestors_cons. now right.
Qed.

End AddDependencyFacts.

(** ** Root location: [clean.py] *)

Module CleanFacts.
Import Clean.

Lemma search_none_iff (fs : node) (l : list Path) :
  search fs l = None <->
  forall d, In d l -> has_project_file fs d = false /\ inside_project fs d = false.
Proof.
  induction l as [|x l IH]; simpl.
  - split; [intros _ d [] | reflexivity].
  - destruct (has_project_file fs x) eqn:H1.
    { split; [discriminate|]. intros H.
      destruct (H x (or_introl eq_refl)); congruence. }
    destruct (inside_project fs x) eqn:H2.
    { split; [discriminate|]. intros H.
      destruct (H x (or_introl eq_refl)); congruence. }
    rewrite IH. split.
    + intros H d [<-|Hd]; auto.
    + intros H d Hd. apply H. now right.
Qed.

(** X23: [FileNotFoundError] exactly when no ancestor passes either test;
    the filesystem root is among the directories searched. *)
Theorem clean_root_not_found_iff (fs : node) (P : Path) :
  (find_project_root fs P = None <->
   forall d, In d (ancestors P) ->
             has_project_file fs d = false /\ inside_project fs d = false)
  /\ In [] (ancestors P).
Proof.
  split; [apply search_none_iff | apply root_in_ancestors].
Qed.

End CleanFacts.

(** C1. With exactly one qualifying ancestor [R] of the start path, the
    locator returns [R] at any depth.  [add_dependency.py] breaks this
    when [R] is the filesystem root: in [top_level_project] the root is
    the only ancestor of [/work] that holds [Project/Sources], and the
    walk from [/work] ends without a result, while the walk of
    [project_info.py] from the same place returns the root. *)
Theorem add_dependency_loses_root_project :
  filter (AddDependency.contains_sources top_level_project) (ancestors ["work"])
  = [[]]
  /\ AddDependency.find_project_root top_level_project ["work"] = None
  /\ ProjectInfo.find_project_root top_level_project ["work"] = Some [].
Proof. repeat split. Qed.

(** C2. Not found is reported only after every ancestor, the filesystem
    root included, has been tested.  The loop of [add_dependency.py]
    stops before the filesystem root: started there it returns nothing
    on every filesystem, also on [top_level_project] whose root holds
    [Project/Sources]; the walks of [project_info.py] and [clean.py] do
    test it. *)
Theorem add_dependency_skips_filesystem_root :
  (forall fs, AddDependency.find_project_root fs [] = None)
  /\ AddDependency.contains_sources top_level_project [] = true
  /\ ProjectInfo.find_project_root top_level_project [] = Some []
  /\ Clean.find_project_root top_level_project [] = Some [].
Proof. repeat split. Qed.

(** ** Marker test on [Project/*.4DProject] *)

Section Counting.
Variable A : Type.
Variable test : A -> bool.

Lemma existsb_filter_length (l : list A) :
  existsb test l = true <-> 1 <= List.length (filter test l).
Proof.
  induction l as [|x l IH]; simpl.
  - split; [discriminate | lia].
  - destruct (test x); simpl; [split; [lia | reflexivity] | exact IH].
Qed.

Lemma filter_none (l : list A) :
  forallb (fun x => negb (test x)) l = true -> filter test l = [].
Proof.
  induction l as [|x l IH]; [reflexivity|]. cbn [forallb filter].
  intros H. apply andb_prop in H as [Hx Hl].
  apply negb_true_iff in Hx. rewrite Hx. now apply IH.
Qed.
End Counting.

(** C3, as stated, fails: a [Project] folder with two project files
    qualifies although it does not hold exactly one. *)
Lemma two_project_files_qualify :
  ~ (ProjectInfo.has_project_file two_project_files ["app"] = true
     <-> ProjectInfo.project_file_count two_project_files ["app"] = 1).
Proof.
  intros [H _]. specialize (H eq_refl). vm_compute in H. discriminate.
Qed.

(** C3, amended.  A directory with a [Project] subdirectory passes the
    marker test exactly when that subdirectory holds at least one entry
    with the project extension ([project_info.py]: an entry whose
    suffix is [.4DProject]; [clean.py]: a regular file matching
    [*.4DProject]). *)
Theorem project_marker_at_least_one (fs : node) (d : Path) :
  is_dir fs (d // "Project") = true ->
  (ProjectInfo.has_project_file fs d = true
   <-> 1 <= ProjectInfo.project_file_count fs d)
  /\ (Clean.has_project_file fs d = true
      <-> 1 <= Clean.project_file_count fs d).
Proof.
  intros Hdir.
  unfold ProjectInfo.has_project_file, ProjectInfo.project_file_count,
         Clean.has_project_file, Clean.project_file_count.
  cbv zeta. rewrite Hdir. cbn [andb].
  split; apply existsb_filter_length.
Qed.

Lemma project_marker_at_least_one_witness :
  is_dir two_project_files (["app"] // "Project") = true
  /\ ((ProjectInfo.has_project_file two_project_files ["app"] = true
       <-> 1 <= ProjectInfo.project_file_count two_project_files ["app"])
      /\ (Clean.has_project_file two_project_files ["app"] = true
          <-> 1 <= Clean.project_file_count two_project_files ["app"])).
Proof.
  split; [reflexivity|].
  apply (project_marker_at_least_one two_project_files ["app"]). reflexivity.
Defined.

(** ** The matcher on keywords, whitespace and names *)

Module ReFacts.
Import Chars Re LineShape.

Lemma is_space_lower (a : ascii) : is_space (lower a) = is_space a.
Proof. destruct a as [[] [] [] [] [] [] [] []]; reflexivity. Qed.

Lemma word_not_space (a : ascii) : is_word a = true -> is_space a = false.
Proof.
  destruct a as [[] [] [] [] [] [] [] []]; vm_compute; congruence.
Qed.

(** A character matching a literal up to case is whitespace only if
    the literal is. *)
Lemma lit_eq_space (x a : ascii) :
  lit_eq true x a = true -> is_space a = is_space x.
Proof.
  unfold lit_eq. intros H. apply Ascii.eqb_eq in H.
  rewrite <- (is_space_lower a), <- (is_space_lower x). now rewrite H.
Qed.

(** Two literals that differ up to case are not matched by the same
    character. *)
Lemma lit_eq_other (x y a : ascii) :
  lit_eq true x a = true -> Ascii.eqb (lower y) (lower x) = false ->
  lit_eq true y a = false.
Proof.
  unfold lit_eq. intros H Hxy. apply Ascii.eqb_eq in H. now rewrite <- H.
Qed.

Lemma append_assoc (a b c : string) : ((a ++ b) ++ c = a ++ (b ++ c))%string.
Proof. induction a as [|x a IH]; simpl; [reflexivity | now rewrite IH]. Qed.

Lemma length_app (a b : string) :
  String.length (a ++ b) = String.length a + String.length b.
Proof. induction a as [|x a IH]; simpl; [reflexivity | now rewrite IH]. Qed.

Lemma substring_prefix (a b : string) :
  substring 0 (String.length a) (a ++ b) = a.
Proof. induction a as [|x a IH]; simpl; [now destruct b | now rewrite IH]. Qed.

(** The group text recorded between a position and a later one. *)
Lemma consumed_app (a b : string) : consumed (a ++ b) b = a.
Proof.
  unfold consumed. rewrite length_app.
  replace (String.length a + String.length b - String.length b)
    with (String.length a) by lia.
  apply substring_prefix.
Qed.

Section Run.
Variable c : captures.
Variable k : string -> captures -> option captures.

(** A keyword written in any letter case is consumed whole. *)
Lemma run_word (lit : string) : forall kw s,
  same_word lit kw = true ->
  run true (word lit) (kw ++ s) c k = k s c.
Proof.
  induction lit as [|x lit IH]; intros [|a kw] s H; simpl in *;
    try discriminate; [reflexivity|].
  apply andb_prop in H as [Ha Hkw]. rewrite Ha. now apply IH.
Qed.

(** A keyword fails at once on a subject that starts differently. *)
Lemma run_word_mismatch (x : ascii) (lit : string) (r : regex)
      (a : ascii) (t : string) :
  lit_eq true x a = false ->
  run true (Cat (word (String x lit)) r) (String a t) c k = None.
Proof. intros H. cbn [run word]. now rewrite H. Qed.
End Run.

(** A greedy repetition that is followed by something outside its
    class, and whose continuation succeeds there, consumes the
    whole run. *)
Lemma star_all (A : Type) (p : ascii -> bool) (k : string -> option A) (r : A) :
  forall ws s,
  all_chars p ws = true -> stops p s -> k s = Some r ->
  star p (ws ++ s) k = Some r.
Proof.
  induction ws as [|a ws IH]; intros s Hall Hstop Hk; simpl in *.
  - destruct s as [|b s]; [exact Hk|]. cbn [star]. now rewrite Hstop.
  - apply andb_prop in Hall as [Ha Hws]. rewrite Ha.
    now rewrite (IH s Hws Hstop Hk).
Qed.

Lemma run_plus (ic : bool) (p : ascii -> bool) (c : captures)
      (k : string -> captures -> option captures) (r : captures)
      (a : ascii) (ws s : string) :
  all_chars p (String a ws) = true -> stops p s -> k s c = Some r ->
  run ic (Plus p) (String a ws ++ s) c k = Some r.
Proof.
  intros Hall Hstop Hk. simpl in *.
  apply andb_prop in Hall as [Ha Hws]. rewrite Ha.
  now apply star_all.
Qed.

(** A greedy repetition fails when the rest of the pattern fails at
    every place where it can stop. *)
Lemma star_fail (A : Type) (p : ascii -> bool) (k : string -> option A)
      (text : string) :
  stops p text ->
  forall ws,
  all_chars p ws = true ->
  (forall pre post, ws = (pre ++ post)%string -> k (post ++ text)%string = None) ->
  star p (ws ++ text) k = None.
Proof.
  intros Hstop. induction ws as [|b ws IH]; intros Hall Hk.
  - specialize (Hk EmptyString EmptyString eq_refl). cbn in Hk |- *.
    destruct text as [|a t]; [exact Hk|]. cbn in Hstop |- *. now rewrite Hstop.
  - cbn in Hall. apply andb_prop in Hall as [Hb Hws].
    change (String b ws ++ text)%string with (String b (ws ++ text)%string).
    cbn [star]. rewrite Hb, IH.
    + exact (Hk EmptyString (String b ws) eq_refl).
    + exact Hws.
    + intros pre post ->. exact (Hk (String b pre) post eq_refl).
Qed.

Lemma all_chars_app (p : ascii -> bool) (a b : string) :
  all_chars p (a ++ b) = true -> all_chars p b = true.
Proof.
  induction a as [|x a IH]; cbn; [trivial|].
  intros H. apply andb_prop in H as [_ H]. now apply IH.
Qed.

(** A letter of a keyword is not matched by whitespace. *)
Lemma space_not_lit (x b : ascii) :
  is_space b = true -> is_space x = false -> lit_eq true x b = false.
Proof.
  intros Hb Hx. destruct (lit_eq true x b) eqn:E; [|reflexivity].
  apply lit_eq_space in E. congruence.
Qed.

Lemma run_plus_blank (c : captures)
      (k : string -> captures -> option captures) (r : captures)
      (ws s : string) :
  blank ws = true -> stops is_space s -> k s c = Some r ->
  run true (Plus is_space) (ws ++ s) c k = Some r.
Proof.
  destruct ws as [|a ws]; [discriminate|]. unfold blank. apply run_plus.
Qed.

End ReFacts.

(** ** Declaration lines *)

Module ClassScanFacts.
Import Chars Text Re ClassScan LineShape ReFacts.

Lemma run_cat ic r1 r2 s c k :
  run ic (Cat r1 r2) s c k = run ic r1 s c (fun s' c' => run ic r2 s' c' k).
Proof. reflexivity. Qed.

Lemma run_group ic n r s c k :
  run ic (Group n r) s c k
  = run ic r s c (fun s' c' => k s' ((n, consumed s s') :: c')).
Proof. reflexivity. Qed.

Lemma run_plus_cons ic p a t c k :
  run ic (Plus p) (String a t) c k
  = if p a then star p t (fun s' => k s' c) else None.
Proof. reflexivity. Qed.

Lemma run_opt ic r s c k :
  run ic (Opt r) s c k
  = match run ic r s c k with Some m => Some m | None => k s c end.
Proof. reflexivity. Qed.

Lemma head_is_word (x : ascii) (lit kw s : string) :
  same_word (String x lit) kw = true -> head_is x (kw ++ s) = true.
Proof.
  destruct kw as [|a kw]; simpl; [discriminate|].
  intros H. now apply andb_prop in H as [Ha _].
Qed.

Lemma head_is_stops (x : ascii) (s : string) :
  head_is x s = true -> is_space x = false -> stops is_space s.
Proof.
  destruct s as [|a s]; simpl; [trivial|].
  intros H Hx. now rewrite (lit_eq_space _ _ H).
Qed.

Lemma head_is_mismatch (x y : ascii) (lit : string) (r : regex) s c k :
  head_is x s = true -> Ascii.eqb (lower y) (lower x) = false ->
  run true (Cat (word (String y lit)) r) s c k = None.
Proof.
  destruct s as [|a s]; [discriminate|]. cbn [head_is]. intros H Hxy.
  apply run_word_mismatch. exact (lit_eq_other _ _ _ H Hxy).
Qed.

(** The name group: a word character, then the longest run of word
    characters and dots. *)
Lemma run_name (c : captures) (fname rest : string) :
  is_name fname = true -> ends_name rest = true ->
  run true (Cat (Group 3 (Cat (One is_word) (Star is_word_or_dot))) Eps)
      (fname ++ rest) c (fun _ c' => Some c')
  = Some ((3, fname) :: c).
Proof.
  destruct fname as [|a t]; [discriminate|]. cbn [is_name].
  intros Hn Hrest. apply andb_prop in Hn as [Ha Ht].
  rewrite run_cat, run_group, run_cat.
  change (String a t ++ rest)%string with (String a (t ++ rest)%string).
  cbn [run]. rewrite Ha. apply star_all.
  - exact Ht.
  - destruct rest as [|b rest]; [exact I|]. cbn in *.
    now apply negb_true_iff in Hrest.
  - do 2 f_equal. f_equal.
    exact (consumed_app (String a t) rest).
Qed.

(** The part of the function pattern after the modifiers. *)
Lemma run_function_keyword (c : captures) (kwF ws fname rest : string) :
  same_word "Function" kwF = true -> blank ws = true ->
  is_name fname = true -> ends_name rest = true ->
  run true
      (seq [word "Function"; Plus is_space;
            Group 3 (Cat (One is_word) (Star is_word_or_dot))])
      (kwF ++ ws ++ fname ++ rest) c (fun _ c' => Some c')
  = Some ((3, fname) :: c).
Proof.
  intros HF Hws Hn Hrest. cbn [seq].
  rewrite run_cat, (run_word _ _ _ _ _ HF), run_cat.
  apply run_plus_blank; [exact Hws | | now apply run_name].
  destruct fname as [|a t]; [discriminate|]. cbn in Hn |- *.
  apply andb_prop in Hn as [Ha _]. now apply word_not_space.
Qed.

(** An optional modifier in front of a subject that starts with
    another keyword: taken when present, skipped when absent. *)
Lemma run_modifier (n : nat) (x y : ascii) (lit : string) (present : bool)
      (kw ws text : string) (c : captures)
      (k : string -> captures -> option captures) (r : captures) :
  modifier_ok (String x lit) present kw ws = true ->
  head_is y text = true -> is_space y = false ->
  Ascii.eqb (lower x) (lower y) = false ->
  k text (if present then (n, (kw ++ ws)%string) :: c else c) = Some r ->
  run true (Opt (Group n (Cat (word (String x lit)) (Plus is_space))))
      (modifier present kw ws ++ text) c k
  = Some r.
Proof.
  intros Hok Hhead Hy Hxy Hk. rewrite run_opt, run_group.
  destruct present; cbn [modifier modifier_ok implb] in *.
  - apply andb_prop in Hok as [Hkw Hws].
    rewrite run_cat.
    replace (run true (word (String x lit)) ((kw ++ ws) ++ text) c _)
      with (Some r); [reflexivity|].
    symmetry. rewrite append_assoc. rewrite (run_word _ _ _ _ _ Hkw).
    apply run_plus_blank; [exact Hws | exact (head_is_stops _ _ Hhead Hy) |].
    rewrite <- append_assoc, consumed_app. exact Hk.
  - change (EmptyString ++ text)%string with text.
    now rewrite head_is_mismatch with (x := y).
Qed.

(** What the function pattern captures on a declaration line whose
    modifiers come in the order of the pattern. *)
Lemma match_function_line (e s : bool)
      (kwE wsE kwS wsS kwF ws fname rest : string) :
  modifier_ok "exposed" e kwE wsE = true ->
  modifier_ok "shared" s kwS wsS = true ->
  same_word "Function" kwF = true -> blank ws = true ->
  is_name fname = true -> ends_name rest = true ->
  re_match true re_function
    (modifier e kwE wsE ++ modifier s kwS wsS ++ kwF ++ ws ++ fname ++ rest)
  = Some ((3, fname)
            :: (if s then [(2, (kwS ++ wsS)%string)] else [])
            ++ (if e then [(1, (kwE ++ wsE)%string)] else [])).
Proof.
  intros HE HS HF Hws Hn Hrest.
  assert (HheadF : forall t, head_is "F" (kwF ++ t) = true)
    by (intros t; exact (head_is_word _ _ _ t HF)).
  unfold re_match, re_function. cbn [seq]. rewrite run_cat.
  apply run_modifier with (y := if s then "s"%char else "F"%char);
    [exact HE | | now destruct s | now destruct s |].
  { destruct s; cbn [modifier modifier_ok implb] in *.
    - apply andb_prop in HS as [HkwS _]. rewrite append_assoc.
      exact (head_is_word _ _ _ _ HkwS).
    - apply HheadF. }
  rewrite run_cat.
  apply run_modifier with (y := "F"%char);
    [exact HS | apply HheadF | reflexivity | reflexivity |].
  rewrite (run_function_keyword _ _ _ _ _ HF Hws Hn Hrest).
  now destruct e, s.
Qed.

(** The other two patterns do not match a line that starts with a
    letter other than theirs. *)
Lemma other_patterns_fail (x : ascii) (line : string) :
  head_is x line = true ->
  Ascii.eqb (lower "C") (lower x) = false ->
  Ascii.eqb (lower "p") (lower x) = false ->
  re_match true re_extends line = None
  /\ re_match true re_property line = None.
Proof.
  intros H HC Hp. unfold re_match, re_extends, re_property. cbn [seq].
  split; now apply head_is_mismatch with (x := x).
Qed.

Lemma declaration_head (e s : bool) (kwE wsE kwS wsS kwF t : string) :
  modifier_ok "exposed" e kwE wsE = true ->
  modifier_ok "shared" s kwS wsS = true ->
  same_word "Function" kwF = true ->
  head_is (if e then "e" else if s then "s" else "F")%char
          (modifier e kwE wsE ++ modifier s kwS wsS ++ kwF ++ t) = true.
Proof.
  intros HE HS HF.
  destruct e; cbn [modifier modifier_ok implb] in *.
  - apply andb_prop in HE as [H _]. rewrite append_assoc.
    exact (head_is_word _ _ _ _ H).
  - destruct s; cbn [modifier modifier_ok implb append] in *.
    + apply andb_prop in HS as [H _]. rewrite append_assoc.
      exact (head_is_word _ _ _ _ H).
    + exact (head_is_word _ _ _ _ HF).
Qed.

(** A keyword fails after any run of whitespace that is followed by
    another keyword. *)
Lemma word_fails_after_blank (x y : ascii) (lit : string) (r : regex)
      (post text : string) (c : captures)
      (k : string -> captures -> option captures) :
  all_chars is_space post = true ->
  is_space x = false ->
  head_is y text = true -> Ascii.eqb (lower x) (lower y) = false ->
  run true (Cat (word (String x lit)) r) (post ++ text) c k = None.
Proof.
  intros Hpost Hx Hhead Hxy. destruct post as [|b post].
  - now apply head_is_mismatch with (x := y).
  - cbn in Hpost. apply andb_prop in Hpost as [Hb _].
    apply run_word_mismatch. now apply space_not_lit.
Qed.

(** With [shared] written before [exposed] the function pattern does
    not match. *)
Lemma match_shared_exposed (kwS wsS kwE rest : string) :
  same_word "shared" kwS = true -> blank wsS = true ->
  same_word "exposed" kwE = true ->
  re_match true re_function (kwS ++ wsS ++ kwE ++ rest) = None.
Proof.
  intros HS Hws HE.
  pose proof (head_is_word _ _ _ (wsS ++ kwE ++ rest) HS) as HheadS.
  pose proof (head_is_word _ _ _ rest HE) as HheadE.
  unfold re_match, re_function. cbn [seq].
  rewrite run_cat, run_opt, run_group.
  rewrite head_is_mismatch with (x := "s"%char) by (exact HheadS || reflexivity).
  rewrite run_cat, run_opt, run_group.
  rewrite run_cat, (run_word _ _ _ _ _ HS).
  replace (run true (Plus is_space) (wsS ++ kwE ++ rest) _ _) with (@None captures).
  - now apply head_is_mismatch with (x := "s"%char).
  - symmetry. destruct wsS as [|b ws]; [discriminate|].
    cbn in Hws. apply andb_prop in Hws as [Hb Hall].
    change (String b ws ++ kwE ++ rest)%string
      with (String b (ws ++ kwE ++ rest)%string).
    rewrite run_plus_cons, Hb. apply star_fail.
    + exact (head_is_stops _ _ HheadE eq_refl).
    + exact Hall.
    + intros pre post ->. apply all_chars_app in Hall. cbv beta.
      now apply word_fails_after_blank with (y := "e"%char).
Qed.

Lemma same_word_nonempty (x : ascii) (lit kw ws : string) :
  same_word (String x lit) kw = true ->
  exists a t, (kw ++ ws)%string = String a t.
Proof. destruct kw as [|a kw]; [discriminate|]. intros _. now eexists _, _. Qed.

Lemma scan_line_unrecognized (st : scan_state) (line : string) :
  recognized line = false -> scan_line st line = st.
Proof.
  unfold recognized, scan_line. cbv zeta. intros H.
  apply orb_false_elim in H as [H H3]. apply orb_false_elim in H as [H1 H2].
  destruct (re_match true re_extends (strip line)); [discriminate|].
  destruct (re_match true re_property (strip line)); [discriminate|].
  destruct (re_match true re_function (strip line)); [discriminate|].
  now destruct st.
Qed.

(** Lines that match no pattern leave no trace, wherever they stand. *)
Lemma scan_ignores_unrecognized (lines : list string) : forall st,
  fold_left scan_line lines st
  = fold_left scan_line (filter recognized lines) st.
Proof.
  induction lines as [|l lines IH]; intros st; [reflexivity|].
  cbn [fold_left filter]. destruct (recognized l) eqn:Hl.
  - cbn [fold_left]. apply IH.
  - rewrite (scan_line_unrecognized st l Hl). apply IH.
Qed.

End ClassScanFacts.

(** C4, as stated, fails: with [shared] written before [exposed] the
    line matches no pattern and nothing is recorded, unlike the line
    with the two modifiers in the other order. *)
Lemma shared_exposed_not_recognized :
  ~ (ClassScan.funcs (ClassScan.scan_line ClassScan.scan_init "shared exposed Function f")
     = ClassScan.funcs (ClassScan.scan_line ClassScan.scan_init "exposed shared Function f")).
Proof. vm_compute. discriminate. Qed.

(** C4, amended.  A line that, once stripped, is an optional [exposed],
    then an optional [shared], then [Function] and a name that starts
    with a word character and goes on with word characters and dots,
    keywords in any letter case and separated by whitespace, is
    recognized as a function declaration: the modifiers present and the
    name are appended to [functions], and nothing else changes.  A line
    with [shared] written before [exposed] matches no pattern and is
    ignored. *)
Theorem function_line_recognized :
  (forall (st : ClassScan.scan_state) (line : string) (e s : bool)
          (kwE wsE kwS wsS kwF ws fname rest : string),
      Text.strip line
      = (LineShape.modifier e kwE wsE ++ LineShape.modifier s kwS wsS
         ++ kwF ++ ws ++ fname ++ rest)%string ->
      LineShape.modifier_ok "exposed" e kwE wsE = true ->
      LineShape.modifier_ok "shared" s kwS wsS = true ->
      LineShape.same_word "Function" kwF = true ->
      LineShape.blank ws = true ->
      LineShape.is_name fname = true ->
      LineShape.ends_name rest = true ->
      ClassScan.scan_line st line
      = ClassScan.mkScan (ClassScan.props st)
                         (ClassScan.funcs st ++ [LineShape.recorded e s fname])
                         (ClassScan.extends st))
  /\ (forall (st : ClassScan.scan_state) (line kwS wsS kwE rest : string),
         Text.strip line = (kwS ++ wsS ++ kwE ++ rest)%string ->
         LineShape.same_word "shared" kwS = true ->
         LineShape.blank wsS = true ->
         LineShape.same_word "exposed" kwE = true ->
         ClassScan.scan_line st line = st).
Proof.
  split.
  - intros st line e s kwE wsE kwS wsS kwF ws fname rest
           Hline HE HS HF Hws Hn Hrest.
    pose proof (ClassScanFacts.match_function_line e s kwE wsE kwS wsS kwF ws
                  fname rest HE HS HF Hws Hn Hrest) as Hm.
    pose proof (ClassScanFacts.declaration_head e s kwE wsE kwS wsS kwF
                  (ws ++ fname ++ rest) HE HS HF) as Hhead.
    destruct (ClassScanFacts.other_patterns_fail _ _ Hhead) as [H1 H2];
      [now destruct e, s | now destruct e, s |].
    unfold ClassScan.scan_line. cbv zeta. rewrite Hline, H1, H2, Hm.
    unfold LineShape.recorded, Re.group_truthy, Re.group_str.
    destruct e, s; cbn [LineShape.modifier_ok implb] in HE, HS;
      repeat match goal with
      | H : (LineShape.same_word _ _ && _)%bool = true |- _ =>
          apply andb_prop in H as [?H _]
      end;
      repeat match goal with
      | H : LineShape.same_word (String _ _) ?kw = true
        |- context [(?kw ++ ?w)%string] =>
          destruct (ClassScanFacts.same_word_nonempty _ _ _ w H) as (? & ? & ->)
      end;
      reflexivity.
  - intros st line kwS wsS kwE rest Hline HS Hws HE.
    apply ClassScanFacts.scan_line_unrecognized.
    unfold ClassScan.recognized. cbv zeta. rewrite Hline.
    rewrite (ClassScanFacts.match_shared_exposed _ _ _ rest HS Hws HE).
    pose proof (ClassScanFacts.head_is_word _ _ _ (wsS ++ kwE ++ rest) HS)
      as Hhead.
    destruct (ClassScanFacts.other_patterns_fail _ _ Hhead) as [-> ->];
      reflexivity.
Qed.

Lemma function_line_recognized_witness :
  ClassScan.scan_line ClassScan.scan_init "  EXPOSED  shared function a.b.c($x)  "
  = ClassScan.mkScan [] ([] ++ [LineShape.recorded true true "a.b.c"]) None
  /\ ClassScan.scan_line ClassScan.scan_init "Shared  exposed Function f"
     = ClassScan.scan_init.
Proof.
  split.
  - apply (proj1 function_line_recognized ClassScan.scan_init
             "  EXPOSED  shared function a.b.c($x)  " true true
             "EXPOSED" "  " "shared" " " "function" " " "a.b.c" "($x)");
      reflexivity.
  - apply (proj2 function_line_recognized ClassScan.scan_init
             "Shared  exposed Function f" "Shared" "  " "exposed" " Function f");
      reflexivity.
Defined.

(** C5.  A text none of whose lines matches the inheritance, property or
    function pattern yields no base class, no properties and no
    functions.  [analyze_class] is a total function, so it returns on
    every text, and on every text what it returns besides the line
    count is what the recognized lines alone give: the other lines are
    ignored. *)
Theorem unrecognized_text_yields_empty_class (stem text : string) :
  (forallb (fun l => negb (ClassScan.recognized l)) (Text.splitlines text) = true ->
   ClassScan.analyze_class stem (Some text)
   = ClassScan.mkClass stem (List.length (Text.splitlines text)) [] [] None)
  /\ ClassScan.analyze_class stem (Some text)
     = let st := fold_left ClassScan.scan_line
                   (filter ClassScan.recognized (Text.splitlines text))
                   ClassScan.scan_init in
       ClassScan.mkClass stem (List.length (Text.splitlines text))
         (ClassScan.props st) (ClassScan.funcs st) (ClassScan.extends st).
Proof.
  assert (Hall : ClassScan.analyze_class stem (Some text)
     = let st := fold_left ClassScan.scan_line
                   (filter ClassScan.recognized (Text.splitlines text))
                   ClassScan.scan_init in
       ClassScan.mkClass stem (List.length (Text.splitlines text))
         (ClassScan.props st) (ClassScan.funcs st) (ClassScan.extends st)).
  { unfold ClassScan.analyze_class. cbv zeta.
    now rewrite ClassScanFacts.scan_ignores_unrecognized. }
  split; [|exact Hall].
  intros H. rewrite Hall. cbv zeta.
  now rewrite (filter_none _ _ H).
Qed.

Lemma unrecognized_text_yields_empty_class_witness :
  ClassScan.analyze_class "C" (Some plain_text)
  = ClassScan.mkClass "C" (List.length (Text.splitlines plain_text)) [] [] None.
Proof.
  apply (proj1 (unrecognized_text_yields_empty_class "C" plain_text)).
  reflexivity.
Defined.

(** ** Dictionaries *)

Module DictFacts.
Import Dict.

Lemma get_set_same (k : string) (v : json) (d : t) :
  get k (set k v d) = Some v.
Proof.
  induction d as [|[k' v'] d IH]; simpl.
  - now rewrite String.eqb_refl.
  - destruct (String.eqb k' k) eqn:E; simpl; now rewrite E.
Qed.

Lemma get_set_other (k k' : string) (v : json) (d : t) :
  k' <> k -> get k' (set k v d) = get k' d.
Proof.
  intros Hne. induction d as [|[k0 v0] d IH]; simpl.
  - apply String.eqb_neq in Hne. now rewrite String.eqb_sym, Hne.
  - destruct (String.eqb k0 k) eqn:E; simpl.
    + apply String.eqb_eq in E. subst k0.
      apply String.eqb_neq in Hne. now rewrite String.eqb_sym, Hne.
    + now rewrite IH.
Qed.

Lemma has_get (k : string) (d : t) :
  has k d = match get k d with Some _ => true | None => false end.
Proof.
  induction d as [|[k' v'] d IH]; simpl; [reflexivity|].
  destruct (String.eqb k' k); [reflexivity | exact IH].
Qed.

Lemma has_set_same (k : string) (v : json) (d : t) : has k (set k v d) = true.
Proof. now rewrite has_get, get_set_same. Qed.

Lemma has_set_other (k k' : string) (v : json) (d : t) :
  k' <> k -> has k' (set k v d) = has k' d.
Proof. intros H. now rewrite !has_get, get_set_other. Qed.

(** Writing the value a key already has changes nothing. *)
Lemma set_same (k : string) (v : json) (d : t) :
  get k d = Some v -> set k v d = d.
Proof.
  induction d as [|[k' v'] d IH]; simpl; [discriminate|].
  destruct (String.eqb k' k) eqn:E.
  - now intros [= ->].
  - intros H. now rewrite IH.
Qed.

(** A key that is not there yet goes to the end. *)
Lemma set_absent (k : string) (v : json) (d : t) :
  has k d = false -> set k v d = d ++ [(k, v)].
Proof.
  induction d as [|[k' v'] d IH]; simpl; [reflexivity|].
  destruct (String.eqb k' k); simpl; [discriminate|].
  intros H. now rewrite IH.
Qed.

Lemma set_set (k : string) (v : json) (d : t) :
  set k v (set k v d) = set k v d.
Proof. apply set_same, get_set_same. Qed.

(** An assignment leaves the items under the other keys as they were,
    values and order. *)
Lemma others_set (k : string) (v : json) (d : t) :
  others k (set k v d) = others k d.
Proof.
  unfold others. induction d as [|[k' v'] d IH]; simpl.
  - now rewrite String.eqb_refl.
  - destruct (String.eqb k' k) eqn:E; simpl; rewrite E; simpl;
      [reflexivity | now rewrite IH].
Qed.

End DictFacts.

(** ** Dependency manifest *)

Module ManifestFacts.
Import Manifest.

(** The data written by a call that reaches [save_json_file]. *)
Lemma merged_ok (f : file_state) (N : string) (entry v : json) :
  merged f N entry = Ok v ->
  exists d deps,
    v = JDict (Dict.set "dependencies" (JDict (Dict.set N entry deps)) d)
    /\ Dict.has "dependencies" d = true
    /\ Dict.has "version" d = true
    /\ Dict.get "dependencies" d = Some (JDict deps).
Proof.
  unfold merged, bind.
  destruct (load_json_file f) as [data|e]; [|discriminate].
  destruct (as_dict data) as [d0|e]; [|discriminate].
  set (d1 := if negb (Dict.has "dependencies" d0)
             then Dict.set "dependencies" (JDict []) d0 else d0).
  set (d2 := if negb (Dict.has "version" d1)
             then Dict.set "version" (JInt 2130) d1 else d1).
  assert (H1 : Dict.has "dependencies" d1 = true).
  { subst d1. destruct (Dict.has "dependencies" d0) eqn:E; simpl;
      [exact E | apply DictFacts.has_set_same]. }
  assert (H2 : Dict.has "dependencies" d2 = true).
  { subst d2. destruct (Dict.has "version" d1); simpl; [exact H1|].
    rewrite DictFacts.has_set_other; [exact H1 | discriminate]. }
  assert (H3 : Dict.has "version" d2 = true).
  { subst d2. destruct (Dict.has "version" d1) eqn:E; simpl;
      [exact E | apply DictFacts.has_set_same]. }
  destruct (Dict.get "dependencies" d2) as [[| | | | | |deps]|] eqn:G;
    cbn [as_dict]; try discriminate.
  intros [= <-]. now exists d2, deps.
Qed.

(** Data written by one call is what the next identical call computes. *)
Lemma merged_again (f : file_state) (N : string) (entry v : json) :
  merged f N entry = Ok v -> merged (Holds v) N entry = Ok v.
Proof.
  intros H. destruct (merged_ok _ _ _ H) as (d & deps & -> & H1 & H2 & G).
  unfold merged, bind. cbn [load_json_file as_dict].
  rewrite DictFacts.has_set_same. cbn [negb].
  rewrite DictFacts.has_set_other by discriminate. rewrite H2. cbn [negb].
  rewrite DictFacts.get_set_same. cbn [as_dict].
  now rewrite !DictFacts.set_set.
Qed.

Lemma encodable_dict (d : Dict.t) :
  encodable (JDict d)
  = forallb (fun kv => utf8_ok (fst kv) && encodable (snd kv)) d.
Proof.
  cbn [encodable]. induction d as [|[k x] l IH]; [reflexivity|].
  cbn [forallb fst snd]. now rewrite IH.
Qed.

Lemma encodable_get (k : string) (d : Dict.t) (v : json) :
  encodable (JDict d) = true -> Dict.get k d = Some v -> encodable v = true.
Proof.
  rewrite encodable_dict. induction d as [|[k' x] l IH]; [discriminate|].
  cbn [forallb fst snd Dict.get]. intros H G.
  apply andb_prop in H. destruct H as [H1 H2].
  apply andb_prop in H1. destruct H1 as [_ Hx].
  destruct (String.eqb k' k); [now injection G as <- | now apply IH].
Qed.

Lemma encodable_set (k : string) (v : json) (d : Dict.t) :
  encodable (JDict d) = true -> utf8_ok k = true -> encodable v = true ->
  encodable (JDict (Dict.set k v d)) = true.
Proof.
  rewrite !encodable_dict. intros H Hk Hv.
  induction d as [|[k' x] l IH]; cbn [Dict.set forallb fst snd].
  - now rewrite Hk, Hv.
  - cbn [forallb fst snd] in H.
    apply andb_prop in H. destruct H as [H1 H2].
    apply andb_prop in H1. destruct H1 as [Hk' Hx].
    destruct (String.eqb k' k); cbn [forallb fst snd].
    + now rewrite Hk', Hv, H2.
    + now rewrite Hk', Hx, (IH H2).
Qed.

(** Defaults and assignment with encodable keys and values keep a
    dictionary encodable. *)
Lemma encodable_merge (k2 N : string) (v2 entry : json) (d0 deps : Dict.t) :
  utf8_ok k2 = true -> encodable v2 = true ->
  utf8_ok N = true -> encodable entry = true ->
  encodable (JDict d0) = true ->
  let d1 := if negb (Dict.has "dependencies" d0)
            then Dict.set "dependencies" (JDict []) d0 else d0 in
  let d2 := if negb (Dict.has k2 d1) then Dict.set k2 v2 d1 else d1 in
  Dict.get "dependencies" d2 = Some (JDict deps) ->
  encodable (JDict (Dict.set "dependencies" (JDict (Dict.set N entry deps)) d2))
  = true.
Proof.
  intros Hk2 Hv2 HN He H0 d1 d2 G.
  assert (H1 : encodable (JDict d1) = true).
  { subst d1. destruct (negb (Dict.has "dependencies" d0)); [|exact H0].
    now apply encodable_set. }
  assert (H2 : encodable (JDict d2) = true).
  { subst d2. destruct (negb (Dict.has k2 d1)); [|exact H1].
    now apply encodable_set. }
  apply encodable_set; [exact H2 | reflexivity |].
  apply encodable_set; [|exact HN | exact He].
  exact (encodable_get _ _ H2 G).
Qed.

(** The data of a merge into encodable data, with an encodable name and
    entry, is encodable. *)
Lemma merged_encodable (f : file_state) (N : string) (entry data v : json) :
  load_json_file f = Ok data -> encodable data = true ->
  utf8_ok N = true -> encodable entry = true ->
  merged f N entry = Ok v -> encodable v = true.
Proof.
  intros Hl Hd HN He. unfold merged, bind. rewrite Hl.
  destruct data as [| | | | | |d0]; cbn [as_dict]; try discriminate.
  destruct (Dict.get "dependencies" _) as [[| | | | | |deps]|] eqn:G;
    cbn [as_dict]; try discriminate.
  intros [= <-].
  exact (@encodable_merge "version" N (JInt 2130) entry d0 deps
           eq_refl eq_refl HN He Hd G).
Qed.

(** The merge itself never raises the encoding error. *)
Lemma merged_raises (f : file_state) (N : string) (entry : json) (e : exn) :
  merged f N entry = Raise e -> e <> UnicodeEncodeError.
Proof.
  unfold merged, bind.
  destruct (load_json_file f) as [v|e0] eqn:L.
  - destruct v; cbn [as_dict]; try (intros [= <-]; discriminate).
    destruct (Dict.get "dependencies" _) as [[]|]; cbn [as_dict];
      intros [= <-]; discriminate.
  - intros [= <-]. destruct f as [|o|l|text|v|v]; cbn [load_json_file] in L;
      try discriminate; injection L as <-; [destruct l|..]; discriminate.
Qed.

Lemma save_encodable (f : file_state) (data : json) :
  (forall o, f <> Obstructed o) -> encodable data = true ->
  save_json_file f data = (Holds data, None).
Proof.
  intros Hf He. unfold save_json_file. rewrite He.
  destruct f; try reflexivity. now elim (Hf o).
Qed.

Lemma save_unencodable (f : file_state) (data : json) :
  (forall o, f <> Obstructed o) -> encodable data = false ->
  save_json_file f data = (Partial data, Some UnicodeEncodeError).
Proof.
  intros Hf He. unfold save_json_file. rewrite He.
  destruct f; try reflexivity. now elim (Hf o).
Qed.

(** A write that ends without exception has written the data. *)
Lemma save_holds (f f' : file_state) (data : json) :
  save_json_file f data = (f', None) ->
  f' = Holds data /\ encodable data = true.
Proof.
  unfold save_json_file.
  destruct f; try discriminate; destruct (encodable data);
    try discriminate; intros [= <-]; now split.
Qed.

(** A write that raises leaves a directory, or the cut text. *)
Lemma save_raises (f f' : file_state) (data : json) (e : exn) :
  save_json_file f data = (f', Some e) ->
  (f' = f /\ e <> UnicodeEncodeError /\ exists o, f = Obstructed o)
  \/ (f' = Partial data /\ e = UnicodeEncodeError
      /\ encodable data = false).
Proof.
  unfold save_json_file.
  destruct f as [|o|l|text|v|v]; destruct (encodable data) eqn:E;
    try discriminate; intros [= <- <-];
    solve [ left; repeat split; [destruct o; discriminate | now exists o]
          | right; repeat split ].
Qed.

End ManifestFacts.

(** C6, as stated, fails: on a manifest that does not parse the call
    ends in an exception and writes nothing. *)
Lemma unparsable_manifest_not_replaced :
  ~ (exists data,
       Manifest.upsert (Manifest.Unparsable "{") "Foo" (JDict [])
       = (Manifest.Holds data, None)).
Proof. intros [data H]. vm_compute in H. discriminate. Qed.

(** C6, amended.  On an existing manifest that cannot be parsed the
    call fails with the decoding error before anything is written, so
    the file is left exactly as it was; the merger starts from an empty
    structure when the manifest file does not exist, and then writes a
    complete manifest holding the new entry, the name and the entry
    being encodable in UTF-8. *)
Theorem unparsable_manifest_left_untouched :
  (forall (text N : string) (entry : json),
      Manifest.upsert (Manifest.Unparsable text) N entry
      = (Manifest.Unparsable text, Some Manifest.JSONDecodeError))
  /\ (forall (N : string) (entry : json),
         Manifest.merged Manifest.Absent N entry
         = Manifest.Ok (JDict [("dependencies", JDict [(N, entry)]);
                               ("version", JInt 2130)])
         /\ (Manifest.utf8_ok N = true -> Manifest.encodable entry = true ->
             Manifest.upsert Manifest.Absent N entry
             = (Manifest.Holds (JDict [("dependencies", JDict [(N, entry)]);
                                       ("version", JInt 2130)]),
                None))).
Proof.
  split; [reflexivity|]. intros N entry. split; [reflexivity|].
  intros HN He. unfold Manifest.upsert.
  change (Manifest.merged Manifest.Absent N entry)
    with (Manifest.Ok (JDict [("dependencies", JDict [(N, entry)]);
                              ("version", JInt 2130)])).
  apply ManifestFacts.save_encodable; [discriminate|].
  cbn [Manifest.encodable]. rewrite HN, He. reflexivity.
Qed.

Lemma unparsable_manifest_left_untouched_witness :
  Manifest.upsert Manifest.Absent "Foo" (JDict [])
  = (Manifest.Holds (JDict [("dependencies", JDict [("Foo", JDict [])]);
                            ("version", JInt 2130)]),
     None).
Proof.
  apply (proj2 (proj2 unparsable_manifest_left_untouched "Foo" (JDict [])));
    reflexivity.
Defined.




(** C8.  The upsert is idempotent: from any state of the manifest file,
    a second call with the same name and entry leaves the file exactly
    as the first call left it. *)
Theorem upsert_idempotent (f : Manifest.file_state) (N : string) (entry : json) :
  fst (Manifest.upsert (fst (Manifest.upsert f N entry)) N entry)
  = fst (Manifest.upsert f N entry).
Proof.
  unfold Manifest.upsert at 2 3.
  destruct (Manifest.merged f N entry) as [v|e] eqn:H; cbn [fst].
  - destruct (Manifest.save_json_file f v) as [f' [e|]] eqn:S; cbn [fst].
    + destruct (ManifestFacts.save_raises _ _ S) as [(-> & _)|(-> & _)].
      * unfold Manifest.upsert. now rewrite H, S.
      * reflexivity.
    + destruct (ManifestFacts.save_holds _ _ S) as [-> Hv].
      unfold Manifest.upsert. rewrite (ManifestFacts.merged_again _ _ _ H).
      now rewrite ManifestFacts.save_encodable by (discriminate || exact Hv).
  - unfold Manifest.upsert. now rewrite H.
Qed.



(** ** Enumeration order *)

Module WalkerFacts.
Import Walker.

Lemma leb_flip (a b : string) : String.leb a b = false -> String.leb b a = true.
Proof. destruct (String.leb_total a b); congruence. Qed.

Lemma leb_trans (a b c : string) :
  String.leb a b = true -> String.leb b c = true -> String.leb a c = true.
Proof.
  unfold String.leb. intros Hab Hbc.
  destruct (String.compare a b) eqn:Eab; try discriminate;
    destruct (String.compare b c) eqn:Ebc; try discriminate.
  - apply String.compare_eq_iff in Eab. subst. now rewrite Ebc.
  - apply String.compare_eq_iff in Eab. subst. now rewrite Ebc.
  - apply String.compare_eq_iff in Ebc. subst. now rewrite Eab.
  - apply String_as_OT.cmp_lt in Eab, Ebc.
    pose proof (String_as_OT.lt_trans _ _ _ Eab Ebc) as H.
    apply String_as_OT.cmp_lt in H. unfold String_as_OT.cmp in H.
    now rewrite H.
Qed.

Lemma is_sorted_tail (x : string) (l : list string) :
  is_sorted (x :: l) = true -> is_sorted l = true.
Proof.
  destruct l as [|y l]; [reflexivity|]. cbn [is_sorted].
  intros H. now apply andb_prop in H.
Qed.

Lemma insert_head (e x : entry) (l : list entry) :
  exists y t, insert e (x :: l) = y :: t /\ (y = e \/ y = x).
Proof.
  cbn [insert]. destruct (String.leb (fst e) (fst x)); eauto.
Qed.

Lemma insert_is_sorted (e : entry) (l : list entry) :
  is_sorted (map fst l) = true -> is_sorted (map fst (insert e l)) = true.
Proof.
  induction l as [|x l IH]; intros H; [reflexivity|].
  cbn [insert]. destruct (String.leb (fst e) (fst x)) eqn:E.
  - cbn [map is_sorted] in *. now rewrite E.
  - apply leb_flip in E.
    destruct l as [|y l].
    + cbn. now rewrite E.
    + pose proof (is_sorted_tail _ _ H) as Ht. specialize (IH Ht).
      cbn [map is_sorted] in H. apply andb_prop in H as [Hxy _].
      destruct (insert_head e y l) as (z & t & Hz & Hor).
      rewrite Hz in *. cbn [map is_sorted] in *. rewrite IH.
      destruct Hor as [->| ->]; [now rewrite E | now rewrite Hxy].
Qed.

(** What [sorted] returns is in lexicographic order of the names:
    this is the order of the method files, of the class files and of
    the form folders. *)
Theorem sorted_is_sorted (l : list entry) :
  is_sorted (map fst (sorted l)) = true.
Proof.
  induction l as [|e l IH]; [reflexivity|]. now apply insert_is_sorted.
Qed.

Lemma is_sorted_head_le (x : string) (l : list string) :
  is_sorted (x :: l) = true -> forall y, In y l -> String.leb x y = true.
Proof.
  revert x. induction l as [|z l IH]; intros x H y []; subst;
    cbn [is_sorted] in H; apply andb_prop in H as [Hxz Hs].
  - exact Hxz.
  - apply (leb_trans _ _ _ Hxz). now apply IH.
Qed.

(** Leaving entries out keeps the order. *)
Lemma filter_is_sorted (keep : entry -> bool) (l : list entry) :
  is_sorted (map fst l) = true -> is_sorted (map fst (filter keep l)) = true.
Proof.
  induction l as [|x l IH]; intros H; [reflexivity|].
  pose proof (is_sorted_tail _ _ H) as Ht. specialize (IH Ht).
  cbn [filter]. destruct (keep x); [|exact IH].
  destruct (filter keep l) as [|y t] eqn:F; [reflexivity|].
  cbn [map is_sorted] in *. rewrite IH, andb_true_r.
  apply (is_sorted_head_le _ _ H).
  apply in_map. apply (proj1 (filter_In keep y l)).
  rewrite F. now left.
Qed.

(** X19: The forms are reported in lexicographic order of their folder
    names. *)
Theorem forms_in_name_order (count_pages : string -> option nat)
        (fs : node) (sources_dir : Path) :
  is_sorted (map form_name (analyze_forms count_pages fs sources_dir)) = true.
Proof.
  unfold analyze_forms. cbv zeta.
  destruct (negb (exists_ fs (sources_dir // "Forms"))); [reflexivity|].
  rewrite map_map. cbn [form_of form_name].
  apply filter_is_sorted, sorted_is_sorted.
Qed.

End WalkerFacts.

(** C9.  Files are enumerated in lexicographic order of their names in
    every category.  The method files, the class files and the form
    folders go through [sorted]; the database methods and the method
    files of a form are taken in the order the directory lists them:
    on [unsorted_project] they come out unsorted. *)
Theorem database_and_form_methods_unsorted (count_pages : string -> option nat) :
  Walker.db_methods (Walker.walk count_pages unsorted_project [])
  = ["onStartup"; "onExit"]
  /\ Walker.is_sorted
       (Walker.db_methods (Walker.walk count_pages unsorted_project [])) = false
  /\ map Walker.form_methods (Walker.forms (Walker.walk count_pages unsorted_project []))
     = [Some ["method"; "button"]]
  /\ Walker.is_sorted ["method"; "button"] = false
  /\ map fst (Walker.methods (Walker.walk count_pages unsorted_project []))
     = ["alpha"; "zeta"]
  /\ map ClassScan.cname (Walker.classes (Walker.walk count_pages unsorted_project []))
     = ["Abc"; "Zed"].
Proof. repeat split. Qed.

(** * Further properties of the scripts *)

(** ** Root location *)

Module LocateFacts.
Import Locate.

(** X5: The walk of [add_dependency.py], started in an existing directory,
    returns only directories that hold [Project/Sources], and only
    ancestors of the start. *)
Theorem add_dependency_root_sound (fs : node) (R : Path) :
  forall P : Path,
  is_dir fs P = true ->
  AddDependency.find_project_root fs P = Some R ->
  AddDependency.contains_sources fs R = true /\ In R (ancestors P).
Proof.
  unfold AddDependency.contains_sources.
  induction P as [|c up IH]; intros Hdir Hfind; [discriminate|].
  cbn [AddDependency.find_project_root] in Hfind.
  destruct (is_dir fs ((c :: up) // "Project" // "Sources")) eqn:H1.
  { injection Hfind as <-. split; [exact H1 | now left]. }
  destruct (String.eqb (name (c :: up)) "Sources"
            && String.eqb (name (parent (c :: up))) "Project") eqn:H2.
  { apply andb_prop in H2 as [Hc Hp]. cbn in Hc, Hp.
    apply String.eqb_eq in Hc. subst c.
    destruct up as [|c' X]; cbn in Hp; [discriminate|].
    apply String.eqb_eq in Hp. subst c'. cbn in Hfind.
    injection Hfind as <-. split; [exact Hdir|].
    rewrite !ancestors_cons. right. right. now left. }
  destruct (String.eqb (name (c :: up)) "Project"
            && is_dir fs ((c :: up) // "Sources")) eqn:H3.
  { apply andb_prop in H3 as [Hc Hs]. cbn in Hc.
    apply String.eqb_eq in Hc. subst c. cbn in Hfind.
    injection Hfind as <-. split; [exact Hs|].
    rewrite ancestors_cons. right. now left. }
  destruct (IH (is_dir_parent _ _ _ Hdir) Hfind) as [HR Hin].
  split; [exact HR | rewrite ancestors_cons; now right].
Qed.

Lemma add_dependency_root_sound_witness :
  AddDependency.contains_sources project_tree ["app"; "home"] = true
  /\ In ["app"; "home"] (ancestors ["Methods"; "Sources"; "Project"; "app"; "home"]).
Proof.
  apply (@add_dependency_root_sound project_tree ["app"; "home"]
           ["Methods"; "Sources"; "Project"; "app"; "home"]); reflexivity.
Defined.

(** A directory that lists a matching regular file is a directory. *)
Lemma glob_some_is_dir (fs : node) (d : Path) (ext : string) :
  existsb (is_file fs) (glob_ext fs d ext) = true -> is_dir fs d = true.
Proof.
  unfold glob_ext, iterdir, is_dir.
  destruct (stat fs d) as [[t|es]|]; cbn; congruence.
Qed.

(** X22: The second test of [clean.py]'s walk never changes its answer: the
    walk returns the closest ancestor whose [Project] folder holds a
    regular file matching [*.4DProject], as if the test on the name
    [Project] were not there. *)
Theorem clean_root_is_first_match (fs : node) (P : Path) :
  Clean.find_project_root fs P = find (Clean.has_project_file fs) (ancestors P).
Proof.
  unfold Clean.find_project_root. change ([P] ++ parents P) with (ancestors P).
  induction P as [|c up IH].
  - cbn. destruct (Clean.has_project_file fs []); [reflexivity|].
    unfold Clean.inside_project. cbn. reflexivity.
  - rewrite ancestors_cons. cbn [Clean.search find].
    destruct (Clean.has_project_file fs (c :: up)); [reflexivity|].
    destruct (Clean.inside_project fs (c :: up)) eqn:Hin; [|exact IH].
    unfold Clean.inside_project in Hin. apply andb_prop in Hin as [Hc Hfiles].
    cbn in Hc. apply String.eqb_eq in Hc. subst c.
    assert (Hup : Clean.has_project_file fs up = true).
    { unfold Clean.has_project_file. cbv zeta.
      change (up // "Project") with ("Project" :: up).
      now rewrite (glob_some_is_dir _ _ _ Hfiles), Hfiles. }
    destruct up as [|c' up']; cbn [parent tl ancestors parents find];
      now rewrite Hup.
Qed.

(** X6: [find_environment4d] returns the [environment4d.json] of the closest
    ancestor below the filesystem root that has one as a regular file,
    and nothing exactly when no such ancestor has one. *)
Theorem find_environment4d_closest (fs : node) :
  forall P : Path,
  (forall f, find_environment4d fs P = Some f ->
     exists closer d further,
       ancestors P = closer ++ d :: further
       /\ d <> []
       /\ f = d // "environment4d.json"
       /\ is_file fs f = true
       /\ forall d', In d' closer -> is_file fs (d' // "environment4d.json") = false)
  /\ (find_environment4d fs P = None <->
      forall d, In d (ancestors P) -> d <> [] ->
                is_file fs (d // "environment4d.json") = false).
Proof.
  induction P as [|c up [IHs IHn]].
  - split.
    + discriminate.
    + split; [|reflexivity]. intros _ d [<-|[]] H. congruence.
  - rewrite ancestors_cons. cbn [find_environment4d]. cbv zeta.
    destruct (is_file fs ((c :: up) // "environment4d.json")) eqn:E.
    + split.
      * intros f [= <-]. exists [], (c :: up), (ancestors up).
        repeat split; [discriminate | exact E | intros d' []].
      * split; [discriminate|]. intros H.
        rewrite (H (c :: up)) in E; [discriminate | now left | discriminate].
    + split.
      * intros f Hf. destruct (IHs f Hf) as (closer & d & further & -> & Hd & -> & Hfile & Hc).
        exists ((c :: up) :: closer), d, further.
        repeat split; auto. intros d' [<-|Hd']; auto.
      * rewrite IHn. split.
        -- intros H d [<-|Hd] Hne; auto.
        -- intros H d Hd. apply H. now right.
Qed.

End LocateFacts.

Lemma find_environment4d_closest_witness :
  exists closer d further,
    ancestors ["app"; "home"] = closer ++ d :: further
    /\ d <> []
    /\ ["environment4d.json"; "home"] = d // "environment4d.json"
    /\ is_file env_tree ["environment4d.json"; "home"] = true
    /\ forall d', In d' closer -> is_file env_tree (d' // "environment4d.json") = false.
Proof.
  apply (proj1 (LocateFacts.find_environment4d_closest env_tree ["app"; "home"])).
  reflexivity.
Defined.

Lemma find_project_root_closest_witness :
  exists closer further,
    ancestors (ProjectInfo.start_dir project_tree
                 ["m.4dm"; "Methods"; "Sources"; "Project"; "app"; "home"])
    = closer ++ ["app"; "home"] :: further
    /\ ProjectInfo.has_project_file project_tree ["app"; "home"] = true
    /\ forall d, In d closer -> ProjectInfo.has_project_file project_tree d = false.
Proof.
  apply (@ProjectInfoFacts.find_project_root_closest project_tree
           ["m.4dm"; "Methods"; "Sources"; "Project"; "app"; "home"] ["app"; "home"]).
  reflexivity.
Defined.

Lemma find_project_root_unique_below_root_witness :
  AddDependency.find_project_root project_tree
    ["Methods"; "Sources"; "Project"; "app"; "home"]
  = Some ["app"; "home"].
Proof.
  apply (@AddDependencyFacts.find_project_root_unique_below_root project_tree
           ["app"; "home"] ["Methods"; "Sources"; "Project"; "app"; "home"]).
  - reflexivity.
  - cbn. tauto.
  - discriminate.
  - reflexivity.
  - intros d Hd Hq. cbn in Hd.
    repeat (destruct Hd as [<-|Hd]; [try reflexivity; vm_compute in Hq; discriminate|]).
    contradiction.
Defined.

(** ** GitHub URLs and dependency names *)

Module UrlFacts.
Import Chars Re LineShape ReFacts ClassScanFacts Manifest DepName.

Lemma append_nil_r (s : string) : (s ++ "")%string = s.
Proof. induction s as [|a s IH]; cbn; [reflexivity | now rewrite IH]. Qed.

Lemma prefix_app (w s : string) : String.prefix w (w ++ s) = true.
Proof.
  induction w as [|a w IH]; cbn; [now destruct s|].
  destruct (ascii_dec a a); [exact IH | congruence].
Qed.

(** Case-sensitive literals. *)
Lemma run_word_cs (w : string) : forall s c k,
  run false (word w) (w ++ s) c k = k s c.
Proof.
  induction w as [|a w IH]; intros s c k; [reflexivity|].
  cbn [word append]. rewrite run_cat. cbn [run]. unfold lit_eq.
  rewrite Ascii.eqb_refl. apply IH.
Qed.

Lemma run_word_inv (w : string) : forall s c k r,
  run false (word w) s c k = Some r ->
  exists s', s = (w ++ s')%string /\ k s' c = Some r.
Proof.
  induction w as [|a w IH]; intros s c k r H.
  - now exists s.
  - cbn [word] in H. rewrite run_cat in H. cbn [run] in H.
    destruct s as [|b s]; [discriminate|]. unfold lit_eq in H.
    destruct (Ascii.eqb a b) eqn:E; [|discriminate].
    apply Ascii.eqb_eq in E. subst b.
    destruct (IH _ _ _ _ H) as (s' & -> & Hk). now exists s'.
Qed.

Lemma run_lit_inv (x : ascii) s c k r :
  run false (Lit x) s c k = Some r ->
  exists s', s = String x s' /\ k s' c = Some r.
Proof.
  cbn [run]. destruct s as [|b s]; [discriminate|]. unfold lit_eq.
  destruct (Ascii.eqb x b) eqn:E; [|discriminate].
  apply Ascii.eqb_eq in E. subst b. intros H. now exists s.
Qed.

Lemma run_lit_cons ic x a t c k :
  run ic (Lit x) (String a t) c k = if lit_eq ic x a then k t c else None.
Proof. reflexivity. Qed.

Lemma run_eps ic s c k : run ic Eps s c k = k s c.
Proof. reflexivity. Qed.

Lemma run_lazy_cons ic p a t c k :
  run ic (PlusLazy p) (String a t) c k
  = if p a then lazy_more p t (fun s' => k s' c) else None.
Proof. reflexivity. Qed.

(** X1: [parse_github_url] accepts nothing but what [is_github_url]
    accepts: on any other string it returns [(None, None)]. *)
Theorem parse_rejects_other_urls (url : string) :
  is_github_url url = false -> parse_github_url url = (None, None).
Proof.
  intros Hno. unfold parse_github_url.
  destruct (re_match false re_github url) as [m|] eqn:E; [|reflexivity].
  exfalso. unfold re_match, re_github in E. cbn [seq] in E.
  rewrite run_cat in E. apply run_word_inv in E as (s1 & -> & E).
  rewrite run_cat, run_opt in E.
  destruct (run false (Lit "s") s1 [] _) eqn:E2.
  - apply run_lit_inv in E2 as (s2 & -> & E2).
    rewrite run_cat in E2. apply run_word_inv in E2 as (s3 & -> & _).
    unfold is_github_url, Str.startswith in Hno.
    change ("http" ++ String "s" ("://github.com/" ++ s3))%string
      with ("https://github.com/" ++ s3)%string in Hno.
    now rewrite prefix_app in Hno.
  - rewrite run_cat in E. apply run_word_inv in E as (s3 & -> & _).
    unfold is_github_url, Str.startswith in Hno.
    change ("http" ++ "://github.com/" ++ s3)%string
      with ("http://github.com/" ++ s3)%string in Hno.
    rewrite prefix_app, orb_true_r in Hno. discriminate.
Qed.

Lemma parse_rejects_other_urls_witness :
  parse_github_url "git@github.com:owner/repo.git" = (None, None).
Proof. apply (parse_rejects_other_urls "git@github.com:owner/repo.git"). reflexivity. Defined.

Lemma star_all_end (A : Type) (p : ascii -> bool) (k : string -> option A)
      (r : A) (ws : string) :
  all_chars p ws = true -> k EmptyString = Some r -> star p ws k = Some r.
Proof.
  intros Hall Hk. rewrite <- (append_nil_r ws). now apply star_all.
Qed.

Lemma consumed_nil (a : string) : consumed a "" = a.
Proof. rewrite <- (append_nil_r a) at 1. apply consumed_app. Qed.

(** A lazy repetition goes on as long as the rest of the pattern fails
    and stops at the first place where it succeeds. *)
Lemma lazy_more_all (A : Type) (p : ascii -> bool) (k : string -> option A)
      (text : string) (r : A) :
  forall t,
  all_chars p t = true ->
  (forall pre b post, t = (pre ++ String b post)%string ->
                      k (String b post ++ text)%string = None) ->
  k text = Some r ->
  lazy_more p (t ++ text) k = Some r.
Proof.
  induction t as [|a t IH]; intros Hall Hfail Hk.
  - cbn [append]. destruct text; cbn [lazy_more]; now rewrite Hk.
  - cbn in Hall. apply andb_prop in Hall as [Ha Ht].
    change (String a t ++ text)%string with (String a (t ++ text)%string).
    cbn [lazy_more].
    rewrite (Hfail EmptyString a t eq_refl : k (String a (t ++ text)%string) = None).
    rewrite Ha. apply IH; [exact Ht | | exact Hk].
    intros pre b post ->. exact (Hfail (String a pre) b post eq_refl).
Qed.

Lemma all_chars_weaken (p q : ascii -> bool) (s : string) :
  (forall a, p a = true -> q a = true) ->
  all_chars p s = true -> all_chars q s = true.
Proof.
  intros Hpq. induction s as [|a s IH]; cbn; [trivial|].
  intros H. apply andb_prop in H as [Ha Hs]. now rewrite (Hpq a Ha), IH.
Qed.

Lemma plain_not_slash (a : ascii) : plain a = true -> not_slash a = true.
Proof. unfold plain. intros H. now apply andb_prop in H. Qed.

Lemma substring_skip (pre suf : string) (m : nat) :
  substring (String.length pre) m (pre ++ suf) = substring 0 m suf.
Proof. induction pre as [|a pre IH]; cbn; [reflexivity | exact IH]. Qed.

Lemma substring_all (s : string) : substring 0 (String.length s) s = s.
Proof. rewrite <- (append_nil_r s) at 2. apply substring_prefix. Qed.

Lemma endswith_app (pre suf : string) : Str.endswith (pre ++ suf) suf = true.
Proof.
  unfold Str.endswith. cbv zeta. rewrite length_app.
  replace (String.length pre + String.length suf - String.length suf)
    with (String.length pre) by lia.
  rewrite substring_skip, substring_all, String.eqb_refl, andb_true_r.
  apply Nat.leb_le. lia.
Qed.

(** A word without slash at the start of a name followed by the end of
    a release URL lies inside the name. *)
Lemma app_prefix (w : string) :
  all_chars not_slash w = true ->
  forall post tg s',
  (post ++ release_part tg = w ++ s')%string ->
  exists rest, post = (w ++ rest)%string /\ s' = (rest ++ release_part tg)%string.
Proof.
  induction w as [|x w IH]; intros Hw post tg s' H.
  - now exists post.
  - cbn in Hw. apply andb_prop in Hw as [Hx Hw].
    destruct post as [|b post].
    + destruct tg as [t|]; cbn in H; [|discriminate].
      injection H as <- _. discriminate.
    + cbn in H. injection H as <- H.
      destruct (IH Hw _ _ _ H) as (rest & -> & ->). now exists rest.
Qed.

Local Abbreviation tail2 := (Cat (Opt (Lit "/")) (Cat Eos Eps)).
Local Abbreviation tail1 :=
  (Cat (Opt (Cat (word "/releases/tag/") (Group 2 (Plus not_slash)))) tail2).
Local Abbreviation tail0 := (Cat (Opt (word ".git")) tail1).

Lemma tail2_fails (b : ascii) (rest : string) c k :
  plain b = true -> run false tail2 (String b rest) c k = None.
Proof.
  unfold plain, not_slash. intros H. apply andb_prop in H as [Hs Hn].
  apply negb_true_iff in Hs, Hn.
  rewrite run_cat, run_opt. cbn [run]. unfold lit_eq.
  rewrite Ascii.eqb_sym, Hs. cbn [at_end]. rewrite Hn. now destruct rest.
Qed.

Lemma tail1_fails (b : ascii) (rest : string) c k :
  plain b = true -> run false tail1 (String b rest) c k = None.
Proof.
  intros H. rewrite run_cat, run_opt.
  replace (run false (Cat (word "/releases/tag/") (Group 2 (Plus not_slash)))
               (String b rest) c _) with (@None captures).
  - now apply tail2_fails.
  - cbn [word]. rewrite !run_cat. cbn [run]. unfold lit_eq.
    apply plain_not_slash in H. unfold not_slash in H.
    apply negb_true_iff in H. now rewrite Ascii.eqb_sym, H.
Qed.

(** After a part of the repository name that is not [.git], the end of
    the pattern does not match. *)
Lemma tail0_fails (b : ascii) (post : string) (tg : option string) c k :
  all_chars plain (String b post) = true ->
  String b post <> ".git" ->
  run false tail0 (String b post ++ release_part tg) c k = None.
Proof.
  intros Hall Hne. rewrite run_cat, run_opt.
  destruct (run false (word ".git") (String b post ++ release_part tg) c _)
    as [m|] eqn:E.
  - exfalso. apply run_word_inv in E as (s' & Heq & Hk).
    apply app_prefix in Heq as (rest & Hpost & ->); [|reflexivity].
    destruct rest as [|b' rest].
    + rewrite append_nil_r in Hpost. contradiction.
    + rewrite Hpost in Hall. apply all_chars_app in Hall.
      cbn in Hall. apply andb_prop in Hall as [Hb' _].
      change (String b' rest ++ release_part tg)%string
        with (String b' (rest ++ release_part tg)%string) in Hk.
      now rewrite tail1_fails in Hk.
  - cbn in Hall. apply andb_prop in Hall as [Hb _].
    change (String b post ++ release_part tg)%string
      with (String b (post ++ release_part tg)%string).
    now apply tail1_fails.
Qed.

(** At the end of the repository name, the end of the pattern matches
    and captures the tag when there is one. *)
Lemma tail0_ok (tg : option string) (c : captures) :
  match tg with Some t => segment t | None => true end = true ->
  run false tail0 (release_part tg) c (fun _ c' => Some c')
  = Some (match tg with Some t => (2, t) :: c | None => c end).
Proof.
  destruct tg as [t|]; [|reflexivity]. intros Ht.
  unfold segment in Ht. apply andb_prop in Ht as [Hne Hall].
  destruct t as [|a t]; [discriminate|]. cbn [release_part].
  rewrite run_cat, run_opt.
  destruct (run false (word ".git") _ c _) as [m|] eqn:E.
  { apply run_word_inv in E as (s' & Heq & _). cbn in Heq. discriminate. }
  rewrite run_cat, run_opt, run_cat, run_word_cs, run_group, run_plus_cons.
  cbn in Hall. apply andb_prop in Hall as [Ha Hall]. rewrite Ha.
  rewrite (star_all_end _ _ (r := (2, String a t) :: c) _ Hall); [reflexivity|].
  cbn. now rewrite substring_all.
Qed.

(** The two forms of URL that [parse_github_url] documents: a
    repository URL gives [owner/repo] and no tag, a release URL gives
    [owner/repo] and the tag. *)
Lemma parse_constructed (https : bool) (owner repo : string)
        (tg : option string) :
  segment owner = true ->
  repo_name repo = true ->
  match tg with Some t => segment t | None => true end = true ->
  parse_github_url (base_url https ++ owner ++ "/" ++ repo ++ release_part tg)
  = (Some (owner ++ "/" ++ repo)%string, tg).
Proof.
  intros Ho Hr Ht.
  unfold segment in Ho. apply andb_prop in Ho as [Hone Hoall].
  unfold repo_name in Hr. apply andb_prop in Hr as [Hr Hgit].
  apply andb_prop in Hr as [Hrne Hrall]. apply negb_true_iff in Hgit.
  destruct owner as [|a ws]; [discriminate|].
  destruct repo as [|b t]; [discriminate|].
  set (rp := release_part tg).
  set (caps := match tg with
               | Some t' => [(2, t'); (1, (String a ws ++ "/" ++ String b t)%string)]
               | None => [(1, (String a ws ++ "/" ++ String b t)%string)]
               end).
  assert (Hcore :
    run false
        (Cat (word "://github.com/")
             (Cat (Group 1 (Cat (Plus not_slash)
                                (Cat (Lit "/") (Cat (PlusLazy not_slash) Eps))))
                  tail0))
        ("://github.com/" ++ String a ws ++ "/" ++ String b t ++ rp) []
        (fun _ c' => Some c')
    = Some caps).
  { rewrite run_cat, run_word_cs, run_cat, run_group, run_cat.
    apply run_plus; [exact Hoall | reflexivity |]. cbv beta.
    rewrite run_cat.
    change ("/" ++ String b t ++ rp)%string with (String "/" (String b (t ++ rp)%string)).
    rewrite run_lit_cons. unfold lit_eq. rewrite Ascii.eqb_refl.
    rewrite run_cat, run_lazy_cons.
    cbn in Hrall. apply andb_prop in Hrall as [Hb Htall].
    rewrite (plain_not_slash _ Hb).
    apply lazy_more_all.
    - exact (all_chars_weaken _ _ _ plain_not_slash Htall).
    - intros pre b' post Hsplit. apply tail0_fails.
      + rewrite Hsplit in Htall. now apply all_chars_app in Htall.
      + intros Heq. rewrite Hsplit, Heq in Hgit.
        change (String b (pre ++ ".git")%string)
          with (String b pre ++ ".git")%string in Hgit.
        now rewrite endswith_app in Hgit.
    - cbv beta. rewrite run_eps. cbv beta. unfold rp at 1.
      rewrite tail0_ok by exact Ht.
      replace (consumed (String a ws ++ String "/" (String b (t ++ rp)%string)) rp)
        with (String a ws ++ "/" ++ String b t)%string; [now destruct tg|].
      symmetry.
      replace (String a ws ++ String "/" (String b (t ++ rp)%string))%string
        with ((String a ws ++ "/" ++ String b t) ++ rp)%string.
      + apply consumed_app.
      + rewrite append_assoc. reflexivity. }
  assert (Hmatch :
    re_match false re_github
      (base_url https ++ String a ws ++ "/" ++ String b t ++ rp) = Some caps).
  { unfold re_match, re_github. cbn [seq].
    destruct https; cbn [base_url].
    - change ("https://github.com/" ++ String a ws ++ "/" ++ String b t ++ rp)%string
        with ("http" ++ String "s" ("://github.com/" ++ String a ws ++ "/" ++ String b t ++ rp))%string.
      rewrite run_cat, run_word_cs, run_cat, run_opt, run_lit_cons. unfold lit_eq.
      rewrite Ascii.eqb_refl. cbv beta. now rewrite Hcore.
    - change ("http://github.com/" ++ String a ws ++ "/" ++ String b t ++ rp)%string
        with ("http" ++ ("://github.com/" ++ String a ws ++ "/" ++ String b t ++ rp))%string.
      rewrite run_cat, run_word_cs, run_cat, run_opt.
      replace (run false (Lit "s") _ [] _) with (@None captures) by reflexivity.
      exact Hcore. }
  unfold parse_github_url. rewrite Hmatch. subst caps. now destruct tg.
Qed.

End UrlFacts.

Module DepNameFacts.
Import Chars LineShape Manifest DepName UrlFacts.

Lemma split_not_nil (sep : ascii) (s : string) : split sep s <> [].
Proof.
  destruct s as [|a s]; cbn; [discriminate|].
  destruct (Ascii.eqb a sep); [discriminate|].
  destruct (split sep s); discriminate.
Qed.

(** No part of a split contains the separator. *)
Lemma split_parts (sep : ascii) (s : string) :
  Forall (fun x => count_char sep x = 0) (split sep s).
Proof.
  induction s as [|a s IH]; cbn.
  - now constructor.
  - destruct (Ascii.eqb a sep) eqn:E.
    + now constructor.
    + destruct (split sep s) as [|x xs].
      * constructor; [cbn; now rewrite E | constructor].
      * inversion IH as [|? ? Hx Hxs]; subst.
        constructor; [cbn; now rewrite E | exact Hxs].
Qed.

Lemma last_part_forall (P : string -> Prop) (l : list string) :
  Forall P l -> P EmptyString -> P (last_part l).
Proof.
  unfold last_part. intros H H0. induction H as [|x l Hx Hl IH]; [exact H0|].
  cbn. destruct l; [exact Hx | exact IH].
Qed.

Lemma substring_count (c : ascii) (s : string) : forall n,
  count_char c s = 0 -> count_char c (substring 0 n s) = 0.
Proof.
  induction s as [|a s IH]; intros n H; [now destruct n|].
  destruct n; [reflexivity|]. cbn in H |- *.
  destruct (Ascii.eqb a c); [discriminate|]. cbn in H |- *. now apply IH.
Qed.

(** X3: Without an override, the dependency name [get_dependency_name]
    derives never contains a slash, whatever [repo] is. *)
Theorem dependency_name_has_no_slash
        (path_exists : bool) (repo : string) (name_override : option string) :
  truthy name_override = false ->
  no_slash (get_dependency_name path_exists repo name_override) = true.
Proof.
  intros Hov. unfold no_slash, get_dependency_name. rewrite Hov. cbv zeta.
  apply Nat.eqb_eq.
  destruct (is_github_url repo && truthy _).
  { apply last_part_forall; [apply split_parts | reflexivity]. }
  destruct (is_github_repo path_exists repo).
  { apply last_part_forall; [apply split_parts | reflexivity]. }
  assert (Hn : count_char "/" (path_name repo) = 0).
  { unfold path_name. apply last_part_forall; [|reflexivity].
    apply incl_Forall with (l1 := split "/" repo); [|apply split_parts].
    intros x Hx. now apply filter_In in Hx. }
  destruct (Str.endswith (path_name repo) ".4dbase"); [|exact Hn].
  now apply substring_count.
Qed.

Lemma dependency_name_has_no_slash_witness :
  no_slash (get_dependency_name true "../libs/My.Component.4dbase/" None) = true.
Proof.
  apply (dependency_name_has_no_slash true "../libs/My.Component.4dbase/" None).
  reflexivity.
Defined.

Lemma split_app_sep (sep : ascii) (y : string) : forall x,
  exists l1, split sep (x ++ String sep y) = l1 ++ split sep y /\ l1 <> [].
Proof.
  induction x as [|a x (l1 & IH & Hne)]; cbn.
  - rewrite Ascii.eqb_refl. now exists [EmptyString].
  - destruct (Ascii.eqb a sep).
    + exists (EmptyString :: l1). now rewrite IH.
    + rewrite IH. destruct l1 as [|z l1]; [contradiction|].
      now exists (String a z :: l1).
Qed.

Lemma last_app_nonempty (l1 l2 : list string) (d : string) :
  l2 <> [] -> List.last (l1 ++ l2) d = List.last l2 d.
Proof.
  intros H. induction l1 as [|x l1 IH]; [reflexivity|].
  cbn [app List.last]. destruct (l1 ++ l2) eqn:E; [|exact IH].
  apply app_eq_nil in E as [_ ->]. contradiction.
Qed.

Lemma split_no_sep (sep : ascii) (s : string) :
  count_char sep s = 0 -> split sep s = [s].
Proof.
  induction s as [|a s IH]; cbn; [reflexivity|].
  destruct (Ascii.eqb a sep); [discriminate|]. cbn. intros H. now rewrite IH.
Qed.

(** The part after the last slash. *)
Lemma last_part_after_slash (x y : string) :
  count_char "/" y = 0 -> last_part (split "/" (x ++ "/" ++ y)) = y.
Proof.
  intros Hy. destruct (split_app_sep "/" y x) as (l1 & H & _).
  change (x ++ "/" ++ y)%string with (x ++ String "/" y)%string.
  unfold last_part. rewrite H, last_app_nonempty by apply split_not_nil.
  now rewrite split_no_sep.
Qed.

Lemma plain_count (s : string) : all_chars plain s = true -> count_char "/" s = 0.
Proof.
  induction s as [|a s IH]; cbn; [reflexivity|]. intros H.
  apply andb_prop in H as [Ha Hs]. apply plain_not_slash in Ha.
  unfold not_slash in Ha. apply negb_true_iff in Ha. rewrite Ha. now apply IH.
Qed.

Lemma base_url_is_github (https : bool) (s : string) :
  is_github_url (base_url https ++ s) = true.
Proof.
  unfold is_github_url, Str.startswith.
  destruct https; cbn [base_url]; rewrite prefix_app; [reflexivity|].
  apply orb_true_r.
Qed.

(** X2: A repository URL or a release URL, as the usage text gives them,
    is parsed into [owner/repo] and the tag; with no [--name] and no
    [--tag] the dependency is named after the repository and its entry
    holds [github: owner/repo], then the tag of a release URL, or else
    the version asked for, if any. *)
Theorem repository_url_dependency
        (https path_exists : bool) (owner repo : string)
        (tg version : option string) :
  segment owner = true ->
  repo_name repo = true ->
  match tg with Some t => segment t | None => true end = true ->
  let url := (base_url https ++ owner ++ "/" ++ repo ++ release_part tg)%string in
  parse_github_url url = (Some (owner ++ "/" ++ repo)%string, tg)
  /\ get_dependency_name path_exists url None = repo
  /\ dep_entry path_exists url None version
     = ("github", JStr (owner ++ "/" ++ repo)%string)
         :: match tg with
            | Some t => [("tag", JStr t)]
            | None => if truthy version
                      then [("version", JStr (text_of version))] else []
            end.
Proof.
  intros Ho Hr Ht url.
  pose proof (parse_constructed https owner repo tg Ho Hr Ht) as Hparse.
  fold url in Hparse.
  pose proof (base_url_is_github https (owner ++ "/" ++ repo ++ release_part tg))
    as Hurl. fold url in Hurl.
  assert (Htruthy : truthy (Some (owner ++ "/" ++ repo)%string) = true).
  { unfold segment in Ho. destruct owner; [discriminate | reflexivity]. }
  split; [exact Hparse|]. split.
  - unfold get_dependency_name. cbv zeta. cbn [truthy].
    rewrite Hurl, Hparse. cbn [fst]. rewrite Htruthy. cbn [andb text_of].
    apply last_part_after_slash.
    unfold repo_name in Hr. apply andb_prop in Hr as [Hr _].
    apply andb_prop in Hr as [_ Hr]. now apply plain_count.
  - unfold dep_entry, is_github_repo. rewrite Hurl, Hparse, Htruthy.
    cbn [text_of py_or truthy].
    destruct tg as [t|].
    + unfold segment in Ht. destruct t; [discriminate|]. reflexivity.
    + cbn [truthy]. destruct (truthy version); reflexivity.
Qed.

Lemma repository_url_dependency_witness :
  parse_github_url release_url = (Some "mesopelagique/SemVer", Some "0.2.0")
  /\ get_dependency_name false release_url None = "SemVer"
  /\ dep_entry false release_url None (Some "latest")
     = [("github", JStr "mesopelagique/SemVer"); ("tag", JStr "0.2.0")].
Proof.
  apply (repository_url_dependency true false "mesopelagique" "SemVer"
           (Some "0.2.0") (Some "latest")); reflexivity.
Defined.

End DepNameFacts.

(** ** The manifest and the environment file *)

Module MergeFacts.
Import Manifest ManifestShape Environment.

Lemma keys_set (k : string) (v : json) (d : Dict.t) :
  keys (Dict.set k v d) = keys d ++ missing k d.
Proof.
  unfold keys, missing. induction d as [|[k' v'] d IH]; cbn; [reflexivity|].
  destruct (String.eqb k' k) eqn:E; cbn.
  - now rewrite app_nil_r.
  - now rewrite IH.
Qed.

Lemma keys_defaulted (k : string) (v : json) (d : Dict.t) :
  keys (defaulted k v d) = keys d ++ missing k d.
Proof.
  unfold defaulted, missing. destruct (Dict.has k d) eqn:H; cbn [negb].
  - now rewrite app_nil_r.
  - rewrite keys_set. unfold missing. now rewrite H.
Qed.

Lemma has_defaulted_same (k : string) (v : json) (d : Dict.t) :
  Dict.has k (defaulted k v d) = true.
Proof.
  unfold defaulted. destruct (Dict.has k d) eqn:H; cbn [negb];
    [exact H | apply DictFacts.has_set_same].
Qed.

Lemma has_defaulted_other (k k' : string) (v : json) (d : Dict.t) :
  k' <> k -> Dict.has k' (defaulted k v d) = Dict.has k' d.
Proof.
  intros H. unfold defaulted. destruct (Dict.has k d); cbn [negb];
    [reflexivity | now apply DictFacts.has_set_other].
Qed.

Lemma get_defaulted_other (k k' : string) (v : json) (d : Dict.t) :
  k' <> k -> Dict.get k' (defaulted k v d) = Dict.get k' d.
Proof.
  intros H. unfold defaulted. destruct (Dict.has k d); cbn [negb];
    [reflexivity | now apply DictFacts.get_set_other].
Qed.

Lemma defaulted_has (k : string) (v : json) (d : Dict.t) :
  Dict.has k d = true -> defaulted k v d = d.
Proof. intros H. unfold defaulted. now rewrite H. Qed.

Lemma others_defaulted_same (k : string) (v : json) (d : Dict.t) :
  Dict.others k (defaulted k v d) = Dict.others k d.
Proof.
  unfold defaulted.
  destruct (Dict.has k d); cbn [negb]; [reflexivity | apply DictFacts.others_set].
Qed.

Lemma others_defaulted (k0 k : string) (v : json) (d : Dict.t) :
  k <> k0 ->
  Dict.others k0 (defaulted k v d) = Dict.others k0 d ++ missing_item k v d.
Proof.
  intros Hne. unfold defaulted, missing_item.
  destruct (Dict.has k d) eqn:H; cbn [negb]; [now rewrite app_nil_r|].
  rewrite (DictFacts.set_absent _ _ _ H). unfold Dict.others.
  rewrite filter_app. cbn. apply String.eqb_neq in Hne. now rewrite Hne.
Qed.

Section Defaults.
Variable k2 : string.
Variable v2 : json.
Hypothesis k2_other : k2 <> "dependencies".

Lemma get_with_defaults (d : Dict.t) :
  Dict.get "dependencies" (with_defaults k2 v2 d)
  = match Dict.get "dependencies" d with
    | Some v => Some v
    | None => Some (JDict [])
    end.
Proof.
  unfold with_defaults.
  rewrite get_defaulted_other by (intros E; now apply k2_other).
  unfold defaulted. rewrite DictFacts.has_get.
  destruct (Dict.get "dependencies" d) eqn:G; cbn [negb];
    [exact G | apply DictFacts.get_set_same].
Qed.

Lemma get_with_defaults_wf (d : Dict.t) :
  well_formed d = true ->
  Dict.get "dependencies" (with_defaults k2 v2 d) = Some (JDict (deps_of d)).
Proof.
  rewrite get_with_defaults. unfold well_formed, deps_of.
  destruct (Dict.get "dependencies" d) as [[| | | | | |deps]|];
    try discriminate; reflexivity.
Qed.

Lemma has_with_defaults (d : Dict.t) :
  Dict.has "dependencies" (with_defaults k2 v2 d) = true
  /\ Dict.has k2 (with_defaults k2 v2 d) = true.
Proof.
  unfold with_defaults. split; [|apply has_defaulted_same].
  rewrite has_defaulted_other by (intros E; now apply k2_other).
  apply has_defaulted_same.
Qed.

Lemma keys_with_defaults (d : Dict.t) :
  keys (with_defaults k2 v2 d)
  = keys d ++ missing "dependencies" d ++ missing k2 d.
Proof.
  unfold with_defaults. rewrite !keys_defaulted, <- app_assoc.
  do 2 f_equal. unfold missing.
  now rewrite has_defaulted_other by exact k2_other.
Qed.

Lemma others_with_defaults (d : Dict.t) :
  Dict.others "dependencies" (with_defaults k2 v2 d)
  = Dict.others "dependencies" d ++ missing_item k2 v2 d.
Proof.
  unfold with_defaults.
  rewrite others_defaulted by exact k2_other.
  rewrite others_defaulted_same. f_equal. unfold missing_item.
  now rewrite has_defaulted_other by exact k2_other.
Qed.

(** Setting [dependencies] to a dictionary gives a file that has both
    defaults already. *)
Lemma with_defaults_again (d : Dict.t) (deps : Dict.t) :
  with_defaults k2 v2 (Dict.set "dependencies" (JDict deps) (with_defaults k2 v2 d))
  = Dict.set "dependencies" (JDict deps) (with_defaults k2 v2 d).
Proof.
  destruct (has_with_defaults d) as [_ H2].
  unfold with_defaults at 1.
  rewrite (defaulted_has "dependencies") by apply DictFacts.has_set_same.
  apply defaulted_has.
  now rewrite DictFacts.has_set_other by exact k2_other.
Qed.
End Defaults.

Lemma version_other : "version" <> "dependencies".
Proof. discriminate. Qed.

Lemma dev_other : "devDependencies" <> "dependencies".
Proof. discriminate. Qed.

(** What is written on a manifest that can be merged into. *)
Lemma merged_well_formed (d : Dict.t) (N : string) (entry : json) :
  well_formed d = true ->
  merged (Holds (JDict d)) N entry
  = Ok (JDict (Dict.set "dependencies"
                 (JDict (Dict.set N entry (deps_of d)))
                 (with_defaults "version" (JInt 2130) d))).
Proof.
  intros Hwf. unfold merged, bind. cbn [load_json_file as_dict].
  change (if negb (Dict.has "version" _) then _ else _)
    with (with_defaults "version" (JInt 2130) d).
  now rewrite (get_with_defaults_wf (JInt 2130) version_other _ Hwf).
Qed.

Lemma merged_ill_formed (d : Dict.t) (N : string) (entry : json) :
  well_formed d = false ->
  merged (Holds (JDict d)) N entry = Raise TypeError.
Proof.
  intros Hwf. unfold merged, bind. cbn [load_json_file as_dict].
  change (if negb (Dict.has "version" _) then _ else _)
    with (with_defaults "version" (JInt 2130) d).
  rewrite (get_with_defaults (JInt 2130) version_other).
  unfold well_formed in Hwf.
  destruct (Dict.get "dependencies" d) as [[| | | | | |deps]|];
    try discriminate; reflexivity.
Qed.

Lemma env_merged_well_formed (d : Dict.t) (N url : string) :
  well_formed d = true ->
  env_merged (Holds (JDict d)) N url
  = Ok (JDict (Dict.set "dependencies"
                 (JDict (Dict.set N (JStr url) (deps_of d)))
                 (with_defaults "devDependencies" (JDict []) d))).
Proof.
  intros Hwf. unfold env_merged, bind. cbn [load_json_file as_dict].
  change (if negb (Dict.has "devDependencies" _) then _ else _)
    with (with_defaults "devDependencies" (JDict []) d).
  now rewrite (get_with_defaults_wf (JDict []) dev_other _ Hwf).
Qed.

Lemma env_merged_encodable (d : Dict.t) (N url : string) :
  encodable (JDict d) = true -> utf8_ok N = true -> utf8_ok url = true ->
  well_formed d = true ->
  encodable (JDict (Dict.set "dependencies"
                      (JDict (Dict.set N (JStr url) (deps_of d)))
                      (with_defaults "devDependencies" (JDict []) d)))
  = true.
Proof.
  intros Hd HN Hu Hwf.
  exact (@ManifestFacts.encodable_merge "devDependencies" N (JDict [])
           (JStr url) d (deps_of d) eq_refl eq_refl HN Hu Hd
           (get_with_defaults_wf (JDict []) dev_other _ Hwf)).
Qed.

(** X7: How the manifest update of [add_dependency] ends on each state
    of the manifest file.  Where no file can be written, on a file that
    cannot be loaded, on a text that does not parse and on a JSON value
    that is not a dictionary with a dictionary (or nothing) under
    [dependencies], it raises before anything is written.  Otherwise the merged data are
    written if all their strings can be encoded, and if not the
    encoding error is raised inside the write and the file is left with
    the cut text.  The file is as it was after every exception but that
    one. *)
Theorem upsert_outcome (f : file_state) (N : string) (entry : json) :
  match f with
  | Obstructed o => upsert f N entry = (f, Some (obstacle_exn o))
  | Unloadable l => upsert f N entry = (f, Some (load_exn l))
  | Unparsable _ | Partial _ => upsert f N entry = (f, Some JSONDecodeError)
  | Absent =>
      exists data,
        merged f N entry = Ok data
        /\ upsert f N entry
           = if encodable data then (Holds data, None)
             else (Partial data, Some UnicodeEncodeError)
  | Holds v =>
      if acceptable v
      then exists data,
             merged f N entry = Ok data
             /\ upsert f N entry
                = if encodable data then (Holds data, None)
                  else (Partial data, Some UnicodeEncodeError)
      else upsert f N entry = (f, Some TypeError)
  end
  /\ (forall e, snd (upsert f N entry) = Some e ->
        e <> UnicodeEncodeError -> fst (upsert f N entry) = f).
Proof.
  split.
  - destruct f as [|o|l|text|v|v]; try reflexivity.
    + eexists. split; reflexivity.
    + destruct v as [| | | | | |d]; try reflexivity.
      cbn [acceptable]. unfold upsert.
      destruct (well_formed d) eqn:Hwf.
      * rewrite (merged_well_formed _ _ _ Hwf). eexists. split; reflexivity.
      * now rewrite (merged_ill_formed _ _ _ Hwf).
  - intros e He Hne. unfold upsert in *.
    destruct (merged f N entry) as [v|e']; [|reflexivity].
    destruct (save_json_file f v) as [f' oe] eqn:S. cbn [fst snd] in *.
    subst oe.
    destruct (ManifestFacts.save_raises _ _ S) as [(-> & _)|(_ & -> & _)];
      [reflexivity | now elim Hne].
Qed.

(** X8: On a manifest that can be merged into and written back, the
    keys come out in a stable order: the keys that were there keep
    their places, then come [dependencies] and [version] if they were
    missing; inside [dependencies] a name that was there keeps its
    place and a new name goes last. *)
Theorem upsert_keeps_key_order (d : Dict.t) (N : string) (entry : json) :
  well_formed d = true ->
  encodable (JDict d) = true -> utf8_ok N = true -> encodable entry = true ->
  exists d',
    upsert (Holds (JDict d)) N entry = (Holds (JDict d'), None)
    /\ keys d' = keys d ++ missing "dependencies" d ++ missing "version" d
    /\ keys (deps_of d') = keys (deps_of d) ++ missing N (deps_of d).
Proof.
  intros Hwf Hd HN He. eexists. unfold upsert.
  rewrite (merged_well_formed _ _ _ Hwf). split; [|split].
  - apply ManifestFacts.save_encodable; [discriminate|].
    exact (@ManifestFacts.encodable_merge "version" N (JInt 2130) entry d
             (deps_of d) eq_refl eq_refl HN He Hd
             (get_with_defaults_wf (JInt 2130) version_other _ Hwf)).
  - rewrite keys_set. unfold missing at 1.
    rewrite (proj1 (has_with_defaults (JInt 2130) version_other d)), app_nil_r.
    apply keys_with_defaults, version_other.
  - unfold deps_of at 1. rewrite DictFacts.get_set_same. apply keys_set.
Qed.

Lemma upsert_keeps_key_order_witness :
  exists d',
    upsert (Holds (JDict bar_manifest)) "Foo" (JDict [])
    = (Holds (JDict d'), None)
    /\ keys d' = keys bar_manifest ++ missing "dependencies" bar_manifest
                 ++ missing "version" bar_manifest
    /\ keys (deps_of d')
       = keys (deps_of bar_manifest) ++ missing "Foo" (deps_of bar_manifest).
Proof.
  apply (upsert_keeps_key_order bar_manifest "Foo" (JDict [])); reflexivity.
Defined.

(** X10: The environment file, when it holds a dictionary that can be
    merged into and all the strings to write can be encoded in UTF-8:
    the reference is found under the dependency name afterwards, the
    other references and the other top-level fields keep their values
    and their order, an empty [devDependencies] is added when there was
    none, and the same call made again writes the same data.  When
    the merged data cannot be encoded, the call raises the encoding
    error and leaves the file with the cut text. *)
Theorem env_upsert_changes_one_reference (d : Dict.t) (N url : string) :
  well_formed d = true ->
  (encodable (JDict d) = true -> utf8_ok N = true -> utf8_ok url = true ->
   exists d',
     env_upsert (Holds (JDict d)) N url = (Holds (JDict d'), None)
     /\ Dict.get N (deps_of d') = Some (JStr url)
     /\ Dict.others N (deps_of d') = Dict.others N (deps_of d)
     /\ Dict.others "dependencies" d'
        = Dict.others "dependencies" d
          ++ missing_item "devDependencies" (JDict []) d
     /\ env_upsert (Holds (JDict d')) N url = (Holds (JDict d'), None))
  /\ (forall data,
        env_merged (Holds (JDict d)) N url = Ok data ->
        encodable data = false ->
        env_upsert (Holds (JDict d)) N url
        = (Partial data, Some UnicodeEncodeError)).
Proof.
  intros Hwf.
  set (d2 := with_defaults "devDependencies" (JDict []) d).
  set (deps' := Dict.set N (JStr url) (deps_of d)).
  assert (D : deps_of (Dict.set "dependencies" (JDict deps') d2) = deps').
  { unfold deps_of. now rewrite DictFacts.get_set_same. }
  assert (W : well_formed (Dict.set "dependencies" (JDict deps') d2) = true).
  { unfold well_formed. now rewrite DictFacts.get_set_same. }
  split.
  - intros Hd HN Hu.
    pose proof (@env_merged_encodable d N url Hd HN Hu Hwf) as E.
    fold d2 deps' in E.
    exists (Dict.set "dependencies" (JDict deps') d2).
    rewrite D. repeat split.
    + unfold env_upsert. rewrite (env_merged_well_formed _ _ _ Hwf).
      fold d2 deps'. now apply ManifestFacts.save_encodable.
    + apply DictFacts.get_set_same.
    + apply DictFacts.others_set.
    + rewrite DictFacts.others_set. apply others_with_defaults, dev_other.
    + unfold env_upsert. rewrite (env_merged_well_formed _ _ _ W), D.
      subst deps' d2.
      rewrite (with_defaults_again (JDict []) dev_other).
      rewrite !DictFacts.set_set.
      now apply ManifestFacts.save_encodable.
  - intros data Hm He. unfold env_upsert. rewrite Hm.
    now apply ManifestFacts.save_unencodable.
Qed.

Lemma env_upsert_changes_one_reference_witness :
  exists d',
    env_upsert (Holds (JDict bar_manifest)) "Foo" "file:///x/Foo.4dbase"
    = (Holds (JDict d'), None)
    /\ Dict.get "Foo" (deps_of d') = Some (JStr "file:///x/Foo.4dbase")
    /\ Dict.others "Foo" (deps_of d') = Dict.others "Foo" (deps_of bar_manifest)
    /\ Dict.others "dependencies" d'
       = Dict.others "dependencies" bar_manifest
         ++ missing_item "devDependencies" (JDict []) bar_manifest
    /\ env_upsert (Holds (JDict d')) "Foo" "file:///x/Foo.4dbase"
       = (Holds (JDict d'), None).
Proof.
  apply (proj1 (env_upsert_changes_one_reference bar_manifest "Foo"
                  "file:///x/Foo.4dbase" eq_refl));
    reflexivity.
Defined.

(** X11: The two files are written one after the other and nothing is
    undone.  When the manifest update raises, the environment file is
    not touched, and the manifest is as it was unless the exception is
    the encoding error raised inside the write, which leaves the cut
    text.  A call that gets past the manifest has written it whatever
    happens next: for a GitHub dependency or a sibling folder the
    environment file is not touched; when the environment file does
    not parse, the call fails with the manifest already updated and
    the environment file as it was; when the environment data cannot
    be encoded, the call fails with the manifest updated and the
    environment file cut. *)
Theorem manifest_written_before_environment
        (github_repo sibling : bool) (N : string) (entry : json)
        (file_url : option string) (manifest env : file_state) :
  (forall e, snd (upsert manifest N entry) = Some e ->
     write_files github_repo sibling N entry file_url manifest env
     = (fst (upsert manifest N entry), env, Failed e)
     /\ (e <> UnicodeEncodeError -> fst (upsert manifest N entry) = manifest)
     /\ (e = UnicodeEncodeError ->
         exists data, fst (upsert manifest N entry) = Partial data))
  /\ (snd (upsert manifest N entry) = None ->
      fst (fst (write_files github_repo sibling N entry file_url manifest env))
      = fst (upsert manifest N entry)
      /\ (exists data, fst (upsert manifest N entry) = Holds data)
      /\ (github_repo || sibling = true ->
          write_files github_repo sibling N entry file_url manifest env
          = (fst (upsert manifest N entry), env, Done))
      /\ (github_repo || sibling = false ->
          forall text, env = Unparsable text ->
          write_files github_repo sibling N entry file_url manifest env
          = (fst (upsert manifest N entry), env, Failed JSONDecodeError))
      /\ (github_repo || sibling = false ->
          forall url data, file_url = Some url ->
          (forall o, env <> Obstructed o) ->
          env_merged env N url = Ok data -> encodable data = false ->
          write_files github_repo sibling N entry file_url manifest env
          = (fst (upsert manifest N entry), Partial data,
             Failed UnicodeEncodeError))).
Proof.
  unfold write_files. split.
  - intros e He.
    destruct (upsert manifest N entry) as [m' oe] eqn:U. cbn [fst snd] in *.
    subst oe. split; [reflexivity|].
    unfold upsert in U.
    destruct (merged manifest N entry) as [v|e'] eqn:Hm.
    + destruct (ManifestFacts.save_raises _ _ U)
        as [(-> & Hne & _)|(-> & -> & _)].
      * split; [reflexivity | intros E; now elim Hne].
      * split; [intros H; now elim H | intros _; now eexists].
    + injection U as <- <-. split; [reflexivity|].
      intros ->. now elim (ManifestFacts.merged_raises _ _ _ Hm).
  - intros Hok. destruct (upsert manifest N entry) as [m' [e|]] eqn:U;
      cbn [fst snd] in *; [discriminate|].
    split; [|split; [|split; [|split]]].
    + destruct github_repo; [reflexivity|]. destruct sibling; [reflexivity|].
      destruct (bind (load_json_file env) as_dict); [|reflexivity].
      destruct file_url; [|reflexivity].
      now destruct (env_upsert env N s) as [env' [e|]].
    + unfold upsert in U. destruct (merged manifest N entry) as [v|e'];
        [|discriminate].
      destruct (ManifestFacts.save_holds _ _ U) as [-> _]. now eexists.
    + intros H. destruct github_repo; [reflexivity|].
      destruct sibling; [reflexivity | discriminate].
    + intros H text ->. apply orb_false_elim in H as [-> ->]. reflexivity.
    + intros H url data -> Hf Hm He. apply orb_false_elim in H as [-> ->].
      assert (L : exists d0, bind (load_json_file env) as_dict = Ok d0).
      { unfold env_merged, bind in Hm |- *.
        destruct (load_json_file env) as [v|e]; [|discriminate].
        destruct (as_dict v) as [d0|e]; [now eexists | discriminate]. }
      destruct L as [d0 ->]. unfold env_upsert. rewrite Hm.
      now rewrite (@ManifestFacts.save_unencodable env data Hf He).
Qed.

End MergeFacts.

(** ** More on declaration lines *)

Module DeclFacts.
Import Chars Text Re ClassScan LineShape DeclShape ReFacts ClassScanFacts UrlFacts.

(** A pattern that starts with a keyword matches only subjects that
    start with its first letter. *)
Lemma keyword_head (x : ascii) (lit : string) (r : regex) s c k m :
  run true (Cat (word (String x lit)) r) s c k = Some m -> head_is x s = true.
Proof.
  destruct s as [|a t]; [discriminate|]. cbn [head_is].
  destruct (lit_eq true x a) eqn:E; [reflexivity|].
  now rewrite run_word_mismatch.
Qed.

Lemma function_head (s : string) (m : captures) :
  re_match true re_function s = Some m ->
  head_is "e" s = true \/ head_is "s" s = true \/ head_is "F" s = true.
Proof.
  unfold re_match, re_function. cbn [seq]. rewrite run_cat, run_opt, run_group.
  destruct (run true (Cat (word "exposed") (Plus is_space)) s [] _) eqn:E1.
  { intros _. left. exact (keyword_head _ _ _ _ _ _ E1). }
  rewrite run_cat, run_opt, run_group.
  destruct (run true (Cat (word "shared") (Plus is_space)) s [] _) eqn:E2.
  { intros _. right. left. exact (keyword_head _ _ _ _ _ _ E2). }
  intros H. right. right. exact (keyword_head _ _ _ _ _ _ H).
Qed.

Lemma head_is_unique (x y : ascii) (s : string) :
  head_is x s = true -> Ascii.eqb (lower y) (lower x) = false ->
  head_is y s = false.
Proof.
  destruct s as [|a t]; [reflexivity|]. cbn [head_is]. apply lit_eq_other.
Qed.

Lemma extends_head (s : string) (m : captures) :
  re_match true re_extends s = Some m -> head_is "C" s = true.
Proof. unfold re_match, re_extends. cbn [seq]. apply keyword_head. Qed.

Lemma property_head (s : string) (m : captures) :
  re_match true re_property s = Some m -> head_is "p" s = true.
Proof. unfold re_match, re_property. cbn [seq]. apply keyword_head. Qed.

Lemma function_fails (x : ascii) (s : string) :
  head_is x s = true ->
  Ascii.eqb (lower "e") (lower x) = false ->
  Ascii.eqb (lower "s") (lower x) = false ->
  Ascii.eqb (lower "F") (lower x) = false ->
  re_match true re_function s = None.
Proof.
  intros H He Hs HF. destruct (re_match true re_function s) eqn:E; [|reflexivity].
  destruct (function_head _ E) as [H1|[H1|H1]];
    [rewrite (head_is_unique _ "e" _ H He) in H1
    |rewrite (head_is_unique _ "s" _ H Hs) in H1
    |rewrite (head_is_unique _ "F" _ H HF) in H1]; discriminate.
Qed.

(** X15: No line matches two of the three patterns: a line adds to at most
    one of the base class, the properties and the functions. *)
Theorem patterns_exclusive (s : string) :
  is_some (re_match true re_extends s) && is_some (re_match true re_property s)
  = false
  /\ is_some (re_match true re_extends s) && is_some (re_match true re_function s)
     = false
  /\ is_some (re_match true re_property s) && is_some (re_match true re_function s)
     = false.
Proof.
  repeat split; apply not_true_is_false; intros H;
    apply andb_prop in H as [H1 H2].
  - destruct (re_match true re_extends s) eqn:E1; [|discriminate].
    destruct (re_match true re_property s) eqn:E2; [|discriminate].
    apply extends_head in E1. apply property_head in E2.
    rewrite (head_is_unique _ "p" _ E1 eq_refl) in E2. discriminate.
  - destruct (re_match true re_extends s) eqn:E1; [|discriminate].
    destruct (re_match true re_function s) eqn:E3; [|discriminate].
    apply extends_head in E1.
    destruct (function_head _ E3) as [H|[H|H]];
      [rewrite (head_is_unique _ "e" _ E1 eq_refl) in H
      |rewrite (head_is_unique _ "s" _ E1 eq_refl) in H
      |rewrite (head_is_unique _ "F" _ E1 eq_refl) in H]; discriminate.
  - destruct (re_match true re_property s) eqn:E2; [|discriminate].
    destruct (re_match true re_function s) eqn:E3; [|discriminate].
    apply property_head in E2.
    destruct (function_head _ E3) as [H|[H|H]];
      [rewrite (head_is_unique _ "e" _ E2 eq_refl) in H
      |rewrite (head_is_unique _ "s" _ E2 eq_refl) in H
      |rewrite (head_is_unique _ "F" _ E2 eq_refl) in H]; discriminate.
Qed.

(** The group of a pattern that ends in the rest of the line. *)
Lemma run_rest (c : captures) (rest : string) :
  is_text rest = true ->
  run true (Cat (Group 1 (Plus is_dot)) Eps) rest c (fun _ c' => Some c')
  = Some ((1, rest) :: c).
Proof.
  destruct rest as [|a t]; [discriminate|]. cbn [is_text all_chars].
  intros H. apply andb_prop in H as [_ H]. apply andb_prop in H as [Ha Ht].
  rewrite run_cat, run_group, run_plus_cons, Ha.
  rewrite (star_all_end _ _ (r := (1, String a t) :: c) _ Ht); [reflexivity|].
  rewrite run_eps. now rewrite consumed_nil.
Qed.

Lemma is_text_stops (rest : string) :
  is_text rest = true -> stops is_space rest.
Proof.
  destruct rest as [|a t]; [discriminate|]. cbn. intros H.
  apply andb_prop in H as [H _]. now apply negb_true_iff in H.
Qed.

(** X16: A property line adds its text to the properties, an inheritance
    line sets the base class; keywords in any letter case, separated
    from what follows by whitespace.  Nothing else changes. *)
Theorem property_and_extends_lines (st : scan_state) (line : string) :
  (forall kw ws rest,
      strip line = (kw ++ ws ++ rest)%string ->
      same_word "property" kw = true -> blank ws = true ->
      is_text rest = true ->
      scan_line st line
      = mkScan (props st ++ [strip rest]) (funcs st) (extends st))
  /\ (forall kw1 ws1 kw2 ws2 rest,
         strip line = (kw1 ++ ws1 ++ kw2 ++ ws2 ++ rest)%string ->
         same_word "Class" kw1 = true -> blank ws1 = true ->
         same_word "extends" kw2 = true -> blank ws2 = true ->
         is_text rest = true ->
         scan_line st line
         = mkScan (props st) (funcs st) (Some (strip rest))).
Proof.
  split.
  - intros kw ws rest Hline Hkw Hws Hrest.
    pose proof (head_is_word _ _ _ (ws ++ rest) Hkw) as Hhead.
    assert (Hp : re_match true re_property (kw ++ ws ++ rest) = Some [(1, rest)]).
    { unfold re_match, re_property. cbn [seq].
      rewrite run_cat, (run_word _ _ _ _ _ Hkw), run_cat.
      apply run_plus_blank;
        [exact Hws | now apply is_text_stops | now apply run_rest]. }
    assert (He : re_match true re_extends (kw ++ ws ++ rest) = None).
    { unfold re_match, re_extends. cbn [seq].
      now apply head_is_mismatch with (x := "p"%char). }
    assert (Hf : re_match true re_function (kw ++ ws ++ rest) = None).
    { now apply function_fails with (x := "p"%char). }
    unfold scan_line. cbv zeta. rewrite Hline, He, Hp, Hf. reflexivity.
  - intros kw1 ws1 kw2 ws2 rest Hline Hkw1 Hws1 Hkw2 Hws2 Hrest.
    pose proof (head_is_word _ _ _ (ws1 ++ kw2 ++ ws2 ++ rest) Hkw1) as Hhead.
    assert (He : re_match true re_extends (kw1 ++ ws1 ++ kw2 ++ ws2 ++ rest)
                 = Some [(1, rest)]).
    { unfold re_match, re_extends. cbn [seq].
      rewrite run_cat, (run_word _ _ _ _ _ Hkw1), run_cat.
      apply run_plus_blank; [exact Hws1 | |].
      - apply head_is_stops with (x := "e"%char); [|reflexivity].
        exact (head_is_word _ _ _ (ws2 ++ rest) Hkw2).
      - cbv beta. rewrite run_cat, (run_word _ _ _ _ _ Hkw2), run_cat.
        apply run_plus_blank;
          [exact Hws2 | now apply is_text_stops | now apply run_rest]. }
    assert (Hp : re_match true re_property (kw1 ++ ws1 ++ kw2 ++ ws2 ++ rest) = None).
    { unfold re_match, re_property. cbn [seq].
      now apply head_is_mismatch with (x := "C"%char). }
    assert (Hf : re_match true re_function (kw1 ++ ws1 ++ kw2 ++ ws2 ++ rest) = None).
    { now apply function_fails with (x := "C"%char). }
    unfold scan_line. cbv zeta. rewrite Hline, He, Hp, Hf. reflexivity.
Qed.

Lemma property_and_extends_lines_witness :
  scan_line scan_init "  PROPERTY   name : Text  "
  = mkScan ([] ++ [strip "name : Text"]) [] None
  /\ scan_line scan_init "class  Extends Entity"
     = mkScan [] [] (Some (strip "Entity")).
Proof.
  split.
  - apply (proj1 (property_and_extends_lines scan_init "  PROPERTY   name : Text  ")
             "PROPERTY" "   " "name : Text"); reflexivity.
  - apply (proj2 (property_and_extends_lines scan_init "class  Extends Entity")
             "class" "  " "Extends" " " "Entity"); reflexivity.
Defined.

Lemma scan_line_combine (st : scan_state) (line : string) :
  scan_line st line = combine st (scan_line scan_init line).
Proof.
  unfold scan_line, combine. cbv zeta.
  destruct (re_match true re_extends (strip line));
    destruct (re_match true re_property (strip line));
    destruct (re_match true re_function (strip line));
    destruct st; cbn; rewrite ?app_nil_r; reflexivity.
Qed.

Lemma combine_assoc (a b c : scan_state) :
  combine (combine a b) c = combine a (combine b c).
Proof.
  unfold combine. cbn. rewrite !app_assoc. f_equal.
  now destruct (extends c).
Qed.

Lemma combine_init (a : scan_state) : combine a scan_init = a.
Proof. destruct a. unfold combine. cbn. now rewrite !app_nil_r. Qed.

Lemma fold_combine (lines : list string) : forall st,
  fold_left scan_line lines st
  = combine st (fold_left scan_line lines scan_init).
Proof.
  induction lines as [|l lines IH]; intros st; cbn [fold_left].
  - now rewrite combine_init.
  - rewrite IH, (IH (scan_line scan_init l)), <- combine_assoc.
    now rewrite <- scan_line_combine.
Qed.

Lemma splitlines_from_not_nil (a : ascii) (s : string) :
  splitlines_from false (String a s) <> [].
Proof.
  cbn. destruct (is_linebreak a); [discriminate|].
  destruct (splitlines_from false s); discriminate.
Qed.

Lemma splitlines_from_cons (flag : bool) (a : ascii) (t : string) :
  splitlines_from flag (String a t)
  = if flag && Ascii.eqb a "010" then splitlines_from false t
    else if is_linebreak a
    then EmptyString :: splitlines_from (Ascii.eqb a "013") t
    else match splitlines_from false t with
         | [] => [String a EmptyString]
         | l :: ls => String a l :: ls
         end.
Proof. reflexivity. Qed.

(** After a line feed, the lines of what follows are the lines of the
    whole. *)
Lemma splitlines_from_app (t2 : string) : forall t1 flag,
  ends_lf t1 = true ->
  splitlines_from flag (t1 ++ t2)
  = splitlines_from flag t1 ++ splitlines_from false t2.
Proof.
  induction t1 as [|a t IH]; intros flag H; [discriminate|].
  destruct t as [|b t'].
  - cbn in H. apply Ascii.eqb_eq in H. subst a. now destruct flag.
  - change (ends_lf (String a (String b t'))) with (ends_lf (String b t')) in H.
    change (String a (String b t') ++ t2)%string
      with (String a (String b t' ++ t2)%string).
    rewrite (splitlines_from_cons flag a (String b t' ++ t2)),
            (splitlines_from_cons flag a (String b t')).
    destruct (flag && Ascii.eqb a "010"); [now apply IH|].
    destruct (is_linebreak a).
    + cbn [app]. f_equal. now apply IH.
    + rewrite (IH false H).
      destruct (splitlines_from false (String b t')) eqn:E; [|reflexivity].
      now apply splitlines_from_not_nil in E.
Qed.

(** X17: A class file read in two parts, the first ending with a line feed:
    the line count is the sum of the counts, the properties and the
    functions of the whole are those of the first part followed by
    those of the second, in file order, and the base class is the one
    declared last. *)
Theorem analyze_class_in_file_order (stem t1 t2 : string) :
  ends_lf t1 = true ->
  clines (analyze_class stem (Some (t1 ++ t2)%string))
  = clines (analyze_class stem (Some t1)) + clines (analyze_class stem (Some t2))
  /\ properties (analyze_class stem (Some (t1 ++ t2)%string))
     = properties (analyze_class stem (Some t1))
       ++ properties (analyze_class stem (Some t2))
  /\ functions (analyze_class stem (Some (t1 ++ t2)%string))
     = functions (analyze_class stem (Some t1))
       ++ functions (analyze_class stem (Some t2))
  /\ cextends (analyze_class stem (Some (t1 ++ t2)%string))
     = or_else (cextends (analyze_class stem (Some t2)))
               (cextends (analyze_class stem (Some t1))).
Proof.
  intros H. unfold analyze_class, splitlines. cbv zeta.
  cbn [clines properties functions cextends].
  rewrite (splitlines_from_app t2 t1 false H), List.length_app, fold_left_app.
  rewrite (fold_combine (splitlines_from false t2)).
  repeat split; reflexivity.
Qed.

Lemma analyze_class_in_file_order_witness :
  clines (analyze_class "C" (Some (sample_class ++ sample_class)%string))
  = clines (analyze_class "C" (Some sample_class))
    + clines (analyze_class "C" (Some sample_class))
  /\ properties (analyze_class "C" (Some (sample_class ++ sample_class)%string))
     = properties (analyze_class "C" (Some sample_class))
       ++ properties (analyze_class "C" (Some sample_class))
  /\ functions (analyze_class "C" (Some (sample_class ++ sample_class)%string))
     = functions (analyze_class "C" (Some sample_class))
       ++ functions (analyze_class "C" (Some sample_class))
  /\ cextends (analyze_class "C" (Some (sample_class ++ sample_class)%string))
     = or_else (cextends (analyze_class "C" (Some sample_class)))
               (cextends (analyze_class "C" (Some sample_class))).
Proof.
  apply (analyze_class_in_file_order "C" sample_class sample_class). reflexivity.
Defined.

End DeclFacts.

(** ** More on the enumeration of the source tree *)

Module WalkFacts.
Import Walker WalkerFacts.

Lemma insert_perm (e : entry) (l : list entry) : Permutation (insert e l) (e :: l).
Proof.
  induction l as [|x l IH]; cbn; [reflexivity|].
  destruct (String.leb (fst e) (fst x)); [reflexivity|].
  rewrite IH. apply perm_swap.
Qed.

(** Sorting neither loses nor duplicates entries. *)
Lemma sorted_perm (l : list entry) : Permutation (sorted l) l.
Proof.
  induction l as [|e l IH]; cbn; [reflexivity|].
  unfold sorted in IH. rewrite insert_perm. now constructor.
Qed.

Lemma exists_child (fs : node) (c : string) (p : Path) :
  exists_ fs p = false -> exists_ fs (c :: p) = false.
Proof.
  unfold exists_. rewrite stat_cons. now destruct (stat fs p) as [[|]|].
Qed.

Lemma glob_missing (fs : node) (p : Path) (ext : string) :
  exists_ fs p = false -> glob fs p ext = [].
Proof.
  unfold exists_, glob, listdir. now destruct (stat fs p) as [[|]|].
Qed.

(** X18: The methods and the classes are reported one for each entry of
    their folder that matches [*.4dm], none lost and none twice, in
    lexicographic order of the file names. *)
Theorem methods_and_classes_one_per_file
        (count_pages : string -> option nat) (fs : node) (root : Path) :
  (exists files,
      Permutation files
        (glob fs (root // "Project" // "Sources" // "Methods") ".4dm")
      /\ is_sorted (map fst files) = true
      /\ methods (walk count_pages fs root)
         = map (fun f => ClassScan.analyze_method (Str.stem (fst f)) (read_text f))
               files)
  /\ (exists files,
         Permutation files
           (glob fs (root // "Project" // "Sources" // "Classes") ".4dm")
         /\ is_sorted (map fst files) = true
         /\ classes (walk count_pages fs root)
            = map (fun f => ClassScan.analyze_class (Str.stem (fst f)) (read_text f))
                  files).
Proof.
  split.
  - exists (sorted (glob fs (root // "Project" // "Sources" // "Methods") ".4dm")).
    split; [apply sorted_perm|]. split; [apply sorted_is_sorted|].
    cbn [walk methods].
    destruct (exists_ fs (root // "Project" // "Sources" // "Methods")) eqn:E;
      [reflexivity|].
    now rewrite (glob_missing _ _ _ E).
  - exists (sorted (glob fs (root // "Project" // "Sources" // "Classes") ".4dm")).
    split; [apply sorted_perm|]. split; [apply sorted_is_sorted|].
    cbn [walk classes].
    destruct (exists_ fs (root // "Project" // "Sources" // "Classes")) eqn:E;
      [reflexivity|].
    now rewrite (glob_missing _ _ _ E).
Qed.

(** X20: A project without a [Project/Sources] folder gives an empty
    result in every category rather than an error. *)
Theorem walk_without_sources
        (count_pages : string -> option nat) (fs : node) (root : Path) :
  exists_ fs (root // "Project" // "Sources") = false ->
  walk count_pages fs root = mkWalk [] [] [] [].
Proof.
  intros H. unfold walk, analyze_forms. cbv zeta.
  unfold joinpath in *.
  now rewrite !(exists_child _ _ _ H).
Qed.

Lemma walk_without_sources_witness :
  walk (fun _ => None) two_project_files ["app"] = mkWalk [] [] [] [].
Proof.
  apply (walk_without_sources (fun _ => None) two_project_files ["app"]).
  reflexivity.
Defined.

Lemma find_entry_in (c : string) (es : list entry) (x : node) :
  find_entry c es = Some x -> In (c, x) es.
Proof.
  induction es as [|[n y] es IH]; cbn; [discriminate|].
  destruct (String.eqb n c) eqn:E.
  - apply String.eqb_eq in E. subst n. intros [= ->]. now left.
  - intros H. right. now apply IH.
Qed.

Lemma rglob_node_dir (ext : string) (es : list entry) :
  rglob_node ext (Dir es)
  = filter (matches ext) es ++ flat_map (fun e => rglob_node ext (snd e)) es.
Proof.
  cbn [rglob_node]. f_equal.
  induction es as [|[n x] es IH]; [reflexivity|].
  cbn [flat_map snd]. now rewrite <- IH.
Qed.

(** What matches in a directory reached from [n] is found from [n]. *)
Lemma rglob_node_reaches (ext : string) (e : entry) (es' : list entry) :
  forall cs n,
  walk_down n cs = Some (Dir es') ->
  In e (filter (matches ext) es') ->
  In e (rglob_node ext n).
Proof.
  induction cs as [|c cs IH]; intros n Hwalk Hin.
  - injection Hwalk as ->. rewrite rglob_node_dir. apply in_or_app. now left.
  - cbn in Hwalk. destruct n as [t|es]; [discriminate|].
    destruct (find_entry c es) as [x|] eqn:E; [|discriminate].
    rewrite rglob_node_dir. apply in_or_app. right.
    apply in_flat_map. exists (c, x). split; [now apply find_entry_in|].
    now apply IH.
Qed.

(** X21: [count_files] finds the regular files with the extension at any
    depth below the directory: a file [f] in the subfolders [rel]
    (innermost first) of [directory] is reported by its stem. *)
Theorem count_files_finds_nested
        (fs : node) (directory rel : Path) (f ext content : string) :
  stat fs (f :: rel ++ directory) = Some (File content) ->
  Str.endswith f ext = true ->
  In (Str.stem f) (count_files fs directory ext).
Proof.
  intros Hstat Hext. unfold stat in Hstat. cbn [rev] in Hstat.
  rewrite rev_app_distr, <- app_assoc, walk_down_app in Hstat.
  unfold count_files, exists_, rglob, stat.
  destruct (walk_down fs (rev directory)) as [n|]; [|discriminate].
  cbn [negb]. rewrite walk_down_app in Hstat.
  destruct (walk_down n (rev rel)) as [[t|es]|] eqn:Hrel;
    cbn in Hstat; try discriminate.
  destruct (find_entry f es) as [x|] eqn:E; [|discriminate].
  injection Hstat as ->.
  apply (in_map (fun e : entry => Str.stem (fst e)) _ (f, File content)).
  apply filter_In. split; [|reflexivity].
  eapply rglob_node_reaches; [exact Hrel|].
  apply filter_In. split; [now apply find_entry_in | exact Hext].
Qed.

Lemma count_files_finds_nested_witness :
  In (Str.stem "onWebConnection.4dm")
     (count_files nested_project ["DatabaseMethods"; "Sources"; "Project"] ".4dm").
Proof.
  apply (@count_files_finds_nested nested_project
           ["DatabaseMethods"; "Sources"; "Project"] ["web"]
           "onWebConnection.4dm" ".4dm" "");
    reflexivity.
Defined.

End WalkFacts.

(** ** The reference to a local dependency *)

Module UrlOfPath.
Import Environment ReFacts.

Lemma path_str_append (n x : string) (up : Path) :
  path_str ((n ++ x)%string :: up) = (path_str (n :: up) ++ x)%string.
Proof.
  destruct up as [|c up]; cbn [path_str].
  - reflexivity.
  - now rewrite !append_assoc.
Qed.

Lemma substring_not_empty (s : string) : forall i m,
  i < String.length s -> 0 < m -> substring i m s <> EmptyString.
Proof.
  induction s as [|a s IH]; intros i m Hi Hm; cbn in Hi; [lia|].
  destruct i as [|i]; cbn.
  - destruct m; [lia | discriminate].
  - apply IH; lia.
Qed.

(** A name without extension is its own stem. *)
Lemma stem_without_suffix (n : string) : Str.suffix n = "" -> Str.stem n = n.
Proof.
  unfold Str.suffix, Str.stem, Str.split_ext.
  destruct (Str.rfind "." n) as [i|]; [|reflexivity].
  destruct (Nat.ltb 0 i && Nat.ltb i (String.length n - 1)) eqn:E; [|reflexivity].
  cbn [snd fst]. intros H. exfalso.
  apply andb_prop in E as [_ E]. apply Nat.ltb_lt in E.
  eapply substring_not_empty; [| | exact H]; lia.
Qed.

(** X12: For a local dependency whose folder name has no extension, the
    reference written is [file://] followed by the path given, or by
    the path of an existing folder: the sibling [<name>.4dbase] first,
    else the nested [<name>/<name>.4dbase]. *)
Theorem local_reference_names_a_folder (fs : node) (n : string) (up : Path) :
  Str.suffix n = "" ->
  exists q,
    local_file_url fs (n :: up) = Some ("file://" ++ path_str q)%string
    /\ (q = n :: up
        \/ is_dir fs q = true
           /\ (q = (n ++ ".4dbase")%string :: up
               \/ q = (n ++ ".4dbase")%string :: n :: up)).
Proof.
  intros Hsuf. unfold local_file_url. cbv zeta.
  destruct (Str.endswith ("file://" ++ path_str (n :: up)) ".4dbase").
  { exists (n :: up). split; [reflexivity | now left]. }
  rewrite (stem_without_suffix _ Hsuf).
  destruct (is_dir fs ((n ++ ".4dbase")%string :: up)) eqn:E1.
  { exists ((n ++ ".4dbase")%string :: up). split.
    - now rewrite path_str_append, append_assoc.
    - right. split; [exact E1 | now left]. }
  unfold joinpath.
  destruct (is_dir fs ((n ++ ".4dbase")%string :: n :: up)) eqn:E2.
  { exists ((n ++ ".4dbase")%string :: n :: up). split; [reflexivity|].
    right. split; [exact E2 | now right]. }
  exists (n :: up). split; [reflexivity | now left].
Qed.

Lemma local_reference_names_a_folder_witness :
  exists q,
    local_file_url nested_project ["Methods"; "Sources"; "Project"]
    = Some ("file://" ++ path_str q)%string
    /\ (q = ["Methods"; "Sources"; "Project"]
        \/ is_dir nested_project q = true
           /\ (q = ("Methods" ++ ".4dbase")%string :: ["Sources"; "Project"]
               \/ q = ("Methods" ++ ".4dbase")%string
                      :: "Methods" :: ["Sources"; "Project"])).
Proof.
  apply (local_reference_names_a_folder nested_project "Methods" ["Sources"; "Project"]).
  reflexivity.
Defined.

End UrlOfPath.

(** ** Cleaning a project ([clean.py]) *)

Module CleanProjectFacts.
Import Walker CleanProject.

Lemma node_induction (P : node -> Prop) :
  (forall c, P (File c)) ->
  (forall es, Forall (fun e => P (snd e)) es -> P (Dir es)) ->
  forall n, P n.
Proof.
  intros HF HD. fix IH 1. intros [c|es]; [apply HF|]. apply HD.
  induction es as [|e l IHl]; constructor; [apply IH | exact IHl].
Qed.

Lemma prune_at_dir k pos es :
  prune_at k pos (Dir es) = Dir (prune_entries k pos es).
Proof.
  cbn [prune_at]. f_equal.
  induction es as [|[nm x] l IH]; [reflexivity|].
  unfold prune_entries, hits. cbn [flat_map fst snd].
  destruct (k pos nm (entry_is_dir (nm, x))); cbn [app]; [exact IH|].
  f_equal. exact IH.
Qed.

Lemma found_at_dir k pos es :
  found_at k pos (Dir es) =
  (map (fun e => fst e :: pos) (filter (hits k pos) es) ++ found_below k pos es)%list.
Proof.
  cbn [found_at]. f_equal.
  induction es as [|[nm x] l IH]; [reflexivity|].
  unfold found_below, hits. cbn [flat_map fst snd].
  destruct (k pos nm (entry_is_dir (nm, x))); [exact IH|].
  f_equal. exact IH.
Qed.

Lemma size_dir es : size (Dir es) = S (size_entries es).
Proof.
  cbn [size]. f_equal.
  induction es as [|[nm x] l IH]; [reflexivity|].
  cbn [size_entries fold_right snd]. f_equal. exact IH.
Qed.

Lemma prune_entries_cons k pos nm x l :
  prune_entries k pos ((nm, x) :: l) =
  if hits k pos (nm, x) then prune_entries k pos l
  else (nm, prune_at k (nm :: pos) x) :: prune_entries k pos l.
Proof.
  unfold prune_entries. cbn [flat_map fst snd].
  now destruct (hits k pos (nm, x)).
Qed.

Lemma found_below_cons k pos nm x l :
  found_below k pos ((nm, x) :: l) =
  if hits k pos (nm, x) then found_below k pos l
  else (found_at k (nm :: pos) x ++ found_below k pos l)%list.
Proof.
  unfold found_below. cbn [flat_map fst snd].
  now destruct (hits k pos (nm, x)).
Qed.

Lemma size_entries_cons nm x l :
  size_entries ((nm, x) :: l) = size x + size_entries l.
Proof. reflexivity. Qed.

Lemma is_dir_pruned k pos nm x :
  entry_is_dir (nm, prune_at k pos x) = entry_is_dir (nm, x).
Proof. destruct x; reflexivity. Qed.

Lemma hits_pruned k k' pos pos' nm x :
  hits k pos (nm, prune_at k' pos' x) = hits k pos (nm, x).
Proof. unfold hits. cbn [fst]. now rewrite is_dir_pruned. Qed.

Lemma size_pos n : 1 <= size n.
Proof. destruct n; [cbn; lia | rewrite size_dir; lia]. Qed.

(** A tree where a step finds nothing is left as it is by the step. *)
Lemma prune_clear k n :
  forall pos, found_at k pos n = [] -> prune_at k pos n = n.
Proof.
  induction n as [c|es IH] using node_induction; intros pos H; [reflexivity|].
  rewrite found_at_dir in H. apply app_eq_nil in H. destruct H as [Hh Hb].
  apply map_eq_nil in Hh.
  rewrite prune_at_dir. f_equal.
  induction es as [|[nm x] l IHl]; [reflexivity|].
  inversion IH as [|? ? Hx Hl]; subst.
  unfold prune_entries, found_below in *. cbn [flat_map filter fst snd] in *.
  destruct (hits k pos (nm, x)); [discriminate|].
  apply app_eq_nil in Hb. destruct Hb as [Hb1 Hb2].
  cbn [app]. rewrite (Hx _ Hb1). f_equal. now apply IHl.
Qed.

(** What a step finds does not grow when another step has run. *)
Lemma found_after_prune k k' n :
  forall pos, found_at k pos n = [] -> found_at k pos (prune_at k' pos n) = [].
Proof.
  induction n as [c|es IH] using node_induction; intros pos H; [reflexivity|].
  rewrite found_at_dir in H. apply app_eq_nil in H. destruct H as [Hh Hb].
  apply map_eq_nil in Hh.
  rewrite prune_at_dir, found_at_dir.
  induction es as [|[nm x] l IHl]; [reflexivity|].
  inversion IH as [|? ? Hx Hl]; subst.
  unfold prune_entries, found_below in *. cbn [flat_map filter fst snd] in *.
  destruct (hits k pos (nm, x)) eqn:Hk; [discriminate|].
  apply app_eq_nil in Hb. destruct Hb as [Hb1 Hb2].
  specialize (IHl Hl Hh Hb2).
  destruct (hits k' pos (nm, x)); cbn [app]; [exact IHl|].
  cbn [flat_map filter fst snd]. rewrite hits_pruned, Hk.
  apply app_eq_nil in IHl. destruct IHl as [I1 I2]. rewrite I1. cbn [map app].
  rewrite (Hx _ Hb1). cbn [app]. exact I2.
Qed.

(** After a step has run it finds nothing more. *)
Lemma found_own_prune k n :
  forall pos, found_at k pos (prune_at k pos n) = [].
Proof.
  induction n as [c|es IH] using node_induction; intros pos; [reflexivity|].
  rewrite prune_at_dir, found_at_dir.
  induction es as [|[nm x] l IHl]; [reflexivity|].
  inversion IH as [|? ? Hx Hl]; subst.
  specialize (IHl Hl).
  unfold prune_entries, found_below in *. cbn [flat_map filter fst snd] in *.
  destruct (hits k pos (nm, x)) eqn:Hk; cbn [app]; [exact IHl|].
  cbn [flat_map filter fst snd]. rewrite hits_pruned, Hk.
  apply app_eq_nil in IHl. destruct IHl as [I1 I2]. rewrite I1. cbn [map app].
  rewrite Hx. cbn [app]. exact I2.
Qed.

(** Every entry a step reports is an entry the tree loses. *)
Lemma prune_size k n :
  forall pos, size (prune_at k pos n) + length (found_at k pos n) <= size n.
Proof.
  induction n as [c|es IH] using node_induction; intros pos; [cbn; lia|].
  rewrite prune_at_dir, found_at_dir, !size_dir, List.length_app, List.length_map.
  enough (size_entries (prune_entries k pos es)
          + (length (filter (hits k pos) es) + length (found_below k pos es))
          <= size_entries es) by (cbn [Nat.add]; apply le_n_S; assumption).
  induction es as [|[nm x] l IHl]; [cbn; lia|].
  inversion IH as [|? ? Hx Hl]; subst.
  specialize (IHl Hl). specialize (Hx (nm :: pos)). cbn [snd] in Hx.
  pose proof (size_pos x).
  rewrite prune_entries_cons, found_below_cons, size_entries_cons.
  cbn [filter].
  destruct (hits k pos (nm, x)); cbn [length];
    rewrite ?size_entries_cons, ?List.length_app; unfold entry in *; lia.
Qed.

Lemma run_all_clear_kept (sts : list (target * (Path -> string))) k :
  forall acc, found_at k [] (fst acc) = [] ->
  found_at k [] (fst (fold_left run_step sts acc)) = [].
Proof.
  induction sts as [|st l IH]; intros acc H; [exact H|].
  cbn [fold_left]. apply IH. cbn [run_step fst]. now apply found_after_prune.
Qed.

Lemma run_all_clear (sts : list (target * (Path -> string))) :
  forall acc,
  Forall (fun st => found_at (fst st) [] (fst (fold_left run_step sts acc)) = []) sts.
Proof.
  induction sts as [|st l IH]; intros acc; constructor.
  - cbn [fold_left]. apply run_all_clear_kept. cbn [run_step fst].
    apply found_own_prune.
  - cbn [fold_left]. apply IH.
Qed.

Lemma run_on_clear (sts : list (target * (Path -> string))) :
  forall acc,
  Forall (fun st => found_at (fst st) [] (fst acc) = []) sts ->
  fold_left run_step sts acc = acc.
Proof.
  induction sts as [|st l IH]; intros [t r] H; [reflexivity|].
  inversion H as [|? ? H1 H2]; subst. cbn [fst] in *.
  cbn [fold_left]. unfold run_step at 2. cbn [fst snd].
  rewrite (prune_clear _ _ _ H1), H1. cbn [map]. rewrite app_nil_r.
  now apply IH.
Qed.

Lemma run_all_size (sts : list (target * (Path -> string))) :
  forall acc,
  size (fst (fold_left run_step sts acc)) + length (snd (fold_left run_step sts acc))
  <= size (fst acc) + length (snd acc).
Proof.
  induction sts as [|st l IH]; intros acc; [cbn [fold_left]; lia|].
  cbn [fold_left]. etransitivity; [apply IH|].
  cbn [run_step fst snd]. rewrite List.length_app, List.length_map.
  pose proof (prune_size (fst st) (fst acc) []). lia.
Qed.

Lemma run_all_silent (sts : list (target * (Path -> string))) :
  forall acc, snd (fold_left run_step sts acc) = [] ->
  snd acc = [] /\ fst (fold_left run_step sts acc) = fst acc.
Proof.
  induction sts as [|st l IH]; intros acc H; [now split|].
  cbn [fold_left] in *. destruct (IH _ H) as [Hs Hf].
  cbn [run_step fst snd] in Hs. apply app_eq_nil in Hs. destruct Hs as [Ha Hm].
  apply map_eq_nil in Hm. split; [exact Ha|].
  rewrite Hf. cbn [run_step fst]. now apply prune_clear.
Qed.

Lemma find_entry_member c es x : find_entry c es = Some x -> In (c, x) es.
Proof.
  induction es as [|[nm y] l IH]; cbn [find_entry]; [discriminate|].
  destruct (String.eqb nm c) eqn:E.
  - intros [= ->]. apply String.eqb_eq in E. subst. now left.
  - intros H. right. now apply IH.
Qed.

Lemma found_at_dir_nil k pos es :
  found_at k pos (Dir es) = [] ->
  forall e, In e es ->
  hits k pos e = false /\ found_at k (fst e :: pos) (snd e) = [].
Proof.
  rewrite found_at_dir. intros H. apply app_eq_nil in H. destruct H as [Hh Hb].
  apply map_eq_nil in Hh.
  induction es as [|[nm x] l IH]; intros e Hin; [destruct Hin|].
  destruct Hin as [<-|Hin].
  - rewrite found_below_cons in Hb. cbn [filter] in Hh.
    destruct (hits k pos (nm, x)); [discriminate|].
    apply app_eq_nil in Hb. now split.
  - rewrite found_below_cons in Hb. cbn [filter] in Hh.
    destruct (hits k pos (nm, x)); [discriminate|].
    apply app_eq_nil in Hb. now apply IH.
Qed.

(** Where a step finds nothing, no entry of the tree is one of its
    targets. *)
Lemma clear_walk k :
  forall cs n pos c x,
  found_at k pos n = [] ->
  walk_down n (cs ++ [c]) = Some x ->
  k (rev cs ++ pos)%list c (entry_is_dir (c, x)) = false.
Proof.
  induction cs as [|c0 cs IH]; intros n pos c x Hc Hw.
  - cbn [app walk_down] in Hw. destruct n as [|es]; [discriminate|].
    destruct (find_entry c es) as [y|] eqn:E; [|discriminate].
    injection Hw as <-. apply find_entry_member in E.
    now destruct (found_at_dir_nil _ _ _ Hc _ E) as [Hh _].
  - change ((c0 :: cs) ++ [c])%list with (c0 :: (cs ++ [c]))%list in Hw.
    cbn [walk_down] in Hw. destruct n as [|es]; [discriminate|].
    destruct (find_entry c0 es) as [y|] eqn:E; [|discriminate].
    apply find_entry_member in E.
    destruct (found_at_dir_nil _ _ _ Hc _ E) as [_ Hy]. cbn [fst snd] in Hy.
    cbn [rev]. rewrite <- app_assoc. cbn [app]. now apply (IH y).
Qed.

Lemma find_entry_prune k pos c es y :
  find_entry c es = Some y ->
  hits k pos (c, y) = false ->
  find_entry c (prune_entries k pos es) = Some (prune_at k (c :: pos) y).
Proof.
  intros Hf Hh. induction es as [|[nm x] l IH]; [discriminate|].
  cbn [find_entry] in Hf. rewrite prune_entries_cons.
  destruct (String.eqb nm c) eqn:E.
  - injection Hf as ->. apply String.eqb_eq in E. subst nm.
    rewrite Hh. cbn [find_entry]. now rewrite String.eqb_refl.
  - destruct (hits k pos (nm, x)); [now apply IH|].
    cbn [find_entry]. rewrite E. now apply IH.
Qed.

(** A file that a step spares is still there, with its content, once
    the step has run. *)
Lemma prune_spared k :
  forall cs n pos c,
  spared k pos cs = true ->
  walk_down n cs = Some (File c) ->
  walk_down (prune_at k pos n) cs = Some (File c).
Proof.
  induction cs as [|c0 rest IH]; intros n pos c Hs Hw.
  - cbn [walk_down] in *. injection Hw as ->. reflexivity.
  - cbn [walk_down] in Hw. destruct n as [|es]; [discriminate|].
    destruct (find_entry c0 es) as [y|] eqn:E; [|discriminate].
    assert (hits k pos (c0, y) = false /\ spared k (c0 :: pos) rest = true)
      as [Hh Hr].
    { unfold hits, entry_is_dir. cbn [fst snd]. destruct rest as [|c1 r].
      - cbn [walk_down] in Hw. injection Hw as ->. cbn [spared] in Hs.
        apply negb_true_iff in Hs. now split.
      - destruct y as [|es']; [discriminate|].
        change (spared k pos (c0 :: c1 :: r))
          with (negb (k pos c0 true) && spared k (c0 :: pos) (c1 :: r)) in Hs.
        apply andb_prop in Hs. destruct Hs as [H1 H2].
        apply negb_true_iff in H1. now split. }
    rewrite prune_at_dir. cbn [walk_down].
    rewrite (@find_entry_prune k pos c0 es y E Hh). now apply IH.
Qed.

Lemma run_all_spared (sts : list (target * (Path -> string))) cs c :
  Forall (fun st => spared (fst st) [] cs = true) sts ->
  forall acc, walk_down (fst acc) cs = Some (File c) ->
  walk_down (fst (fold_left run_step sts acc)) cs = Some (File c).
Proof.
  induction 1 as [|st l Hst Hl IH]; intros acc Hw; [exact Hw|].
  cbn [fold_left]. apply IH. cbn [run_step fst]. now apply prune_spared.
Qed.

Lemma spared_cons (k : target) pos c rest :
  k pos c true = false -> k pos c false = false ->
  spared k (c :: pos) rest = true ->
  spared k pos (c :: rest) = true.
Proof.
  intros Ht Hf Hr. destruct rest as [|c1 r].
  - cbn [spared]. now rewrite Hf.
  - change (spared k pos (c :: c1 :: r))
      with (negb (k pos c true) && spared k (c :: pos) (c1 :: r)).
    now rewrite Ht, Hr.
Qed.

Lemma spared_deep (k : target) :
  (forall pos nm d, 2 <= length pos -> k pos nm d = false) ->
  forall rest pos, 2 <= length pos -> spared k pos rest = true.
Proof.
  intros Hk. induction rest as [|c r IH]; intros pos Hp; [reflexivity|].
  apply spared_cons; try now apply Hk.
  apply IH. cbn [length]. lia.
Qed.

Lemma path_eqb_deep pos q :
  length q < 2 -> 2 <= length pos -> path_eqb pos q = false.
Proof.
  intros Hq Hp. destruct pos as [|a [|b pos]]; cbn [length] in Hp; try lia.
  destruct q as [|x [|y q]]; cbn [length] in Hq; try lia; cbn [path_eqb].
  - reflexivity.
  - now rewrite andb_false_r.
Qed.

Lemma spared_derived_data rest :
  ~ In "DerivedData" rest ->
  forall pos, spared derived_data pos rest = true.
Proof.
  induction rest as [|c r IH]; intros Hn pos; [reflexivity|].
  assert (String.eqb c "DerivedData" = false) as E.
  { apply String.eqb_neq. intros ->. apply Hn. now left. }
  apply spared_cons; unfold derived_data; rewrite ?E; try reflexivity.
  apply IH. intros Hin. apply Hn. now right.
Qed.

Lemma spared_system_file pat rest :
  String.eqb (last rest EmptyString) pat = false ->
  forall pos, spared (system_file pat) pos rest = true.
Proof.
  induction rest as [|c r IH]; intros Hl pos; [reflexivity|].
  destruct r as [|c1 r].
  - cbn [last] in Hl. cbn [spared]. unfold system_file. now rewrite Hl.
  - change (spared (system_file pat) pos (c :: c1 :: r))
      with (negb (system_file pat pos c true)
            && spared (system_file pat) (c :: pos) (c1 :: r)).
    unfold system_file at 1. cbn [negb]. rewrite andb_false_r. cbn [negb andb].
    now apply IH.
Qed.

(** X24: a second run of [clean_project] removes nothing. *)
Theorem clean_again_removes_nothing (project : node) :
  clean_project (fst (clean_project project)) = (fst (clean_project project), []).
Proof.
  unfold clean_project at 1. apply run_on_clear. cbn [fst].
  apply run_all_clear.
Qed.

(** X25: [clean_project] reports nothing exactly when it leaves the
    project as it was. *)
Theorem nothing_reported_iff_unchanged (project : node) :
  snd (clean_project project) = [] <-> fst (clean_project project) = project.
Proof.
  split; intros H.
  - now destruct (run_all_silent steps (project, []) H).
  - pose proof (run_all_size steps (project, [])) as Hs.
    fold (clean_project project) in Hs. rewrite H in Hs. cbn [fst snd length] in Hs.
    destruct (snd (clean_project project)); [reflexivity | cbn [length] in Hs; lia].
Qed.


(** X26: once [clean_project] has run, no folder [DerivedData] is left
    anywhere, the folder [Logs] is empty, and the project holds no
    folder [Libraries], no folder [userPreferences.*], no folder
    [Project/Trash], and no file [.DS_Store], [ehthumbs.db] or
    [Thumbs.db] at any depth. *)
Theorem cleaned_project_holds_no_target (project : node)
        (cs : list string) (c : string) (x : node) :
  walk_down (fst (clean_project project)) (cs ++ [c]) = Some x ->
  cs <> ["Logs"]
  /\ (entry_is_dir (c, x) = true ->
      c <> "DerivedData"
      /\ (cs = [] -> c <> "Libraries" /\ String.prefix "userPreferences." c = false)
      /\ (cs = ["Project"] -> c <> "Trash"))
  /\ (entry_is_dir (c, x) = false -> system_name c = false).
Proof.
  intros Hw.
  pose proof (run_all_clear steps (project, [])) as Hc.
  fold (clean_project project) in Hc.
  assert (forall st, In st steps ->
            fst st (rev cs) c (entry_is_dir (c, x)) = false) as Hk.
  { intros st Hin. rewrite Forall_forall in Hc. specialize (Hc _ Hin).
    pose proof (clear_walk _ _ _ [] _ Hc Hw) as H.
    now rewrite app_nil_r in H. }
  assert (derived_data (rev cs) c (entry_is_dir (c, x)) = false) as H1
    by (apply (Hk (derived_data, rel_str)); cbn; tauto).
  assert (libraries (rev cs) c (entry_is_dir (c, x)) = false) as H2
    by (apply (Hk (libraries, fun _ => "Libraries/")); cbn; tauto).
  assert (user_preferences (rev cs) c (entry_is_dir (c, x)) = false) as H3
    by (apply (Hk (user_preferences, fun p => (name p ++ "/")%string)); cbn; tauto).
  assert (trash (rev cs) c (entry_is_dir (c, x)) = false) as H4
    by (apply (Hk (trash, fun _ => "Project/Trash/")); cbn; tauto).
  assert (log_items (rev cs) c (entry_is_dir (c, x)) = false) as H5
    by (apply (Hk (log_items, fun p => ("Logs/" ++ name p)%string)); cbn; tauto).
  assert (system_file ".DS_Store" (rev cs) c (entry_is_dir (c, x)) = false) as H6
    by (apply (Hk (system_file ".DS_Store", rel_str)); cbn; tauto).
  assert (system_file "ehthumbs.db" (rev cs) c (entry_is_dir (c, x)) = false) as H7
    by (apply (Hk (system_file "ehthumbs.db", rel_str)); cbn; tauto).
  assert (system_file "Thumbs.db" (rev cs) c (entry_is_dir (c, x)) = false) as H8
    by (apply (Hk (system_file "Thumbs.db", rel_str)); cbn; tauto).
  clear Hk Hc Hw.
  split; [|split].
  - intros ->. unfold log_items in H5. discriminate H5.
  - intros Hd. rewrite Hd in *. split; [|split].
    + intros ->. discriminate H1.
    + intros ->. cbn [rev] in *. unfold libraries, user_preferences in *.
      cbn [path_eqb andb] in *. rewrite andb_true_r in *. split; [|exact H3].
      intros ->. discriminate H2.
    + intros -> ->. discriminate H4.
  - intros Hd. rewrite Hd in *. unfold system_file in *. cbn [negb] in *.
    rewrite andb_true_r in *. unfold system_name. now rewrite H6, H7, H8.
Qed.

Lemma cleaned_project_holds_no_target_witness :
  walk_down (fst (clean_project cluttered_project)) (["b"] ++ ["DerivedData"])
  = Some (File "")
  /\ ["b"] <> ["Logs"].
Proof.
  split; [reflexivity|].
  exact (proj1 (cleaned_project_holds_no_target cluttered_project
                  ["b"] "DerivedData" (x := File "") eq_refl)).
Defined.

(** X27: [clean_project] keeps every file below [Project/Sources] that
    is not in a folder [DerivedData] and is not named [.DS_Store],
    [ehthumbs.db] or [Thumbs.db], and keeps its content. *)
Theorem clean_keeps_sources (project : node) (rest : list string)
        (content : string) :
  ~ In "DerivedData" rest ->
  system_name (last rest EmptyString) = false ->
  walk_down project ("Project" :: "Sources" :: rest) = Some (File content) ->
  walk_down (fst (clean_project project)) ("Project" :: "Sources" :: rest)
  = Some (File content).
Proof.
  intros Hn Hs Hw.
  unfold system_name in Hs.
  apply orb_false_elim in Hs. destruct Hs as [Hs H3].
  apply orb_false_elim in Hs. destruct Hs as [H1 H2].
  unfold clean_project.
  apply (@run_all_spared steps ("Project" :: "Sources" :: rest) content);
    [|exact Hw].
  assert (forall pat,
            String.eqb "Sources" pat = false ->
            String.eqb (last rest EmptyString) pat = false ->
            spared (system_file pat) [] ("Project" :: "Sources" :: rest) = true)
    as Hsys.
  { intros pat Hp Hl. apply spared_system_file.
    destruct rest as [|c r]; [exact Hp|].
    change (last ("Project" :: "Sources" :: c :: r) EmptyString)
      with (last (c :: r) EmptyString). exact Hl. }
  assert (forall k : target,
            k [] "Project" true = false -> k [] "Project" false = false ->
            k ["Project"] "Sources" true = false ->
            k ["Project"] "Sources" false = false ->
            (forall pos nm d, 2 <= length pos -> k pos nm d = false) ->
            spared k [] ("Project" :: "Sources" :: rest) = true) as Hdeep.
  { intros k A B C D E. apply spared_cons; [exact A|exact B|].
    apply spared_cons; [exact C|exact D|].
    apply spared_deep; [exact E|cbn [length]; lia]. }
  unfold steps. repeat constructor; cbn [fst].
  - apply spared_derived_data. intros [H|[H|H]]; [discriminate|discriminate|tauto].
  - apply Hdeep; try reflexivity. intros pos nm d Hp. unfold libraries.
    now rewrite (@path_eqb_deep pos []) by (cbn [length]; lia).
  - apply Hdeep; try reflexivity. intros pos nm d Hp. unfold user_preferences.
    now rewrite (@path_eqb_deep pos []) by (cbn [length]; lia).
  - apply Hdeep; try reflexivity. intros pos nm d Hp. unfold trash.
    now rewrite (@path_eqb_deep pos ["Project"]) by (cbn [length]; lia).
  - apply Hdeep; try reflexivity. intros pos nm d Hp. unfold log_items.
    now rewrite (@path_eqb_deep pos ["Logs"]) by (cbn [length]; lia).
  - now apply Hsys.
  - now apply Hsys.
  - now apply Hsys.
Qed.

Lemma clean_keeps_sources_witness :
  walk_down (fst (clean_project cluttered_project))
            ("Project" :: "Sources" :: ["Methods"; "m.4dm"])
  = Some (File "code").
Proof.
  apply clean_keeps_sources.
  - cbn. intros [H|[H|[]]]; discriminate.
  - reflexivity.
  - reflexivity.
Defined.

End CleanProjectFacts.
